(** * nrfdfu: the package driver (main.c) and the BLE transport (dfu_ble.c)

    A shallow embedding of the parts of nrfdfu that open the firmware
    package, probe the bootloader and enter DFU mode over BLE, together
    with the properties of these parts that the design document states.

    The external libraries (libzip, json-c, blzlib) are not part of the
    program.  libzip is modelled by an in-memory archive, json-c by an
    interface ([JsonLib]) with a reference instance for a subset of JSON,
    and blzlib by a record of answers ([ble_env]) that the library gives to
    the program's calls. *)

From Stdlib Require Import ZArith List String Ascii Bool Lia.
From stdpp Require Import base option list gmap strings.
From Equations Require Import Equations.

Local Open Scope Z_scope.

(** ** Text and bytes *)

(** A ZIP member is a sequence of 8-bit characters. *)
Abbreviation text := (list ascii).

Definition NUL : ascii := "000"%char.
Definition DQUOTE : ascii := "034"%char.

(** The C string that starts at the first character of [bs]: everything up
    to the first NUL. *)
Fixpoint c_string (bs : text) : text :=
  match bs with
  | [] => []
  | c :: r => if Ascii.eqb c NUL then [] else c :: c_string r
  end.

(** ** json-c *)

(** The three json-c functions that [read_manifest] calls.
    [json_object_object_get_ex] answers [None] when the key is absent or the
    value is no object; [json_object_get_string] is the string of a string
    value. *)
Class JsonLib := {
  json_object : Type;
  json_tokener_parse : text -> option json_object;
  json_object_object_get_ex : json_object -> string -> option json_object;
  json_object_get_string : json_object -> string
}.

(** ** libzip *)

(** A member of the archive: its bytes, and whether [zip_fopen] succeeds on
    it. *)
Record member := Member { m_data : text; m_openable : bool }.

(** An open member, the [zip_file_t*] of the source. *)
Record zip_file := ZipFile { zf_name : string; zf_data : text }.

Abbreviation zip_t := (gmap string member).

Definition zip_fopen (zip : zip_t) (name : string) : option zip_file :=
  match zip !! name with
  | Some m => if m_openable m then Some (ZipFile name (m_data m)) else None
  | None => None
  end.

(** [zip_fread zf buf n]: the bytes stored in [buf] and the count
    returned. *)
Definition zip_fread (zf : zip_file) (n : nat) : text * Z :=
  let bs := take n (zf_data zf) in (bs, Z.of_nat (length bs)).

(** ** main.c *)

Definition EXIT_SUCCESS : Z := 0.
Definition EXIT_FAILURE : Z := 1.

(** The status a parent process sees for a [main] that returns [ret]. *)
Definition exit_status (ret : Z) : Z := ret mod 256.

(** What [main] does that is visible outside of it: the log lines, the
    calls into the DFU protocol layer (dfu.c) and the serial port. *)
Inductive event :=
| LOG_ERR (msg : string)
| serial_init
| serial_fini (fd : Z)
| sleep (sec : Z)
| dfu_ping (ok : bool)
| dfu_set_packet_receive_notification (prn : Z)
| dfu_get_serial_mtu
| dfu_object_write_procedure (type : Z) (zf : zip_file) (sz : Z).

(** The calls that put a DFU request on the wire. *)
Definition is_dfu_op (e : event) : bool :=
  match e with
  | dfu_ping _ | dfu_set_packet_receive_notification _
  | dfu_get_serial_mtu | dfu_object_write_procedure _ _ _ => true
  | _ => false
  end.

Definition dfu_ops (tr : list event) : list event := filter (fun e => is_dfu_op e = true) tr.

Section Package.

Context `{JsonLib}.

(** [zip_file_open zip name &size]: the handle (or NULL), the size stored
    through [size] and the log. *)
Definition zip_file_open (zip : zip_t) (name : string)
  : option zip_file * Z * list event :=
  match zip !! name with
  | None => (None, 0, [LOG_ERR "ZIP file does not contain"])
  | Some m =>
      let size := Z.of_nat (length (m_data m)) in
      match zip_fopen zip name with
      | None => (None, size, [LOG_ERR "Error opening in ZIP file"])
      | Some zf => (Some zf, size, [])
      end
  end.

(** Size of the local [buf] of [read_manifest]. *)
Definition MANIFEST_BUF : nat := 200.

(** [read_manifest zip &dat &bin].  [residue] is what lies in memory behind
    the bytes that [zip_fread] stored: the source hands [buf] to
    [json_tokener_parse] without terminating it.  The result is the return
    value, the two out-parameters and the log. *)
Definition read_manifest (zip : zip_t) (residue : text) (dat bin : option string)
  : Z * option string * option string * list event :=
  match zip_fopen zip "manifest.json" with
  | None => (-1, dat, bin, [LOG_ERR "ZIP file does not contain manifest"])
  | Some zf =>
      let '(buf, len) := zip_fread zf MANIFEST_BUF in
      if len <=? 0 then (-1, dat, bin, [LOG_ERR "Could not read Manifest"])
      else
        match json_tokener_parse (c_string (buf ++ residue)) with
        | None => (-1, dat, bin, [LOG_ERR "Manifest not valid JSON"])
        | Some json =>
            let '(dat, bin) :=
              match json_object_object_get_ex json "manifest" with
              | Some jobj =>
                  match json_object_object_get_ex jobj "application" with
                  | Some jobj2 =>
                      let dat :=
                        match json_object_object_get_ex jobj2 "dat_file" with
                        | Some j => Some (json_object_get_string j)
                        | None => dat
                        end in
                      let bin :=
                        match json_object_object_get_ex jobj2 "bin_file" with
                        | Some j => Some (json_object_get_string j)
                        | None => bin
                        end in
                      (dat, bin)
                  | None => (dat, bin)
                  end
              | None => (dat, bin)
              end in
            if negb (bool_decide (is_Some dat)) || negb (bool_decide (is_Some bin))
            then (-1, dat, bin, [LOG_ERR "Manifest format unknown"])
            else (0, dat, bin, [])
        end
  end.

End Package.

(** The world outside of [main]: what [zip_open] finds at [conf.zipfile],
    the memory behind the manifest buffer, the descriptor that
    [serial_init] returns and the answer of the bootloader to the n-th
    Ping. *)
Record world := World {
  w_zip : option zip_t;
  w_residue : text;
  w_serial_fd : Z;
  w_ping : nat -> bool
}.

(** A run of [main] either returns, or is still in the Ping loop when the
    iterations it was granted are used up. *)
Inductive outcome :=
| Exit (ret : Z) (tr : list event)
| Spinning (tr : list event).

(** The label [exit:] of [main]; [ser_fd] is the global descriptor. *)
Definition main_exit (ret ser_fd : Z) (tr : list event) : outcome :=
  Exit ret (tr ++ [serial_fini ser_fd]).

(** [do { ret = dfu_ping(); if (!ret) sleep(1); } while (!ret);] run for at
    most [fuel] iterations, [n] Pings having been sent before.  The flag
    tells whether the loop was left. *)
Fixpoint ping_loop (fuel : nat) (ping : nat -> bool) (n : nat) : list event * bool :=
  match fuel with
  | O => ([], false)
  | S fuel' =>
      if ping n then ([dfu_ping true], true)
      else
        let '(tr, done) := ping_loop fuel' ping (S n) in
        (dfu_ping false :: sleep 1 :: tr, done)
  end.

Section Main.

Context `{JsonLib}.

(** The upgrade proper, after the Ping loop. *)
Definition upgrade (zf1 : zip_file) (zs1 : Z) (zf2 : zip_file) (zs2 : Z) : list event :=
  [ dfu_set_packet_receive_notification 0;
    dfu_get_serial_mtu;
    dfu_object_write_procedure 1 zf1 zs1;
    dfu_object_write_procedure 2 zf2 zs2 ].

Definition main (fuel : nat) (w : world) : outcome :=
  let ret := EXIT_FAILURE in
  let ser_fd := -1 in
  match w_zip w with
  | None => main_exit ret ser_fd [LOG_ERR "Could not open ZIP file"]
  | Some zip =>
      let '(ret, dat, bin, tr) := read_manifest zip (w_residue w) None None in
      match ret <? 0, dat, bin with
      | false, Some dat, Some bin =>
          let '(zf1, zs1, tr1) := zip_file_open zip dat in
          let '(zf2, zs2, tr2) := zip_file_open zip bin in
          let tr := tr ++ tr1 ++ tr2 in
          match zf1, zf2 with
          | Some zf1, Some zf2 =>
              let ser_fd := w_serial_fd w in
              let tr := tr ++ [serial_init] in
              if ser_fd <=? 0 then main_exit ret ser_fd tr
              else
                let '(pings, done) := ping_loop fuel (w_ping w) 0 in
                if done then
                  main_exit EXIT_SUCCESS ser_fd (tr ++ pings ++ upgrade zf1 zs1 zf2 zs2)
                else Spinning (tr ++ pings)
          | _, _ => main_exit ret ser_fd tr
          end
      | _, _, _ => main_exit ret ser_fd tr
      end
  end.

(** The package and the port are in order: the manifest names two members
    that open, and the serial port opens. *)
Definition ready (w : world) (zf1 zf2 : zip_file) : Prop :=
  exists zip dat bin,
    w_zip w = Some zip /\
    read_manifest zip (w_residue w) None None = (0, Some dat, Some bin, []) /\
    zip_fopen zip dat = Some zf1 /\
    zip_fopen zip bin = Some zf2 /\
    0 < w_serial_fd w.

Definition payload_size (zf : zip_file) : Z := Z.of_nat (length (zf_data zf)).

End Main.

(** [k] Pings without an answer, each followed by its pause. *)
Fixpoint failed_pings (k : nat) : list event :=
  match k with
  | O => []
  | S k' => dfu_ping false :: sleep 1 :: failed_pings k'
  end.

(** ** A reference json-c for objects and strings *)

Module RefJson.

#[local] Set Warnings "-register-all".

Inductive jvalue :=
| JStr (s : string)
| JObj (members : list (string * jvalue)).

Definition is_ws (c : ascii) : bool :=
  Ascii.eqb c " " || Ascii.eqb c "009" || Ascii.eqb c "010" || Ascii.eqb c "013".

Fixpoint skip_ws (s : text) : text :=
  match s with
  | c :: r => if is_ws c then skip_ws r else s
  | [] => []
  end.

(** The characters of a string after its opening quote, and the rest of
    the text after the closing one. *)
Fixpoint parse_chars (s : text) (acc : text) : option (string * text) :=
  match s with
  | [] => None
  | c :: r =>
      if Ascii.eqb c DQUOTE then Some (string_of_list_ascii (rev acc), r)
      else if Ascii.eqb c "\" then
        match r with
        | e :: r' =>
            if Ascii.eqb e DQUOTE || Ascii.eqb e "\" || Ascii.eqb e "/"
            then parse_chars r' (e :: acc) else None
        | [] => None
        end
      else parse_chars r (c :: acc)
  end.

(** [json_object_object_add]: a key that is present gets the new value. *)
Fixpoint object_add (k : string) (v : jvalue) (ms : list (string * jvalue))
  : list (string * jvalue) :=
  match ms with
  | [] => [(k, v)]
  | (k', v') :: r => if String.eqb k k' then (k, v) :: r else (k', v') :: object_add k v r
  end.

Fixpoint parse_value (fuel : nat) (s : text) : option (jvalue * text) :=
  match fuel with
  | O => None
  | S fuel' =>
      match skip_ws s with
      | c :: r =>
          if Ascii.eqb c DQUOTE then
            match parse_chars r [] with
            | Some (str, r') => Some (JStr str, r')
            | None => None
            end
          else if Ascii.eqb c "{" then
            match skip_ws r with
            | c' :: r' =>
                if Ascii.eqb c' "}" then Some (JObj [], r')
                else parse_members fuel' (c' :: r') []
            | [] => None
            end
          else None
      | [] => None
      end
  end
with parse_members (fuel : nat) (s : text) (acc : list (string * jvalue))
  : option (jvalue * text) :=
  match fuel with
  | O => None
  | S fuel' =>
      match skip_ws s with
      | c :: r =>
          if Ascii.eqb c DQUOTE then
            match parse_chars r [] with
            | Some (k, r1) =>
                match skip_ws r1 with
                | c1 :: r2 =>
                    if Ascii.eqb c1 ":" then
                      match parse_value fuel' r2 with
                      | Some (v, r3) =>
                          match skip_ws r3 with
                          | c3 :: r4 =>
                              if Ascii.eqb c3 "," then parse_members fuel' r4 (object_add k v acc)
                              else if Ascii.eqb c3 "}" then Some (JObj (object_add k v acc), r4)
                              else None
                          | [] => None
                          end
                      | None => None
                      end
                    else None
                | [] => None
                end
            | None => None
            end
          else None
      | [] => None
      end
  end.

(** A text is accepted when it is one value between optional white space. *)
Definition tokener_parse (s : text) : option jvalue :=
  match parse_value (2 * length s + 2) s with
  | Some (v, r) => match skip_ws r with [] => Some v | _ => None end
  | None => None
  end.

Fixpoint assoc (k : string) (ms : list (string * jvalue)) : option jvalue :=
  match ms with
  | [] => None
  | (k', v) :: r => if String.eqb k k' then Some v else assoc k r
  end.

Definition object_get_ex (j : jvalue) (k : string) : option jvalue :=
  match j with
  | JObj ms => assoc k ms
  | JStr _ => None
  end.

(** The string of a string value; an object is printed as JSON text. *)
Fixpoint get_string (j : jvalue) : string :=
  match j with
  | JStr s => s
  | JObj ms =>
      let q := String DQUOTE EmptyString in
      let fix members (ms : list (string * jvalue)) : string :=
        match ms with
        | [] => ""
        | (k, v) :: r =>
            (q ++ k ++ q ++ ": "
               ++ match v with JStr s => q ++ s ++ q | JObj _ => get_string v end
               ++ match r with [] => " " | _ => ", " end ++ members r)%string
        end in
      ("{ " ++ members ms ++ "}")%string
  end.

#[export] Instance ref_json : JsonLib := {
  json_object := jvalue;
  json_tokener_parse := tokener_parse;
  json_object_object_get_ex := object_get_ex;
  json_object_get_string := get_string
}.

(** Text written with ['] for the double quote. *)
Definition qq (s : string) : text :=
  map (fun c => if Ascii.eqb c "'" then DQUOTE else c) (list_ascii_of_string s).

End RefJson.

(** ** dfu_ble.c over blzlib *)

Module Ble.

Definition DFU_SERVICE_UUID : string := "0000fe59-0000-1000-8000-00805f9b34fb".
Definition DFU_CONTROL_UUID : string := "8EC90001-F315-4F60-9FB8-838830DAEA50".
Definition DFU_DATA_UUID : string := "8EC90002-F315-4F60-9FB8-838830DAEA50".
Definition DFU_BUTTONLESS_UUID : string := "8EC90003-F315-4F60-9FB8-838830DAEA50".
Definition CONNECT_MAX_TRY : nat := 3.

(** Size of the static [recv_buf]. *)
Definition RECV_BUF : nat := 200.

(** Modelled from the spec: [enum BLE_ATYPE] is declared in dfu_ble.h, which
    is not among the sources; the command line knows the address types
    public and random. *)
Inductive BLE_ATYPE := BAT_PUBLIC | BAT_RANDOM.

(** A characteristic of the peer, with the answers that blzlib gives when
    the program subscribes to it and writes to it. *)
Record blz_char := BlzChar {
  ch_uuid : string;
  ch_subscribe_ok : bool;
  ch_write_ok : bool
}.

(** A service is its characteristics by UUID, a connected device its
    services by UUID. *)
Abbreviation blz_serv := (gmap string blz_char).
Abbreviation blz_dev := (gmap string blz_serv).

(** The two callbacks of the program. *)
Inductive handler := buttonless_notify | control_notify.

(** A notification or indication of the peer: when it arrives, counted in
    microseconds from the start of the wait, the characteristic and the
    value.  [n_beyond] is the byte that lies at offset 2 of the buffer in
    which blzlib hands the value to the callback when the value has fewer
    than three bytes: what a read of [data[2]] finds behind the value. *)
Record notification := Notification {
  n_time : Z;
  n_uuid : string;
  n_data : list Z;
  n_beyond : Z
}.

Inductive ble_event :=
| LOG_ERR (msg : string)
| LOG_NOTI (msg : string)
| dump_data (tag : string) (data : list Z)
| ev_sleep (sec : Z)
| ev_init (interface : string)
| ev_connect (address : string) (atype : BLE_ATYPE)
| ev_disconnect
| ev_get_serv (uuid : string)
| ev_get_char (uuid : string)
| ev_indicate_start (ch : blz_char)
| ev_notify_start (ch : blz_char)
| ev_char_write (ch : blz_char) (data : list Z)
| ev_loop_timeout (timeout_us : Z)
| ev_notification (n : notification).

(** The file-scope variables of dfu_ble.c, and what blzlib keeps: the
    subscriptions, how many connections and waits were asked for, and the
    record of the calls. *)
Record state := State {
  buttonless_noti : bool;
  control_noti : bool;
  ctx : bool;
  dev : option blz_dev;
  cp : option blz_char;
  dp : option blz_char;
  recv_buf : list Z;
  handlers : gmap string handler;
  connects : nat;
  waits : nat;
  trace : list ble_event
}.

(** Assignments to the fields.  [set_dev] is [dev = blz_connect(...)] and
    counts the call; [next_wait] counts a call of [blz_loop_timeout]; [log]
    adds a call to the record. *)
Definition set_buttonless_noti (b : bool) (s : state) : state :=
  State b (control_noti s) (ctx s) (dev s) (cp s) (dp s) (recv_buf s)
        (handlers s) (connects s) (waits s) (trace s).
Definition set_control_noti (b : bool) (s : state) : state :=
  State (buttonless_noti s) b (ctx s) (dev s) (cp s) (dp s) (recv_buf s)
        (handlers s) (connects s) (waits s) (trace s).
Definition set_ctx (b : bool) (s : state) : state :=
  State (buttonless_noti s) (control_noti s) b (dev s) (cp s) (dp s) (recv_buf s)
        (handlers s) (connects s) (waits s) (trace s).
Definition set_dev (d : option blz_dev) (s : state) : state :=
  State (buttonless_noti s) (control_noti s) (ctx s) d (cp s) (dp s) (recv_buf s)
        (handlers s) (S (connects s)) (waits s) (trace s).
Definition set_cp (c : option blz_char) (s : state) : state :=
  State (buttonless_noti s) (control_noti s) (ctx s) (dev s) c (dp s) (recv_buf s)
        (handlers s) (connects s) (waits s) (trace s).
Definition set_dp (c : option blz_char) (s : state) : state :=
  State (buttonless_noti s) (control_noti s) (ctx s) (dev s) (cp s) c (recv_buf s)
        (handlers s) (connects s) (waits s) (trace s).
Definition set_recv_buf (b : list Z) (s : state) : state :=
  State (buttonless_noti s) (control_noti s) (ctx s) (dev s) (cp s) (dp s) b
        (handlers s) (connects s) (waits s) (trace s).
Definition set_handlers (h : gmap string handler) (s : state) : state :=
  State (buttonless_noti s) (control_noti s) (ctx s) (dev s) (cp s) (dp s) (recv_buf s)
        h (connects s) (waits s) (trace s).
Definition next_wait (s : state) : state :=
  State (buttonless_noti s) (control_noti s) (ctx s) (dev s) (cp s) (dp s) (recv_buf s)
        (handlers s) (connects s) (S (waits s)) (trace s).
Definition log (e : ble_event) (s : state) : state :=
  State (buttonless_noti s) (control_noti s) (ctx s) (dev s) (cp s) (dp s) (recv_buf s)
        (handlers s) (connects s) (waits s) (trace s ++ [e]).

(** The state in which the program starts. *)
Definition initial : state :=
  State false false false None None None (repeat 0 RECV_BUF) ∅ 0 0 [].

(** [mac[0]++] on an array of [uint8_t]. *)
Definition mac_hop (mac : list Z) : list Z := alter (fun b => (b + 1) mod 256) 0%nat mac.

(** [mac[5]++], the hop of the older copy of [ble_enter_dfu]. *)
Definition legacy_mac_hop (mac : list Z) : list Z := alter (fun b => (b + 1) mod 256) 5%nat mac.

(** The number that an address array stands for when byte 0 is the
    low-order byte, the reading under which [mac[0]++] is what the comment
    in the source calls it: increase MAC address by one. *)
Definition mac_value (mac : list Z) : Z := foldr (fun b acc => b + 256 * acc) 0 mac.

(** [memcpy(recv_buf, data, len)], for [len] up to the size of the buffer. *)
Definition memcpy (buf data : list Z) : list Z := data ++ drop (length data) buf.

(** A function body either goes on with a value or returns. *)
Inductive flow (A : Type) :=
| Next (a : A)
| Return (b : bool).
Arguments Next {A} a.
Arguments Return {A} b.

Definition M (A : Type) : Type := state -> flow A * state.

#[export] Instance M_ret : MRet M := fun A a s => (Next a, s).
#[export] Instance M_bind : MBind M := fun A B f m s =>
  match m s with
  | (Next a, s') => f a s'
  | (Return b, s') => (Return b, s')
  end.

Definition return_ {A} (b : bool) : M A := fun s => (Return b, s).
Definition emit (e : ble_event) : M unit := fun s => (Next tt, log e s).
Definition modify (f : state -> state) : M unit := fun s => (Next tt, f s).

(** The value that the function returns and the state it leaves. *)
Definition run (m : M bool) (s : state) : bool * state :=
  match m s with
  | (Next b, s') => (b, s')
  | (Return b, s') => (b, s')
  end.

Section Program.

(** blzlib and the radio: whether the interface initialises, the device
    that the n-th [blz_connect] reaches at an address, the notifications
    that arrive during the n-th wait, the two address conversions, and
    whether [conf.loglevel] reaches [LL_DEBUG]. *)
Record ble_env := BleEnv {
  env_init : string -> bool;
  env_connect : nat -> string -> option blz_dev;
  env_notifications : nat -> list notification;
  blz_string_to_mac_s : string -> list Z;
  blz_mac_to_string_s : list Z -> string;
  env_debug : bool
}.

Variable env : ble_env.

(** *** The callbacks *)

(** [data[2]]: the third byte of the value.  The source does not look at
    [len]; for a value of fewer than three bytes it reads behind the value
    and finds [beyond] there. *)
Definition data_2 (data : list Z) (beyond : Z) : Z := default beyond (data !! 2%nat).

Definition buttonless_notify_handler (data : list Z) (beyond : Z) (s : state) : state :=
  let s := if bool_decide (data_2 data beyond = 1) then s
           else log (LOG_ERR "Unexpected response") s in
  set_buttonless_noti true s.

Definition control_notify_handler (data : list Z) (s : state) : state :=
  let s := set_recv_buf (memcpy (recv_buf s) data) s in
  let s := set_control_noti true s in
  if env_debug env then log (dump_data "RX: " data) s else s.

(** *** blzlib *)

(** Each call is recorded and answered from [env].  [blz_connect] stands for
    the assignment [dev = blz_connect(...)]; the subscriptions end with the
    connection; a lookup goes by the UUID that the program passes. *)
Definition blz_init (interface : string) : M bool := fun s =>
  let ok := env_init env interface in
  (Next ok, set_ctx ok (log (ev_init interface) s)).

Definition blz_connect (address : string) (atype : BLE_ATYPE) : M (option blz_dev) := fun s =>
  let d := env_connect env (connects s) address in
  (Next d, set_dev d (log (ev_connect address atype) s)).

Definition blz_disconnect : M unit := fun s =>
  (Next tt, set_handlers ∅ (log ev_disconnect s)).

Definition blz_get_serv_from_uuid (uuid : string) : M (option blz_serv) := fun s =>
  (Next (d ← dev s; d !! uuid), log (ev_get_serv uuid) s).

Definition blz_get_char_from_uuid (srv : blz_serv) (uuid : string) : M (option blz_char) :=
  fun s => (Next (srv !! uuid), log (ev_get_char uuid) s).

Definition subscribe (ch : blz_char) (h : handler) (s : state) : state :=
  if ch_subscribe_ok ch then set_handlers (<[ch_uuid ch := h]> (handlers s)) s else s.

Definition blz_char_indicate_start (ch : blz_char) (h : handler) : M bool := fun s =>
  (Next (ch_subscribe_ok ch), subscribe ch h (log (ev_indicate_start ch) s)).

Definition blz_char_notify_start (ch : blz_char) (h : handler) : M bool := fun s =>
  (Next (ch_subscribe_ok ch), subscribe ch h (log (ev_notify_start ch) s)).

Definition blz_char_write (ch : blz_char) (data : list Z) : M bool := fun s =>
  (Next (ch_write_ok ch), log (ev_char_write ch data) s).

(** A notification is handed to the callback that is subscribed to its
    characteristic. *)
Definition dispatch (n : notification) (s : state) : state :=
  let s := log (ev_notification n) s in
  match handlers s !! n_uuid n with
  | Some buttonless_notify => buttonless_notify_handler (n_data n) (n_beyond n) s
  | Some control_notify => control_notify_handler (n_data n) s
  | None => s
  end.

(** The loop of [blz_loop_timeout]: it hands the notifications to their
    callbacks one by one until the flag is set or the time is over. *)
Fixpoint loop_events (check : state -> bool) (timeout_us : Z)
         (ns : list notification) (s : state) : state :=
  match ns with
  | [] => s
  | n :: ns' =>
      if check s then s
      else if timeout_us <=? n_time n then s
      else loop_events check timeout_us ns' (dispatch n s)
  end.

Definition blz_loop_timeout (check : state -> bool) (timeout_us : Z) : M unit := fun s =>
  let ns := env_notifications env (waits s) in
  (Next tt, loop_events check timeout_us ns (next_wait (log (ev_loop_timeout timeout_us) s))).

(** *** ble_enter_dfu *)

(** One round of the [do ... while] loop of lines 102-110. *)
Definition connect_once (address : string) (atype : BLE_ATYPE) (s : state) : state :=
  let s := log (LOG_NOTI "Connecting to") s in
  let '(_, s) := blz_connect address atype s in
  match dev s with
  | None => log (ev_sleep 5) (log (LOG_ERR "Could not connect to") s)
  | Some _ => s
  end.

(** The loop, entered with [trynum] failures behind: the value of [trynum]
    and the state when it is left. *)
Equations? connect_loop (address : string) (atype : BLE_ATYPE) (trynum : nat) (s : state)
  : nat * state by wf (CONNECT_MAX_TRY - trynum)%nat lt :=
  connect_loop address atype trynum s :=
    let s' := connect_once address atype s in
    match dev s' with
    | Some _ => (trynum, s')
    | None =>
        match lt_dec (S trynum) CONNECT_MAX_TRY with
        | left _ => connect_loop address atype (S trynum) s'
        | right _ => (S trynum, s')
        end
    end.
Proof. unfold CONNECT_MAX_TRY in *. lia. Qed.

(** [{ LOG_ERR(msg); return false; }] *)
Definition fail {A} (msg : string) : M A := emit (LOG_ERR msg);; return_ false.

(** The label [dfutarg_found:], reached with the control point [c]. *)
Definition dfutarg_found (c : blz_char) : M bool :=
  emit (LOG_NOTI "DFU characteristics found");;
  b ← blz_char_notify_start c control_notify;
  if negb b then fail "Could not start CP notification"
  else mret true.

(** Lines 165-182: what is looked up on DfuTarg once [blz_connect] has
    answered [d]; the result is the control point. *)
Definition dfutarg_lookup (d : option blz_dev) : M blz_char :=
  match d with
  | None => fail "Could not connect DfuTarg"
  | Some _ =>
      srv ← blz_get_serv_from_uuid DFU_SERVICE_UUID;
      match srv with
      | None => fail "DFU Service not found"
      | Some srv =>
          d ← blz_get_char_from_uuid srv DFU_DATA_UUID;
          modify (set_dp d);;
          c ← blz_get_char_from_uuid srv DFU_CONTROL_UUID;
          modify (set_cp c);;
          match d, c with
          | Some _, Some c => mret c
          | _, _ =>
              emit (LOG_ERR "Could not find DFU UUIDs");;
              modify (set_dp None);;
              modify (set_cp None);;
              return_ false
          end
      end
  end.

(** Lines 158-164: the connection to DfuTarg, one address further. *)
Definition dfutarg_connect (address : string) (atype : BLE_ATYPE) : M blz_char :=
  let mac := mac_hop (blz_string_to_mac_s env address) in
  let macs := blz_mac_to_string_s env mac in
  emit (LOG_NOTI "Connecting to DfuTarg");;
  d ← blz_connect macs atype;
  dfutarg_lookup d.

(** Lines 136-156: the buttonless characteristic [bch] is told to enter the
    bootloader; then on to DfuTarg. *)
Definition buttonless_entry (bch : blz_char) (address : string) (atype : BLE_ATYPE)
  : M blz_char :=
  b ← blz_char_indicate_start bch buttonless_notify;
  if negb b then fail "Could not start buttonless notification" else
  emit (LOG_NOTI "Enter DFU Bootloader");;
  b ← blz_char_write bch [1];
  if negb b then fail "Could not write buttonless" else
  blz_loop_timeout buttonless_noti 10000000;;
  blz_disconnect;;
  dfutarg_connect address atype.

(** Lines 123-192: what [ble_enter_dfu] does with the DFU service [srv] of
    the device it has connected to. *)
Definition discover (srv : blz_serv) (address : string) (atype : BLE_ATYPE) : M bool :=
  bch ← blz_get_char_from_uuid srv DFU_BUTTONLESS_UUID;
  match bch with
  | None =>
      emit (LOG_ERR "Could not find buttonless DFU UUID");;
      d ← blz_get_char_from_uuid srv DFU_DATA_UUID;
      modify (set_dp d);;
      c ← blz_get_char_from_uuid srv DFU_CONTROL_UUID;
      modify (set_cp c);;
      match d, c with
      | Some _, Some c => dfutarg_found c
      | _, _ => return_ false
      end
  | Some bch =>
      c ← buttonless_entry bch address atype;
      dfutarg_found c
  end.

Definition ble_enter_dfu (interface address : string) (atype : BLE_ATYPE) : M bool :=
  ok ← blz_init interface;
  if negb ok then fail "Could not initialize BLE interface" else
  trynum ← (fun s => let '(n, s') := connect_loop address atype 0 s in (Next n, s'));
  if (CONNECT_MAX_TRY <=? trynum)%nat then fail "Gave up connecting to" else
  srv ← blz_get_serv_from_uuid DFU_SERVICE_UUID;
  match srv with
  | None => fail "DFU Service not found"
  | Some srv => discover srv address atype
  end.

(** *** ble_read *)

Definition ble_read (s : state) : option (list Z) * state :=
  let s := set_control_noti false s in
  let '(_, s) := blz_loop_timeout control_noti 10000000 s in
  if negb (control_noti s)
  then (None, log (LOG_ERR "BLE waiting for notification failed") s)
  else (Some (recv_buf s), s).

End Program.

(** *** What the properties speak of *)

Section Notions.

Variable env : ble_env.

(** The state after [blz_init] has succeeded. *)
Definition initialised (interface : string) (s : state) : state :=
  set_ctx true (log (ev_init interface) s).

(** The state in which the service has been looked up and the buttonless
    characteristic asked for. *)
Definition discovered (s1 : state) : state :=
  log (ev_get_char DFU_BUTTONLESS_UUID) (log (ev_get_serv DFU_SERVICE_UUID) s1).

(** What the callback adds to the log for a value that has a third byte. *)
Definition unexpected (data : list Z) : list ble_event :=
  if bool_decide (data !! 2%nat = Some 1) then [] else [LOG_ERR "Unexpected response"].

(** [k] attempts that failed, each with its pause. *)
Fixpoint failed_attempts (address : string) (atype : BLE_ATYPE) (k : nat) : list ble_event :=
  match k with
  | O => []
  | S k' =>
      [ LOG_NOTI "Connecting to"; ev_connect address atype;
        LOG_ERR "Could not connect to"; ev_sleep 5 ] ++ failed_attempts address atype k'
  end.

Definition appends {A} (m : M A) : Prop :=
  forall s, exists t, trace (m s).2 = trace s ++ t.

(** The calls that touch a characteristic of the peer. *)
Definition touches_characteristic (e : ble_event) : bool :=
  match e with
  | ev_get_char _ | ev_indicate_start _ | ev_notify_start _ | ev_char_write _ _ => true
  | _ => false
  end.

(** The state in which the wait for the buttonless characteristic [bch]
    starts: subscribed, 0x01 written, the loop entered. *)
Definition armed (bch : blz_char) (s0 : state) : state :=
  next_wait
    (log (ev_loop_timeout 10000000)
       (log (ev_char_write bch [1])
          (log (LOG_NOTI "Enter DFU Bootloader")
             (set_handlers (<[ch_uuid bch := buttonless_notify]> (handlers s0))
                (log (ev_indicate_start bch) s0))))).

(** The state in which that wait ends, and the one after the
    disconnection. *)
Definition waited (bch : blz_char) (s0 : state) : state :=
  loop_events env buttonless_noti 10000000 (env_notifications env (waits s0)) (armed bch s0).

Definition disconnected (s : state) : state := set_handlers ∅ (log ev_disconnect s).

(** The address of DfuTarg. *)
Definition dfutarg_address (address : string) : string :=
  blz_mac_to_string_s env (mac_hop (blz_string_to_mac_s env address)).

End Notions.

End Ble.

(** ** Concrete packages *)

Module Packages.

Import RefJson.

(** The manifest that nrfutil writes for an application image. *)
Definition manifest : text :=
  qq "{ 'manifest': { 'application': { 'bin_file': 'app.bin', 'dat_file': 'app.dat' } } }".

(** The same manifest followed by spaces, 233 bytes in all. *)
Definition padded_manifest : text := manifest ++ repeat " "%char 150.

(** A manifest of 240 bytes in which the name of the firmware runs over the
    200th byte. *)
Definition long_manifest : text :=
  qq "{ 'manifest': { 'application': { 'dat_file': 'app.dat', 'bin_file': '"
    ++ repeat "a"%char 160 ++ qq ".bin' } } }".

Definition package (mf init fw : text) : zip_t :=
  <["manifest.json"%string := Member mf true]>
    (<["app.dat"%string := Member init true]>
       (<["app.bin"%string := Member fw true]> ∅)).

(** The bootloader answers the Ping number [k] and none before. *)
Definition answers_at (k : nat) : nat -> bool := fun n => Nat.leb k n.

Definition world_of (zip : zip_t) (k : nat) : world :=
  {| w_zip := Some zip; w_residue := []; w_serial_fd := 3; w_ping := answers_at k |}.

Definition init_packet : text := qq "init".
Definition firmware : text := qq "firmware".

Definition dat_file (init : text) : zip_file := ZipFile "app.dat" init.
Definition bin_file : zip_file := ZipFile "app.bin" firmware.

End Packages.

Module Peers.

Import Ble.

Definition buttonless_char : blz_char := BlzChar DFU_BUTTONLESS_UUID true true.
Definition control_char : blz_char := BlzChar DFU_CONTROL_UUID true true.
Definition data_char : blz_char := BlzChar DFU_DATA_UUID true true.

(** A control point on which [blz_char_notify_start] fails. *)
Definition deaf_control_char : blz_char := BlzChar DFU_CONTROL_UUID false true.

(** The service of a device that runs its application, and of one that
    runs the bootloader with control point [c]. *)
Definition application_service : blz_serv := {[ DFU_BUTTONLESS_UUID := buttonless_char ]}.
Definition dfutarg_service (c : blz_char) : blz_serv :=
  <[DFU_CONTROL_UUID := c]> {[ DFU_DATA_UUID := data_char ]}.

Definition application : blz_dev := {[ DFU_SERVICE_UUID := application_service ]}.
Definition dfutarg (c : blz_char) : blz_dev := {[ DFU_SERVICE_UUID := dfutarg_service c ]}.

(** A radio on which the first [fails] connections fail; the address "app"
    then reaches [first], any other address reaches DfuTarg.  Addresses
    are plain names here. *)
Definition radio (fails : nat) (first : blz_dev) (arrivals : nat -> list notification)
  : ble_env :=
  {| env_init := fun _ => true;
     env_connect := fun n a =>
       if (n <? fails)%nat then None
       else if String.eqb a "app" then Some first else Some (dfutarg control_char);
     env_notifications := arrivals;
     blz_string_to_mac_s := fun _ => [1; 0; 0; 0; 0; 192];
     blz_mac_to_string_s := fun _ => "dfutarg"%string;
     env_debug := false |}.

Definition quiet : nat -> list notification := fun _ => [].

(** The buttonless characteristic answers with a third byte of 0x02 and
    then with one of 0x01. *)
Definition refused : notification := Notification 5 DFU_BUTTONLESS_UUID [32; 1; 2] 0.
Definition confirmed : notification := Notification 6 DFU_BUTTONLESS_UUID [32; 1; 1] 0.
Definition refusing : nat -> list notification :=
  fun n => match n with O => [refused; confirmed] | _ => [] end.

Definition response : notification := Notification 7 DFU_CONTROL_UUID [96; 1; 1] 0.

(** The state in which the connection loop of a run on [env] ends. *)
Definition connected (env : ble_env) : state :=
  (connect_loop env "app" BAT_RANDOM 0 (initialised "hci0" initial)).2.

(** A state in which the control point is subscribed. *)
Definition listening : state := set_handlers {[ DFU_CONTROL_UUID := control_notify ]} initial.

End Peers.

(** ** main_options *)

(** [struct config] of conf.h; the strings are pointers that may be NULL. *)
Record config := Config {
  conf_debug : Z;
  conf_serport : option string;
  conf_zipfile : option string
}.

(** The global [conf] when the program starts: static storage is zeroed. *)
Definition conf_start : config := Config 0 None None.

(** What [main_options] writes to the standard error. *)
Inductive option_output :=
| usage
| garbage_arguments (arg : string).

(** The characters that [getopt_long] returns for the three options. *)
Definition opt_h : Z := 104.
Definition opt_d : Z := 100.
Definition opt_p : Z := 112.

Section Options.

(** [atoi] of the C library. *)
Variable atoi : string -> Z.

(** The [switch] on a value [n >= 0] that [getopt_long] has returned, with
    [optarg]. *)
Definition option_switch (conf : config) (n : Z) (optarg : option string)
  : config * list option_output :=
  if n =? opt_h then (conf, [usage])
  else if n =? opt_d then
    match optarg with
    | None => (Config 1 (conf_serport conf) (conf_zipfile conf), [])
    | Some a => (Config (atoi a) (conf_serport conf) (conf_zipfile conf), [])
    end
  else if n =? opt_p then (Config (conf_debug conf) optarg (conf_zipfile conf), [])
  else (conf, []).

(** The [while (n >= 0)] loop.  [gets] are the values that the successive
    calls of [getopt_long] return, each with its [optarg]; the end of the
    list stands for the -1 that ends the options. *)
Fixpoint getopt_loop (gets : list (Z * option string)) (conf : config)
  : config * list option_output :=
  match gets with
  | [] => (conf, [])
  | (n, optarg) :: gets' =>
      if n <? 0 then (conf, [])
      else
        let '(conf, out) := option_switch conf n optarg in
        let '(conf, out') := getopt_loop gets' conf in
        (conf, out ++ out')
  end.

(** [main_options]; [rest] is [argv[optind]] to [argv[argc - 1]], the
    arguments that [getopt_long] has left. *)
Definition main_options (gets : list (Z * option string)) (rest : list string)
           (conf : config) : config * list option_output :=
  let conf := Config (conf_debug conf) (Some "/dev/ttyUSB0"%string) (conf_zipfile conf) in
  let '(conf, out) := getopt_loop gets conf in
  match rest with
  | [] => (conf, out)
  | zipfile :: rest' =>
      let conf := Config (conf_debug conf) (conf_serport conf) (Some zipfile) in
      match rest' with
      | [] => (conf, out)
      | arg :: _ => (conf, out ++ [garbage_arguments arg])
      end
  end.

(** The machine on which the program runs: what [zip_open] finds at a path
    and what [serial_init] returns for a port, besides the parts of a
    [world] that do not depend on the options. *)
Record system := System {
  sys_zip_open : option string -> option zip_t;
  sys_residue : text;
  sys_serial_init : option string -> Z;
  sys_ping : nat -> bool
}.

Definition world_at (sys : system) (conf : config) : world :=
  {| w_zip := sys_zip_open sys (conf_zipfile conf);
     w_residue := sys_residue sys;
     w_serial_fd := sys_serial_init sys (conf_serport conf);
     w_ping := sys_ping sys |}.

Context `{JsonLib}.

(** The program from its first line: the options, then the rest of
    [main]. *)
Definition nrfdfu (gets : list (Z * option string)) (rest : list string)
           (sys : system) (fuel : nat) : list option_output * outcome :=
  let '(conf, out) := main_options gets rest conf_start in
  (out, main fuel (world_at sys conf)).

End Options.

(** The record of a run, returned or not. *)
Definition outcome_trace (o : outcome) : list event :=
  match o with
  | Exit _ tr => tr
  | Spinning tr => tr
  end.

Definition is_log (e : event) : bool :=
  match e with
  | LOG_ERR _ => true
  | _ => false
  end.

Definition is_serial_init (e : event) : bool :=
  match e with
  | serial_init => true
  | _ => false
  end.

Definition is_serial_fini (e : event) : bool :=
  match e with
  | serial_fini _ => true
  | _ => false
  end.

Section ManifestText.

Context `{JsonLib}.

(** What [read_manifest] does with the text [seen] that it hands to the
    parser, once the manifest is open and not empty. *)
Definition manifest_result (seen : text) (dat bin : option string)
  : Z * option string * option string * list event :=
  match json_tokener_parse seen with
  | None => (-1, dat, bin, [LOG_ERR "Manifest not valid JSON"])
  | Some json =>
      let '(dat, bin) :=
        match json_object_object_get_ex json "manifest" with
        | Some jobj =>
            match json_object_object_get_ex jobj "application" with
            | Some jobj2 =>
                (match json_object_object_get_ex jobj2 "dat_file" with
                 | Some j => Some (json_object_get_string j)
                 | None => dat
                 end,
                 match json_object_object_get_ex jobj2 "bin_file" with
                 | Some j => Some (json_object_get_string j)
                 | None => bin
                 end)
            | None => (dat, bin)
            end
        | None => (dat, bin)
        end in
      if negb (bool_decide (is_Some dat)) || negb (bool_decide (is_Some bin))
      then (-1, dat, bin, [LOG_ERR "Manifest format unknown"])
      else (0, dat, bin, [])
  end.

End ManifestText.

(** ** The rest of the transport of dfu_ble.c *)

Module Transport.

Import Ble.

Section Io.

Variable env : ble_env.

(** [ble_write_ctrl].  With [cp] NULL the source hands NULL to blzlib; the
    model has no result there. *)
Definition ble_write_ctrl (req : list Z) (s : state) : option (bool * state) :=
  let s := if env_debug env then log (dump_data "CP: " req) s else s in
  match cp s with
  | Some c => Some (run (blz_char_write c req) s)
  | None => None
  end.

End Io.

(** What a call costs: a connection, a wait, a write, a disconnection, and
    the seconds of a pause. *)
Definition connect_cost (e : ble_event) : nat :=
  match e with ev_connect _ _ => 1 | _ => 0 end.
Definition wait_cost (e : ble_event) : nat :=
  match e with ev_loop_timeout _ => 1 | _ => 0 end.
Definition write_cost (e : ble_event) : nat :=
  match e with ev_char_write _ _ => 1 | _ => 0 end.
Definition disconnect_cost (e : ble_event) : nat :=
  match e with ev_disconnect => 1 | _ => 0 end.
Definition sleep_cost (e : ble_event) : nat :=
  match e with ev_sleep sec => Z.to_nat sec | _ => 0 end.

Definition cost (w : ble_event -> nat) (t : list ble_event) : nat :=
  foldr (fun e n => (w e + n)%nat) 0%nat t.

(** What arrives from outside or is only written to the log during a wait. *)
Definition incoming (e : ble_event) : bool :=
  match e with
  | LOG_ERR _ | dump_data _ _ | ev_notification _ => true
  | _ => false
  end.

(** The step [m] adds calls of a cost of at most [n] to the record. *)
Definition within (w : ble_event -> nat) (n : nat) {A} (m : M A) : Prop :=
  forall s, exists t, trace (m s).2 = trace s ++ t /\ (cost w t <= n)%nat.

(** The facts that a caller of the transport relies on after a successful
    [ble_enter_dfu]. *)
Definition usable (s' : state) (c d : blz_char) : Prop :=
  cp s' = Some c /\ dp s' = Some d /\
  ch_subscribe_ok c = true /\
  handlers s' !! ch_uuid c = Some control_notify /\
  (exists dv srv,
      dev s' = Some dv /\ dv !! DFU_SERVICE_UUID = Some srv /\
      srv !! DFU_CONTROL_UUID = Some c /\ srv !! DFU_DATA_UUID = Some d) /\
  last (trace s') = Some (ev_notify_start c).

End Transport.

(** ** Concrete runs of the rest of the program *)

Module Examples.

Import RefJson Packages Ble Peers.

(** A manifest with a NUL after its object, and what follows the NUL in
    two archives. *)
Definition cut_manifest (post : text) : text := manifest ++ NUL :: post.

(** A manifest whose closing brace lies behind the buffer. *)
Definition open_manifest : text :=
  qq "{ 'manifest': { 'application': { 'bin_file': 'app.bin', 'dat_file': 'app.dat' } } ".
Definition behind_buffer : text := qq "}" ++ NUL :: qq "left over".

(** [atoi] on the arguments of the runs below. *)
Definition atoi (a : string) : Z := if String.eqb a "2" then 2 else 0.

(** nrfdfu -d -p /dev/ttyACM0 -h app.zip more *)
Definition command_line : list (Z * option string) :=
  [ (opt_d, None); (opt_p, Some "/dev/ttyACM0"%string); (opt_h, None) ].

(** A device without the DFU service, a service that lacks the control
    point, and a buttonless characteristic that refuses the write. *)
Definition plain_device : blz_dev := {[ "00001800-0000-1000-8000-00805f9b34fb"%string := ∅ ]}.
Definition data_only_service : blz_serv := {[ DFU_DATA_UUID := data_char ]}.
Definition data_only_device : blz_dev := {[ DFU_SERVICE_UUID := data_only_service ]}.
Definition locked_char : blz_char := BlzChar DFU_BUTTONLESS_UUID true false.
Definition locked_service : blz_serv := {[ DFU_BUTTONLESS_UUID := locked_char ]}.
Definition locked_device : blz_dev := {[ DFU_SERVICE_UUID := locked_service ]}.

(** A radio on which the address "app" reaches the application and every
    other address a bootloader without control point. *)
Definition broken_radio : ble_env :=
  {| env_init := fun _ => true;
     env_connect := fun n a =>
       if String.eqb a "app" then Some application else Some data_only_device;
     env_notifications := quiet;
     blz_string_to_mac_s := fun _ => [1; 0; 0; 0; 0; 192];
     blz_mac_to_string_s := fun _ => "dfutarg"%string;
     env_debug := false |}.

(** During the buttonless wait a notification of the control point, to
    which nothing is subscribed yet, arrives before the answer. *)
Definition early : notification := Notification 3 DFU_CONTROL_UUID [96; 1; 1] 0.
Definition crossing : nat -> list notification :=
  fun n => match n with O => [early; confirmed] | _ => [] end.

(** An answer of the buttonless characteristic of two bytes only, with
    0x01 behind it in the buffer of the callback. *)
Definition clipped : notification := Notification 5 DFU_BUTTONLESS_UUID [32; 1] 1.
Definition clipping : nat -> list notification :=
  fun n => match n with O => [clipped] | _ => [] end.

(** The bootloader answers every read at once. *)
Definition answering : nat -> list notification := fun _ => [response].

(** The state in which a run of [ble_enter_dfu] on [env] ends. *)
Definition entered (env : ble_env) : state :=
  (run (ble_enter_dfu env "hci0" "app" BAT_RANDOM) initial).2.

End Examples.

(** * Properties of main.c *)

Lemma ping_loop_success (ping : nat -> bool) (k : nat) :
  forall fuel n,
    (forall i, (i < k)%nat -> ping (n + i)%nat = false) ->
    ping (n + k)%nat = true ->
    (k < fuel)%nat ->
    ping_loop fuel ping n = (failed_pings k ++ [dfu_ping true], true).
Proof.
  induction k as [|k IH]; intros fuel n Hfail Hok Hfuel.
  - destruct fuel as [|fuel]; [lia|]. simpl.
    rewrite Nat.add_0_r in Hok. now rewrite Hok.
  - destruct fuel as [|fuel]; [lia|]. simpl.
    assert (Hn : ping n = false).
    { specialize (Hfail O). rewrite Nat.add_0_r in Hfail. apply Hfail. lia. }
    rewrite Hn, (IH fuel (S n)); [reflexivity| | |lia].
    + intros i Hi. replace (S n + i)%nat with (n + S i)%nat by lia. apply Hfail. lia.
    + now replace (S n + k)%nat with (n + S k)%nat by lia.
Qed.

Lemma ping_loop_spin (ping : nat -> bool) :
  forall fuel n,
    (forall i, ping (n + i)%nat = false) ->
    ping_loop fuel ping n = (failed_pings fuel, false).
Proof.
  induction fuel as [|fuel IH]; intros n Hfail; simpl; [reflexivity|].
  assert (Hn : ping n = false).
  { specialize (Hfail O). now rewrite Nat.add_0_r in Hfail. }
  rewrite Hn, IH; [reflexivity|].
  intros i. replace (S n + i)%nat with (n + S i)%nat by lia. apply Hfail.
Qed.

(** Whatever the bootloader answers, the loop has sent some [k] Pings in
    vain and then either left on an answer or used up its iterations. *)
Lemma ping_loop_shape (ping : nat -> bool) :
  forall fuel n,
    (exists k, (k < fuel)%nat /\
       ping_loop fuel ping n = (failed_pings k ++ [dfu_ping true], true)) \/
    ping_loop fuel ping n = (failed_pings fuel, false).
Proof.
  induction fuel as [|fuel IH]; intros n; simpl; [now right|].
  destruct (ping n).
  - left. exists O. split; [lia|reflexivity].
  - destruct (IH (S n)) as [(k & Hk & ->)| ->].
    + left. exists (S k). split; [lia|reflexivity].
    + now right.
Qed.

Lemma dfu_ops_app (a b : list event) : dfu_ops (a ++ b) = dfu_ops a ++ dfu_ops b.
Proof. unfold dfu_ops. apply filter_app. Qed.

Lemma dfu_ops_cons (e : event) (l : list event) :
  dfu_ops (e :: l) = if is_dfu_op e then e :: dfu_ops l else dfu_ops l.
Proof.
  unfold dfu_ops. rewrite filter_cons.
  destruct (is_dfu_op e); case_decide; congruence.
Qed.

Lemma dfu_ops_failed_pings (k : nat) : dfu_ops (failed_pings k) = repeat (dfu_ping false) k.
Proof. induction k as [|k IH]; [reflexivity|]. cbn. now f_equal. Qed.

Lemma In_failed_pings (k : nat) : ~ In (dfu_ping true) (failed_pings k).
Proof. induction k as [|k IH]; simpl; [tauto|]. intros [?|[?|?]]; try discriminate; tauto. Qed.

Section MainProperties.

Context `{JsonLib}.

Lemma zip_file_open_Some (zip : zip_t) (name : string) (zf : zip_file) :
  zip_fopen zip name = Some zf ->
  zip_file_open zip name = (Some zf, payload_size zf, []).
Proof.
  unfold zip_file_open. intros Hopen. rewrite Hopen.
  unfold zip_fopen in Hopen.
  destruct (zip !! name) as [m|]; [|discriminate].
  destruct (m_openable m); [|discriminate].
  now inversion Hopen.
Qed.

Lemma zip_file_open_inv (zip : zip_t) (name : string) (zf : zip_file) (zs : Z) (tr : list event) :
  zip_file_open zip name = (Some zf, zs, tr) ->
  zip_fopen zip name = Some zf /\ zs = payload_size zf /\ tr = [].
Proof.
  intros Hopen. destruct (zip_fopen zip name) as [zf'|] eqn:E.
  - rewrite (zip_file_open_Some _ _ _ E) in Hopen. now inversion Hopen.
  - unfold zip_file_open in Hopen. rewrite E in Hopen.
    destruct (zip !! name); discriminate.
Qed.

Lemma read_manifest_ret (zip : zip_t) (residue : text) (d b : option string) :
  forall ret dat bin tr,
    read_manifest zip residue d b = (ret, dat, bin, tr) ->
    (ret = 0 /\ tr = [] /\ is_Some dat /\ is_Some bin) \/ (ret = -1 /\ tr <> []).
Proof.
  intros ret dat bin tr. unfold read_manifest.
  destruct (zip_fopen zip "manifest.json") as [zf|]; [|intros [= <- <- <- <-]; now right].
  destruct (zip_fread zf MANIFEST_BUF) as [buf len].
  destruct (len <=? 0); [intros [= <- <- <- <-]; now right|].
  destruct (json_tokener_parse _) as [json|]; [|intros [= <- <- <- <-]; now right].
  match goal with |- (let '(_, _) := ?e in _) = _ -> _ => destruct e as [dat' bin'] end.
  destruct dat' as [dat'|], bin' as [bin'|]; cbn;
    intros [= <- <- <- <-]; (now right) || (left; repeat split; eauto).
Qed.

(** What a run does once the package and the port are in order. *)
Lemma main_ready (fuel : nat) (w : world) (zf1 zf2 : zip_file) :
  ready w zf1 zf2 ->
  main fuel w =
    let '(pings, done) := ping_loop fuel (w_ping w) 0 in
    if done then
      Exit EXIT_SUCCESS
        ([serial_init] ++ pings
           ++ upgrade zf1 (payload_size zf1) zf2 (payload_size zf2)
           ++ [serial_fini (w_serial_fd w)])
    else Spinning ([serial_init] ++ pings).
Proof.
  intros (zip & dat & bin & Hzip & Hman & Hf1 & Hf2 & Hfd).
  unfold main. rewrite Hzip, Hman. cbn.
  rewrite (zip_file_open_Some _ _ _ Hf1), (zip_file_open_Some _ _ _ Hf2). cbn.
  destruct (w_serial_fd w <=? 0) eqn:E; [lia|].
  destruct (ping_loop fuel (w_ping w) 0) as [pings [|]]; [|reflexivity].
  unfold main_exit. cbn. now rewrite <- app_assoc.
Qed.

(** A run that does not get that far returns without any DFU request. *)
Lemma main_not_ready (fuel : nat) (w : world) :
  (exists zf1 zf2, ready w zf1 zf2) \/
  (exists ret tr, main fuel w = Exit ret tr /\ dfu_ops tr = []).
Proof.
  unfold main.
  destruct (w_zip w) as [zip|] eqn:Hzip; [|right; eauto].
  destruct (read_manifest zip (w_residue w) None None) as [[[ret dat] bin] tr] eqn:Hman.
  destruct (read_manifest_ret _ _ _ _ _ _ _ _ Hman) as [(-> & -> & [d ->] & [b ->])|[-> Htr]].
  2:{ right. cbn. do 2 eexists. split; [reflexivity|].
      unfold read_manifest in Hman.
      destruct (zip_fopen zip "manifest.json") as [zf|]; [|now inversion Hman].
      destruct (zip_fread zf MANIFEST_BUF) as [buf len].
      destruct (len <=? 0); [now inversion Hman|].
      destruct (json_tokener_parse _); [|now inversion Hman].
      match type of Hman with (let '(_, _) := ?e in _) = _ => destruct e as [dat' bin'] end.
      destruct (_ || _); now inversion Hman. }
  cbn.
  destruct (zip_file_open zip d) as [[zf1 zs1] tr1] eqn:H1.
  destruct (zip_file_open zip b) as [[zf2 zs2] tr2] eqn:H2.
  assert (Hlog : forall name o z t, zip_file_open zip name = (o, z, t) -> dfu_ops t = []).
  { intros name o z t. unfold zip_file_open.
    destruct (zip !! name); [destruct (zip_fopen zip name)|]; now intros [= <- <- <-]. }
  destruct zf1 as [zf1|], zf2 as [zf2|];
    try (right; do 2 eexists; split; [reflexivity|];
         rewrite !dfu_ops_app, (Hlog _ _ _ _ H1), (Hlog _ _ _ _ H2); reflexivity).
  apply zip_file_open_inv in H1 as (H1 & -> & ->), H2 as (H2 & -> & ->).
  destruct (w_serial_fd w <=? 0) eqn:Hfd.
  - right. do 2 eexists. split; [reflexivity|reflexivity].
  - left. exists zf1, zf2, zip, d, b. repeat split; try assumption. lia.
Qed.

End MainProperties.

Section MainTheorems.

Context `{JsonLib}.

(** C1 (as amended).  Once the package and the port are in order, [main]
    sends Ping after Ping, pausing one second after each one that fails,
    until one is answered: when the first answer comes to Ping number [k]
    (counted from 0) the run has sent exactly [k + 1] Pings, goes on to the
    upgrade and returns; when no Ping is ever answered the run never leaves
    the loop, however many iterations it is granted, and neither advances
    nor returns. *)
Theorem main_pings_until_answered (w : world) (zf1 zf2 : zip_file) :
  ready w zf1 zf2 ->
  (forall k fuel,
      (forall i, (i < k)%nat -> w_ping w i = false) ->
      w_ping w k = true ->
      (k < fuel)%nat ->
      main fuel w =
        Exit EXIT_SUCCESS
          ([serial_init] ++ failed_pings k ++ [dfu_ping true]
             ++ upgrade zf1 (payload_size zf1) zf2 (payload_size zf2)
             ++ [serial_fini (w_serial_fd w)])) /\
  ((forall i, w_ping w i = false) ->
   forall fuel, main fuel w = Spinning ([serial_init] ++ failed_pings fuel)).
Proof.
  intros Hready. split.
  - intros k fuel Hfail Hok Hfuel.
    rewrite (main_ready fuel w zf1 zf2 Hready).
    rewrite (ping_loop_success (w_ping w) k fuel 0); auto.
    now rewrite <- !app_assoc.
  - intros Hfail fuel.
    rewrite (main_ready fuel w zf1 zf2 Hready).
    now rewrite (ping_loop_spin (w_ping w) fuel 0).
Qed.

(** C2.  In every run in which a Ping is answered, the DFU requests are, in
    this order: the Pings that failed, the Ping that was answered,
    SetPRN(0), the MTU query, the object transfer of type 1 for the member
    that the manifest names as [dat_file], with its size, and the object
    transfer of type 2 for the member named as [bin_file]; nothing else,
    and the run returns [EXIT_SUCCESS]. *)
Theorem main_upgrade_sequence (fuel : nat) (w : world) (ret : Z) (tr : list event) :
  main fuel w = Exit ret tr ->
  In (dfu_ping true) tr ->
  exists zf1 zf2 k,
    ready w zf1 zf2 /\
    ret = EXIT_SUCCESS /\
    dfu_ops tr =
      repeat (dfu_ping false) k ++
      [ dfu_ping true;
        dfu_set_packet_receive_notification 0;
        dfu_get_serial_mtu;
        dfu_object_write_procedure 1 zf1 (payload_size zf1);
        dfu_object_write_procedure 2 zf2 (payload_size zf2) ].
Proof.
  intros Hmain Hin.
  destruct (main_not_ready fuel w) as [(zf1 & zf2 & Hready)|(ret' & tr' & Hmain' & Hops)].
  - exists zf1, zf2.
    rewrite (main_ready fuel w zf1 zf2 Hready) in Hmain.
    destruct (ping_loop_shape (w_ping w) fuel 0) as [(k & Hk & E)|E];
      rewrite E in Hmain; [|discriminate].
    exists k. inversion Hmain; subst. repeat split; [assumption|].
    rewrite dfu_ops_cons, !dfu_ops_app, dfu_ops_failed_pings, <- app_assoc. reflexivity.
  - rewrite Hmain in Hmain'. inversion Hmain'; subst ret' tr'.
    assert (Hin' : In (dfu_ping true) (dfu_ops tr)).
    { unfold dfu_ops. apply list_elem_of_In, list_elem_of_filter.
      split; [reflexivity|now apply list_elem_of_In]. }
    rewrite Hops in Hin'. destruct Hin'.
Qed.

(** C5 (as amended).  A package whose init payload is empty is not
    rejected: [zip_file_open] hands out the member with size 0 and, as soon
    as a Ping is answered, [main] issues SetPRN(0), the MTU query and the
    object transfer of type 1 with size 0, then the firmware, and returns
    [EXIT_SUCCESS]. *)
Theorem main_empty_init_transferred (w : world) (zf1 zf2 : zip_file) (k fuel : nat) :
  ready w zf1 zf2 ->
  zf_data zf1 = [] ->
  (forall i, (i < k)%nat -> w_ping w i = false) ->
  w_ping w k = true ->
  (k < fuel)%nat ->
  main fuel w =
    Exit EXIT_SUCCESS
      ([serial_init] ++ failed_pings k ++
       [ dfu_ping true;
         dfu_set_packet_receive_notification 0;
         dfu_get_serial_mtu;
         dfu_object_write_procedure 1 zf1 0;
         dfu_object_write_procedure 2 zf2 (payload_size zf2);
         serial_fini (w_serial_fd w) ]).
Proof.
  intros Hready Hempty Hfail Hok Hfuel.
  rewrite (main_ready fuel w zf1 zf2 Hready).
  rewrite (ping_loop_success (w_ping w) k fuel 0); auto.
  unfold payload_size at 1. rewrite Hempty. cbn. now rewrite <- app_assoc.
Qed.

(** The cases of C6 that the code handles: when [read_manifest] fails,
    [main] returns its -1, a status other than 0, and no DFU request has
    been issued. *)
Lemma main_bad_manifest (fuel : nat) (w : world) (zip : zip_t)
      (dat bin : option string) (tr : list event) :
  w_zip w = Some zip ->
  read_manifest zip (w_residue w) None None = (-1, dat, bin, tr) ->
  main fuel w = Exit (-1) (tr ++ [serial_fini (-1)]) /\
  exit_status (-1) = 255 /\
  dfu_ops (tr ++ [serial_fini (-1)]) = [].
Proof.
  intros Hzip Hman. unfold main. rewrite Hzip, Hman. cbn.
  split; [reflexivity|]. split; [reflexivity|].
  rewrite dfu_ops_app. cbn. rewrite app_nil_r.
  unfold read_manifest in Hman.
  destruct (zip_fopen zip "manifest.json") as [zf|]; [|now inversion Hman].
  destruct (zip_fread zf MANIFEST_BUF) as [buf len].
  destruct (len <=? 0); [now inversion Hman|].
  destruct (json_tokener_parse _); [|now inversion Hman].
  match type of Hman with (let '(_, _) := ?e in _) = _ => destruct e as [dat' bin'] end.
  destruct (_ || _); now inversion Hman.
Qed.

(** [read_manifest] fails when the archive has no manifest, when the text
    it hands to the parser is not accepted, and when the manifest lacks
    one of the two paths. *)
Lemma read_manifest_failures (zip : zip_t) (residue : text) :
  (zip !! "manifest.json" = None ->
   read_manifest zip residue None None
   = (-1, None, None, [LOG_ERR "ZIP file does not contain manifest"])) /\
  (forall zf,
      zip_fopen zip "manifest.json" = Some zf ->
      zf_data zf <> [] ->
      json_tokener_parse (c_string (take MANIFEST_BUF (zf_data zf) ++ residue)) = None ->
      read_manifest zip residue None None
      = (-1, None, None, [LOG_ERR "Manifest not valid JSON"])) /\
  (forall ret dat bin tr,
      read_manifest zip residue None None = (ret, dat, bin, tr) ->
      dat = None \/ bin = None ->
      ret = -1).
Proof.
  repeat split.
  - intros Hnone. unfold read_manifest, zip_fopen. now rewrite Hnone.
  - intros zf Hopen Hne Hparse. unfold read_manifest, zip_fread. rewrite Hopen.
    cbn beta iota zeta. rewrite Hparse.
    destruct (_ <=? 0) eqn:L; [|reflexivity].
    apply Z.leb_le in L. destruct (zf_data zf); [congruence|]. cbn in L. lia.
  - intros ret dat bin tr Hman Hnone.
    destruct (read_manifest_ret _ _ _ _ _ _ _ _ Hman) as [(_ & _ & [d Hd] & [b Hb])|[-> _]];
      [|reflexivity].
    destruct Hnone; congruence.
Qed.

(** C6, the case that the code misses.  When the manifest is in order but a
    member that it names is absent from the archive, [main] returns the 0
    that [read_manifest] left in [ret]: the status is that of success.  No
    DFU request has been issued. *)
Theorem main_missing_member_returns_zero (fuel : nat) (w : world) (zip : zip_t)
        (dat bin : string) :
  w_zip w = Some zip ->
  read_manifest zip (w_residue w) None None = (0, Some dat, Some bin, []) ->
  zip !! dat = None \/ zip !! bin = None ->
  exists tr,
    main fuel w = Exit 0 tr /\
    exit_status 0 = EXIT_SUCCESS /\
    dfu_ops tr = [].
Proof.
  intros Hzip Hman Habsent. unfold main. rewrite Hzip, Hman. cbn.
  assert (Hlog : forall name o z t, zip_file_open zip name = (o, z, t) -> dfu_ops t = []).
  { intros name o z t. unfold zip_file_open.
    destruct (zip !! name); [destruct (zip_fopen zip name)|]; now intros [= <- <- <-]. }
  assert (Hnone : forall name, zip !! name = None -> (zip_file_open zip name).1.1 = None).
  { intros name E. unfold zip_file_open. now rewrite E. }
  destruct (zip_file_open zip dat) as [[zf1 zs1] tr1] eqn:H1.
  destruct (zip_file_open zip bin) as [[zf2 zs2] tr2] eqn:H2.
  assert (Hz : zf1 = None \/ zf2 = None).
  { destruct Habsent as [E|E]; apply Hnone in E; [rewrite H1 in E|rewrite H2 in E]; auto. }
  assert (Hops : dfu_ops (tr1 ++ tr2 ++ [serial_fini (-1)]) = []).
  { rewrite !dfu_ops_app, (Hlog _ _ _ _ H1), (Hlog _ _ _ _ H2). reflexivity. }
  destruct zf1 as [zf1|], zf2 as [zf2|];
    try (eexists; split; [reflexivity|]; split; [reflexivity|]; unfold main_exit;
         rewrite <- ?app_assoc; exact Hops).
  destruct Hz; discriminate.
Qed.


End MainTheorems.

Module PackageRuns.

Import RefJson Packages.

Lemma ready_package (mf init : text) (k : nat) :
  read_manifest (package mf init firmware) [] None None
  = (0, Some "app.dat"%string, Some "app.bin"%string, []) ->
  ready (world_of (package mf init firmware) k) (dat_file init) bin_file.
Proof.
  intros Hman. exists (package mf init firmware), "app.dat"%string, "app.bin"%string.
  repeat split; try assumption; vm_compute; reflexivity.
Qed.

Lemma answers_at_false (k i : nat) : (i < k)%nat -> answers_at k i = false.
Proof. intros Hi. unfold answers_at. apply Nat.leb_gt. lia. Qed.

Lemma answers_at_true (k : nat) : answers_at k k = true.
Proof. unfold answers_at. apply Nat.leb_refl. Qed.

(** C1, counterexample.  The bootloader leaves three Pings unanswered and
    answers the fourth: [main] sends four Pings, does not give up after the
    third and returns [EXIT_SUCCESS] after the upgrade. *)
Lemma main_sends_fourth_ping :
  main 4 (world_of (package manifest init_packet firmware) 3) =
    Exit EXIT_SUCCESS
      [ serial_init;
        dfu_ping false; sleep 1; dfu_ping false; sleep 1; dfu_ping false; sleep 1;
        dfu_ping true;
        dfu_set_packet_receive_notification 0;
        dfu_get_serial_mtu;
        dfu_object_write_procedure 1 (dat_file init_packet) 4;
        dfu_object_write_procedure 2 bin_file 8;
        serial_fini 3 ].
Proof. vm_compute. reflexivity. Qed.

Lemma main_pings_until_answered_witness :
  main 3 (world_of (package manifest init_packet firmware) 2) =
    Exit EXIT_SUCCESS
      ([serial_init] ++ failed_pings 2 ++ [dfu_ping true]
         ++ upgrade (dat_file init_packet) (payload_size (dat_file init_packet))
                    bin_file (payload_size bin_file)
         ++ [serial_fini 3]).
Proof.
  refine (proj1 (main_pings_until_answered
                   (world_of (package manifest init_packet firmware) 2)
                   (dat_file init_packet) bin_file _) 2%nat 3%nat _ _ _).
  - apply ready_package. vm_compute. reflexivity.
  - intros i Hi. apply answers_at_false. exact Hi.
  - reflexivity.
  - lia.
Defined.

Lemma main_upgrade_sequence_witness :
  exists zf1 zf2 k,
    ready (world_of (package manifest init_packet firmware) 1) zf1 zf2 /\
    0 = EXIT_SUCCESS /\
    dfu_ops [ serial_init; dfu_ping false; sleep 1; dfu_ping true;
              dfu_set_packet_receive_notification 0; dfu_get_serial_mtu;
              dfu_object_write_procedure 1 (dat_file init_packet) 4;
              dfu_object_write_procedure 2 bin_file 8;
              serial_fini 3 ] =
      repeat (dfu_ping false) k ++
      [ dfu_ping true;
        dfu_set_packet_receive_notification 0;
        dfu_get_serial_mtu;
        dfu_object_write_procedure 1 zf1 (payload_size zf1);
        dfu_object_write_procedure 2 zf2 (payload_size zf2) ].
Proof.
  apply (main_upgrade_sequence 2 (world_of (package manifest init_packet firmware) 1)).
  - vm_compute. reflexivity.
  - simpl. tauto.
Defined.

(** C5, counterexample.  The init packet of the package is empty, the
    bootloader answers the first Ping: [main] does not reject the package,
    asks for an object transfer of type 1 and size 0 and returns
    [EXIT_SUCCESS]. *)
Lemma main_accepts_empty_init :
  main 1 (world_of (package manifest [] firmware) 0) =
    Exit EXIT_SUCCESS
      [ serial_init;
        dfu_ping true;
        dfu_set_packet_receive_notification 0;
        dfu_get_serial_mtu;
        dfu_object_write_procedure 1 (dat_file []) 0;
        dfu_object_write_procedure 2 bin_file 8;
        serial_fini 3 ].
Proof. vm_compute. reflexivity. Qed.

Lemma main_empty_init_transferred_witness :
  main 2 (world_of (package manifest [] firmware) 1) =
    Exit EXIT_SUCCESS
      ([serial_init] ++ failed_pings 1 ++
       [ dfu_ping true;
         dfu_set_packet_receive_notification 0;
         dfu_get_serial_mtu;
         dfu_object_write_procedure 1 (dat_file []) 0;
         dfu_object_write_procedure 2 bin_file (payload_size bin_file);
         serial_fini 3 ]).
Proof.
  apply (main_empty_init_transferred
           (world_of (package manifest [] firmware) 1) (dat_file []) bin_file 1 2).
  - apply ready_package. vm_compute. reflexivity.
  - reflexivity.
  - intros i Hi. apply answers_at_false. exact Hi.
  - reflexivity.
  - lia.
Defined.

(** C6 at the failing input: the archive holds the manifest and the
    firmware but not the init packet that the manifest names. *)
Lemma main_missing_member_returns_zero_witness :
  exists tr,
    main 1 (world_of (delete "app.dat"%string (package manifest init_packet firmware)) 0)
    = Exit 0 tr /\
    exit_status 0 = EXIT_SUCCESS /\
    dfu_ops tr = [].
Proof.
  apply (main_missing_member_returns_zero 1
           (world_of (delete "app.dat"%string (package manifest init_packet firmware)) 0)
           (delete "app.dat"%string (package manifest init_packet firmware))
           "app.dat"%string "app.bin"%string).
  - reflexivity.
  - vm_compute. reflexivity.
  - left. vm_compute. reflexivity.
Defined.



End PackageRuns.

(** * Properties of dfu_ble.c *)

Module BleFacts.

Import Ble.

Ltac monad_unfold :=
  repeat progress unfold run, fail, mbind, M_bind, mret, M_ret, return_, emit, modify.

Section Properties.

Variable env : ble_env.

Lemma connect_once_dev address atype s :
  dev (connect_once env address atype s) = env_connect env (connects s) address.
Proof.
  unfold connect_once, blz_connect. cbn.
  destruct (env_connect env (connects s) address); reflexivity.
Qed.

Lemma connect_loop_eq address atype trynum s :
  connect_loop env address atype trynum s =
    let s' := connect_once env address atype s in
    match dev s' with
    | Some _ => (trynum, s')
    | None =>
        if (S trynum <? CONNECT_MAX_TRY)%nat
        then connect_loop env address atype (S trynum) s'
        else (S trynum, s')
    end.
Proof.
  simp connect_loop. cbn zeta.
  destruct (dev _); [reflexivity|].
  destruct (lt_dec (S trynum) CONNECT_MAX_TRY) as [L|L].
  - apply Nat.ltb_lt in L. now rewrite L.
  - apply Nat.ltb_nlt in L. now rewrite L.
Qed.

(** C8 (as amended).  When the service of the device that the connection
    loop has reached has no buttonless characteristic but has the data and
    the control characteristic, [ble_enter_dfu] looks the two up, subscribes
    to the control point and returns what that subscription returns: true
    when it succeeds, false when it fails.  It writes to no characteristic,
    does not disconnect and does not connect again, and leaves the two
    characteristics in [dp] and [cp]. *)
Theorem ble_enter_dfu_direct (interface address : string) (atype : BLE_ATYPE)
        (s : state) (n : nat) (s1 : state) (dv : blz_dev) (srv : blz_serv)
        (d c : blz_char) :
  env_init env interface = true ->
  connect_loop env address atype 0 (initialised interface s) = (n, s1) ->
  (n < CONNECT_MAX_TRY)%nat ->
  dev s1 = Some dv ->
  dv !! DFU_SERVICE_UUID = Some srv ->
  srv !! DFU_BUTTONLESS_UUID = None ->
  srv !! DFU_DATA_UUID = Some d ->
  srv !! DFU_CONTROL_UUID = Some c ->
  let '(ret, s') := run (ble_enter_dfu env interface address atype) s in
  ret = ch_subscribe_ok c /\
  trace s' = trace s1 ++
    [ ev_get_serv DFU_SERVICE_UUID;
      ev_get_char DFU_BUTTONLESS_UUID;
      LOG_ERR "Could not find buttonless DFU UUID";
      ev_get_char DFU_DATA_UUID;
      ev_get_char DFU_CONTROL_UUID;
      LOG_NOTI "DFU characteristics found";
      ev_notify_start c ] ++
    (if ch_subscribe_ok c then [] else [LOG_ERR "Could not start CP notification"]) /\
  dp s' = Some d /\ cp s' = Some c.
Proof.
  intros Hinit Hloop Hn Hdev Hsrv Hb Hd Hc.
  unfold run, ble_enter_dfu, mbind, M_bind, blz_init. rewrite Hinit. cbn [negb].
  fold (initialised interface s). rewrite Hloop.
  apply Nat.leb_gt in Hn. rewrite Hn.
  unfold blz_get_serv_from_uuid. cbn [dev log]. rewrite Hdev. cbn [mbind option_bind].
  rewrite Hsrv. unfold discover. monad_unfold.
  unfold blz_get_char_from_uuid. rewrite Hb, Hd, Hc.
  unfold dfutarg_found, fail. monad_unfold. unfold blz_char_notify_start, subscribe.
  destruct (ch_subscribe_ok c); cbn; rewrite <- !app_assoc; repeat split; reflexivity.
Qed.


(** *** The wait *)

Lemma buttonless_notify_handler_sets data beyond s :
  buttonless_noti (buttonless_notify_handler data beyond s) = true.
Proof. unfold buttonless_notify_handler. now destruct (bool_decide _). Qed.

(** The callback adds at most the one error line to the log. *)
Lemma buttonless_notify_handler_logs data beyond s :
  trace (buttonless_notify_handler data beyond s)
  = trace s ++ (if bool_decide (data_2 data beyond = 1) then []
                else [LOG_ERR "Unexpected response"]).
Proof.
  unfold buttonless_notify_handler.
  destruct (bool_decide _); cbn; [now rewrite app_nil_r|reflexivity].
Qed.

(** For a value of fewer than three bytes the byte behind the value
    decides on the log line. *)
Lemma buttonless_notify_handler_short data beyond s :
  (length data < 3)%nat ->
  trace (buttonless_notify_handler data beyond s)
  = trace s ++ (if bool_decide (beyond = 1) then [] else [LOG_ERR "Unexpected response"]).
Proof.
  intros Hlen. rewrite buttonless_notify_handler_logs. unfold data_2.
  destruct data as [|b0 [|b1 [|b2 r]]]; cbn in Hlen; try lia; reflexivity.
Qed.

(** With a third byte in the value, that byte alone decides on the log
    line. *)
Lemma buttonless_notify_handler_trace data beyond s :
  (3 <= length data)%nat ->
  trace (buttonless_notify_handler data beyond s) = trace s ++ unexpected data.
Proof.
  intros Hlen. destruct data as [|b0 [|b1 [|b2 r]]]; cbn in Hlen; try lia.
  rewrite buttonless_notify_handler_logs. unfold unexpected, data_2. f_equal.
  change ((b0 :: b1 :: b2 :: r) !! 2%nat) with (Some b2). cbn [default from_option id].
  destruct (decide (b2 = 1)) as [->|Hne]; [reflexivity|].
  rewrite !bool_decide_eq_false_2; [reflexivity|congruence|exact Hne].
Qed.

Lemma loop_events_set check timeout_us ns s :
  check s = true -> loop_events env check timeout_us ns s = s.
Proof. intros Hc. destruct ns; simpl; [reflexivity|now rewrite Hc]. Qed.

(** The first notification of the buttonless characteristic ends the wait,
    whatever its value. *)
Lemma loop_events_buttonless timeout_us n ns s :
  buttonless_noti s = false ->
  n_time n < timeout_us ->
  handlers s !! n_uuid n = Some buttonless_notify ->
  loop_events env buttonless_noti timeout_us (n :: ns) s
  = buttonless_notify_handler (n_data n) (n_beyond n) (log (ev_notification n) s).
Proof.
  intros Hflag Htime Hh. simpl. rewrite Hflag.
  destruct (timeout_us <=? n_time n) eqn:E; [apply Z.leb_le in E; lia|].
  unfold dispatch. cbn [handlers log]. rewrite Hh.
  apply loop_events_set, buttonless_notify_handler_sets.
Qed.

Lemma dispatch_frame n s :
  connects (dispatch env n s) = connects s /\
  waits (dispatch env n s) = waits s /\
  handlers (dispatch env n s) = handlers s /\
  exists t, trace (dispatch env n s) = trace s ++ t.
Proof.
  unfold dispatch. cbn [handlers log].
  destruct (handlers s !! n_uuid n) as [[|]|].
  - unfold buttonless_notify_handler. destruct (bool_decide _); cbn;
      repeat split; eexists; rewrite <- ?app_assoc; reflexivity.
  - unfold control_notify_handler. destruct (env_debug env); cbn;
      repeat split; eexists; rewrite <- ?app_assoc; reflexivity.
  - cbn. repeat split. eexists. reflexivity.
Qed.

Lemma loop_events_frame check timeout_us ns :
  forall s,
    connects (loop_events env check timeout_us ns s) = connects s /\
    waits (loop_events env check timeout_us ns s) = waits s /\
    handlers (loop_events env check timeout_us ns s) = handlers s /\
    exists t, trace (loop_events env check timeout_us ns s) = trace s ++ t.
Proof.
  induction ns as [|n ns IH]; intros s; simpl.
  - repeat split. exists []. now rewrite app_nil_r.
  - destruct (check s); [repeat split; exists []; now rewrite app_nil_r|].
    destruct (timeout_us <=? n_time n); [repeat split; exists []; now rewrite app_nil_r|].
    destruct (IH (dispatch env n s)) as (Hc & Hw & Hh & t & Ht).
    destruct (dispatch_frame n s) as (Hc' & Hw' & Hh' & t' & Ht').
    rewrite Hc, Hw, Hh, Ht, Hc', Hw', Hh', Ht'. repeat split.
    exists (t' ++ t). now rewrite app_assoc.
Qed.

(** *** The connection loop *)

Lemma connect_once_trace address atype s :
  trace (connect_once env address atype s) =
    trace s ++ [LOG_NOTI "Connecting to"; ev_connect address atype] ++
    match env_connect env (connects s) address with
    | None => [LOG_ERR "Could not connect to"; ev_sleep 5]
    | Some _ => []
    end.
Proof.
  unfold connect_once, blz_connect. cbn.
  destruct (env_connect env (connects s) address); cbn; now rewrite <- !app_assoc.
Qed.

Lemma connect_once_connects address atype s :
  connects (connect_once env address atype s) = S (connects s).
Proof.
  unfold connect_once, blz_connect. cbn.
  destruct (env_connect env (connects s) address); reflexivity.
Qed.

(** The loop started with [trynum] below the bound makes at most
    [CONNECT_MAX_TRY - trynum] attempts; it ends with a device after fewer
    failures than that, or without one after exactly that many. *)
Lemma connect_loop_attempts address atype (m : nat) :
  forall trynum s,
    (trynum + m = CONNECT_MAX_TRY)%nat -> (0 < m)%nat ->
    exists k,
      (k <= m)%nat /\
      (forall i, (i < k)%nat -> env_connect env (connects s + i) address = None) /\
      let '(n, s') := connect_loop env address atype trynum s in
      (n = trynum + k)%nat /\
      ((k = m /\ dev s' = None /\
        trace s' = trace s ++ failed_attempts address atype k) \/
       ((k < m)%nat /\ dev s' = env_connect env (connects s + k) address /\
        is_Some (dev s') /\
        trace s' = trace s ++ failed_attempts address atype k
                     ++ [LOG_NOTI "Connecting to"; ev_connect address atype])).
Proof.
  assert (HC : CONNECT_MAX_TRY = 3%nat) by reflexivity.
  induction m as [|m IH]; intros trynum s Hsum Hpos; [lia|].
  rewrite connect_loop_eq. cbn zeta.
  pose proof (connect_once_dev address atype s) as Hdev.
  pose proof (connect_once_trace address atype s) as Htr.
  destruct (env_connect env (connects s) address) as [dv|] eqn:E.
  - rewrite Hdev. exists O. split; [lia|]. split; [intros i Hi; lia|].
    split; [lia|]. right. rewrite Nat.add_0_r, Hdev, E, Htr.
    repeat split; eauto; lia.
  - rewrite Hdev.
    destruct (S trynum <? CONNECT_MAX_TRY)%nat eqn:L.
    + apply Nat.ltb_lt in L.
      destruct (IH (S trynum) (connect_once env address atype s)) as (k & Hk & Hnone & Hres);
        [lia|lia|].
      exists (S k). split; [lia|]. split.
      { intros [|i] Hi; [now rewrite Nat.add_0_r|].
        replace (connects s + S i)%nat with (connects (connect_once env address atype s) + i)%nat
          by (rewrite connect_once_connects; lia).
        apply Hnone. lia. }
      destruct (connect_loop env address atype (S trynum) _) as [n s'].
      destruct Hres as (Hn & Hres). split; [lia|].
      rewrite connect_once_connects, Htr in Hres.
      replace (connects s + S k)%nat with (S (connects s) + k)%nat by lia.
      destruct Hres as [(-> & Hd & Ht)|(Hlt & Hd & Hsome & Ht)]; [left|right];
        repeat split; try assumption; try lia;
        rewrite Ht; cbn; now rewrite <- !app_assoc.
    + apply Nat.ltb_ge in L. exists 1%nat. split; [lia|]. split.
      { intros i Hi. replace i with O by lia. now rewrite Nat.add_0_r. }
      split; [lia|]. left. rewrite Hdev, Htr. repeat split; lia || reflexivity.
Qed.


(** *** Every step only adds to the record of calls *)

Lemma appends_bind {A B} (m : M A) (f : A -> M B) :
  appends m -> (forall a, appends (f a)) -> appends (m ≫= f).
Proof.
  intros Hm Hf s. unfold mbind, M_bind.
  destruct (Hm s) as [t Ht]. destruct (m s) as [[a|b] s1]; cbn in *.
  - destruct (Hf a s1) as [t' Ht']. exists (t ++ t'). now rewrite Ht', Ht, app_assoc.
  - now exists t.
Qed.

Lemma appends_mret {A} (a : A) : appends (mret a).
Proof. intros s. exists []. cbn. now rewrite app_nil_r. Qed.

Lemma appends_return {A} (b : bool) : appends (@return_ A b).
Proof. intros s. exists []. cbn. now rewrite app_nil_r. Qed.

Lemma appends_emit (e : ble_event) : appends (emit e).
Proof. intros s. now exists [e]. Qed.

Lemma appends_modify (f : state -> state) :
  (forall s, trace (f s) = trace s) -> appends (modify f).
Proof. intros Hf s. exists []. cbn. now rewrite Hf, app_nil_r. Qed.

Lemma appends_blz_connect address atype : appends (blz_connect env address atype).
Proof. intros s. eexists. cbn. reflexivity. Qed.

Lemma appends_blz_disconnect : appends blz_disconnect.
Proof. intros s. eexists. cbn. reflexivity. Qed.

Lemma appends_blz_get_serv_from_uuid uuid : appends (blz_get_serv_from_uuid uuid).
Proof. intros s. eexists. cbn. reflexivity. Qed.

Lemma appends_blz_get_char_from_uuid srv uuid : appends (blz_get_char_from_uuid srv uuid).
Proof. intros s. eexists. cbn. reflexivity. Qed.

Lemma appends_blz_char_indicate_start ch h : appends (blz_char_indicate_start ch h).
Proof. intros s. eexists. unfold blz_char_indicate_start, subscribe. destruct (ch_subscribe_ok ch); cbn; reflexivity. Qed.

Lemma appends_blz_char_notify_start ch h : appends (blz_char_notify_start ch h).
Proof. intros s. eexists. unfold blz_char_notify_start, subscribe. destruct (ch_subscribe_ok ch); cbn; reflexivity. Qed.

Lemma appends_blz_char_write ch data : appends (blz_char_write ch data).
Proof. intros s. eexists. cbn. reflexivity. Qed.

Lemma appends_blz_loop_timeout check timeout_us : appends (blz_loop_timeout env check timeout_us).
Proof.
  intros s. unfold blz_loop_timeout. cbn [snd].
  destruct (loop_events_frame check timeout_us (env_notifications env (waits s))
              (next_wait (log (ev_loop_timeout timeout_us) s))) as (_ & _ & _ & t & Ht).
  rewrite Ht. cbn. rewrite <- app_assoc. eexists. reflexivity.
Qed.

Ltac appends_solve :=
  repeat first
    [ apply appends_bind; [|intros ?]
    | apply appends_mret
    | apply appends_return
    | apply appends_emit
    | apply appends_modify; intros ?; reflexivity
    | apply appends_blz_connect
    | apply appends_blz_disconnect
    | apply appends_blz_get_serv_from_uuid
    | apply appends_blz_get_char_from_uuid
    | apply appends_blz_char_indicate_start
    | apply appends_blz_char_notify_start
    | apply appends_blz_char_write
    | apply appends_blz_loop_timeout
    | match goal with |- appends (match ?x with _ => _ end) => destruct x end
    | match goal with |- appends (match ?x with _ => _ end _) => destruct x; cbn beta end ].

Lemma appends_dfutarg_found c : appends (dfutarg_found c).
Proof. unfold dfutarg_found, fail. appends_solve. Qed.

Lemma appends_dfutarg_lookup d : appends (dfutarg_lookup d).
Proof. unfold dfutarg_lookup, fail. appends_solve. Qed.

Lemma appends_dfutarg_connect address atype : appends (dfutarg_connect env address atype).
Proof. unfold dfutarg_connect. cbn zeta. appends_solve. apply appends_dfutarg_lookup. Qed.

Lemma appends_buttonless_entry bch address atype :
  appends (buttonless_entry env bch address atype).
Proof.
  unfold buttonless_entry, fail. appends_solve. apply appends_dfutarg_lookup.
Qed.

Lemma appends_discover srv address atype : appends (discover env srv address atype).
Proof.
  unfold discover. appends_solve. apply appends_dfutarg_lookup.
Qed.

Lemma run_snd (m : M bool) (s : state) : (run m s).2 = (m s).2.
Proof. unfold run. now destruct (m s) as [[b|b] s']. Qed.

Lemma failed_attempts_no_characteristic address atype k :
  forallb (fun e => negb (touches_characteristic e)) (failed_attempts address atype k) = true.
Proof. induction k as [|k IH]; [reflexivity|]. cbn. exact IH. Qed.


Lemma appends_with_service (o : option blz_serv) address atype :
  appends (match o with
           | Some srv => discover env srv address atype
           | None => fail "DFU Service not found"
           end).
Proof. destruct o; [apply appends_discover|unfold fail; appends_solve]. Qed.

(** C10.  [ble_enter_dfu] makes at most [CONNECT_MAX_TRY] = 3 attempts to
    connect to the address it is given and pauses 5 seconds after each one
    that fails.  The loop is defined by recursion on the attempts that are
    left, so it ends.  After three failures the function returns false, and
    nothing it has done touches a characteristic; after fewer, the next
    attempt has reached the device and the service is looked up.  (When
    the interface does not initialise, no attempt is made at all.) *)
Theorem ble_enter_dfu_connection_attempts (interface address : string)
        (atype : BLE_ATYPE) (s : state) :
  let '(ret, s') := run (ble_enter_dfu env interface address atype) s in
  exists k rest,
    (k <= CONNECT_MAX_TRY)%nat /\
    (forall i, (i < k)%nat -> env_connect env (connects s + i) address = None) /\
    trace s' = trace s ++ [ev_init interface] ++ failed_attempts address atype k ++ rest /\
    ((env_init env interface = false /\ k = 0%nat /\ ret = false /\
      rest = [LOG_ERR "Could not initialize BLE interface"]) \/
     (k = CONNECT_MAX_TRY /\ ret = false /\
      rest = [LOG_ERR "Gave up connecting to"] /\
      forallb (fun e => negb (touches_characteristic e))
              (drop (length (trace s)) (trace s')) = true) \/
     ((k < CONNECT_MAX_TRY)%nat /\
      is_Some (env_connect env (connects s + k) address) /\
      exists rest',
        rest = [ LOG_NOTI "Connecting to"; ev_connect address atype;
                 ev_get_serv DFU_SERVICE_UUID ] ++ rest')).
Proof.
  destruct (env_init env interface) eqn:Hinit.
  2:{ unfold run, ble_enter_dfu, mbind, M_bind, blz_init. rewrite Hinit. cbn [negb].
      monad_unfold. cbn.
      exists 0%nat, [LOG_ERR "Could not initialize BLE interface"].
      split; [unfold CONNECT_MAX_TRY; lia|]. split; [intros i Hi; lia|].
      split; [now rewrite <- app_assoc|]. left. repeat split. }
  destruct (connect_loop_attempts address atype 3 0 (initialised interface s))
    as (k & Hk & Hnone & Hres); [reflexivity|lia|].
  unfold run, ble_enter_dfu, mbind, M_bind, blz_init. rewrite Hinit. cbn [negb].
  fold (initialised interface s).
  destruct (connect_loop env address atype 0 (initialised interface s)) as [n s1].
  destruct Hres as (Hn & [(-> & Hd & Ht)|(Hlt & Hd & Hsome & Ht)]); cbn in Hn; subst n.
  - monad_unfold. cbn. exists 3%nat, [LOG_ERR "Gave up connecting to"].
    split; [reflexivity|]. split; [exact Hnone|].
    assert (Htr : trace s1 ++ [LOG_ERR "Gave up connecting to"] =
                  trace s ++ [ev_init interface] ++ failed_attempts address atype 3
                    ++ [LOG_ERR "Gave up connecting to"]).
    { rewrite Ht. cbn. now rewrite <- !app_assoc. }
    split; [exact Htr|]. right. left. do 3 (split; [reflexivity|]).
    rewrite Htr, drop_app_length. reflexivity.
  - assert (Hleb : (CONNECT_MAX_TRY <=? k)%nat = false) by (apply Nat.leb_gt; exact Hlt).
    rewrite Hleb. unfold blz_get_serv_from_uuid.
    destruct (appends_with_service (d ← dev s1; d !! DFU_SERVICE_UUID) address atype
                (log (ev_get_serv DFU_SERVICE_UUID) s1)) as [t Htail].
    destruct (match (d ← dev s1; d !! DFU_SERVICE_UUID) with
              | Some srv => discover env srv address atype
              | None => fail "DFU Service not found"
              end (log (ev_get_serv DFU_SERVICE_UUID) s1)) as [[b|b] s'];
      cbn in Htail; cbn beta iota zeta;
      (exists k; eexists; split; [unfold CONNECT_MAX_TRY; lia|]; split; [exact Hnone|]; split;
       [rewrite Htail, Ht; cbn; rewrite <- !app_assoc; cbn; reflexivity|];
       right; right; split; [exact Hlt|]; split; [rewrite Hd in Hsome; exact Hsome|];
       eexists; reflexivity).
Qed.

Lemma ble_enter_dfu_discover interface address atype s n s1 dv srv :
  env_init env interface = true ->
  connect_loop env address atype 0 (initialised interface s) = (n, s1) ->
  (n < CONNECT_MAX_TRY)%nat ->
  dev s1 = Some dv ->
  dv !! DFU_SERVICE_UUID = Some srv ->
  ble_enter_dfu env interface address atype s
  = discover env srv address atype (log (ev_get_serv DFU_SERVICE_UUID) s1).
Proof.
  intros Hinit Hloop Hn Hdev Hsrv.
  unfold ble_enter_dfu, mbind, M_bind, blz_init. rewrite Hinit. cbn [negb].
  fold (initialised interface s). rewrite Hloop.
  apply Nat.leb_gt in Hn. rewrite Hn.
  unfold blz_get_serv_from_uuid. rewrite Hdev. cbn [mbind option_bind]. now rewrite Hsrv.
Qed.

Lemma discover_buttonless srv address atype bch s0 :
  srv !! DFU_BUTTONLESS_UUID = Some bch ->
  ch_subscribe_ok bch = true ->
  ch_write_ok bch = true ->
  discover env srv address atype s0
  = (dfutarg_lookup (env_connect env (connects s0) (dfutarg_address env address)) ≫= dfutarg_found)
      (set_dev (env_connect env (connects s0) (dfutarg_address env address))
         (log (ev_connect (dfutarg_address env address) atype)
            (log (LOG_NOTI "Connecting to DfuTarg")
               (disconnected (waited env bch (log (ev_get_char DFU_BUTTONLESS_UUID) s0)))))).
Proof.
  intros Hb Hsub Hwr.
  unfold discover, buttonless_entry, dfutarg_connect. cbn zeta.
  fold (dfutarg_address env address).
  unfold mbind at 1. unfold M_bind at 1. unfold blz_get_char_from_uuid at 1. rewrite Hb.
  unfold fail. monad_unfold.
  unfold blz_char_indicate_start, blz_char_write, subscribe, blz_loop_timeout, blz_disconnect,
    blz_connect.
  rewrite Hsub, Hwr. cbn [negb].
  destruct (loop_events_frame buttonless_noti 10000000
              (env_notifications env (waits s0))
              (armed bch (log (ev_get_char DFU_BUTTONLESS_UUID) s0))) as (Hc & _).
  unfold waited, disconnected, armed in *. cbn [connects waits handlers log set_handlers next_wait] in *.
  rewrite Hc. reflexivity.
Qed.


Lemma armed_trace bch s0 :
  trace (armed bch s0) =
    trace s0 ++ [ ev_indicate_start bch; LOG_NOTI "Enter DFU Bootloader";
                  ev_char_write bch [1]; ev_loop_timeout 10000000 ].
Proof. unfold armed. cbn. now rewrite <- !app_assoc. Qed.

Lemma waited_notified bch s0 nt ns :
  buttonless_noti s0 = false ->
  env_notifications env (waits s0) = nt :: ns ->
  n_uuid nt = ch_uuid bch ->
  n_time nt < 10000000 ->
  waited env bch s0
  = buttonless_notify_handler (n_data nt) (n_beyond nt) (log (ev_notification nt) (armed bch s0)).
Proof.
  intros Hflag Hns Huuid Htime. unfold waited. rewrite Hns.
  apply loop_events_buttonless; [exact Hflag|exact Htime|].
  unfold armed. cbn [handlers log next_wait set_handlers]. rewrite Huuid.
  apply lookup_insert_eq.
Qed.

Lemma waited_timeout bch s0 :
  (forall nt, head (env_notifications env (waits s0)) = Some nt -> 10000000 <= n_time nt) ->
  waited env bch s0 = armed bch s0.
Proof.
  intros Hlate. unfold waited.
  destruct (env_notifications env (waits s0)) as [|nt ns]; [reflexivity|].
  simpl. destruct (buttonless_noti s0); [reflexivity|].
  specialize (Hlate nt eq_refl). apply Z.leb_le in Hlate. now rewrite Hlate.
Qed.

Lemma waited_appends bch s0 :
  exists mid, trace (waited env bch s0) = trace (armed bch s0) ++ mid.
Proof.
  unfold waited.
  destruct (loop_events_frame buttonless_noti 10000000
              (env_notifications env (waits s0)) (armed bch s0)) as (_ & _ & _ & t & Ht).
  now exists t.
Qed.

(** The run along the buttonless path, from the state [s1] in which the
    connection loop has ended: the record of calls up to the connection
    to DfuTarg, and some rest. *)
Lemma ble_enter_dfu_buttonless_path interface address atype s n s1 dv srv bch :
  env_init env interface = true ->
  connect_loop env address atype 0 (initialised interface s) = (n, s1) ->
  (n < CONNECT_MAX_TRY)%nat ->
  dev s1 = Some dv ->
  dv !! DFU_SERVICE_UUID = Some srv ->
  srv !! DFU_BUTTONLESS_UUID = Some bch ->
  ch_subscribe_ok bch = true ->
  ch_write_ok bch = true ->
  exists post,
    trace (run (ble_enter_dfu env interface address atype) s).2 =
      trace (waited env bch (discovered s1)) ++
      [ ev_disconnect; LOG_NOTI "Connecting to DfuTarg";
        ev_connect (dfutarg_address env address) atype ] ++ post /\
    forall dv2 srv2,
      env_connect env (connects s1) (dfutarg_address env address) = Some dv2 ->
      dv2 !! DFU_SERVICE_UUID = Some srv2 ->
      exists post',
        post = [ ev_get_serv DFU_SERVICE_UUID; ev_get_char DFU_DATA_UUID;
                 ev_get_char DFU_CONTROL_UUID ] ++ post'.
Proof.
  intros Hinit Hloop Hn Hdev Hsrv Hb Hsub Hwr.
  rewrite run_snd, (ble_enter_dfu_discover _ _ _ _ _ _ _ _ Hinit Hloop Hn Hdev Hsrv).
  rewrite (discover_buttonless _ _ _ _ _ Hb Hsub Hwr).
  cbn [connects log]. fold (discovered s1).
  set (d := env_connect env (connects s1) (dfutarg_address env address)).
  match goal with |- context [(_ ≫= _) ?st] => remember st as X eqn:EX end.
  assert (HX : trace X = trace (waited env bch (discovered s1)) ++
                 [ ev_disconnect; LOG_NOTI "Connecting to DfuTarg";
                   ev_connect (dfutarg_address env address) atype ]).
  { rewrite EX. unfold disconnected. cbn. now rewrite <- !app_assoc. }
  assert (HdX : dev X = d) by (rewrite EX; reflexivity).
  clear EX.
  assert (Happ : appends (dfutarg_lookup d ≫= dfutarg_found)).
  { apply appends_bind; [apply appends_dfutarg_lookup|intros c; apply appends_dfutarg_found]. }
  destruct (Happ X) as [post Hpost]. exists post.
  split; [now rewrite Hpost, HX, <- app_assoc|].
  intros dv2 srv2 Hd Hsrv2. fold d in Hd. rewrite Hd in *.
  revert Hpost. unfold dfutarg_lookup, dfutarg_found, fail. monad_unfold.
  unfold blz_get_serv_from_uuid. rewrite HdX. cbn [mbind option_bind]. rewrite Hsrv2.
  unfold blz_get_char_from_uuid, blz_char_notify_start, subscribe.
  destruct (srv2 !! DFU_DATA_UUID) as [d2|], (srv2 !! DFU_CONTROL_UUID) as [c2|];
    try destruct (ch_subscribe_ok c2); cbn; rewrite <- !app_assoc;
    intros Hpost; apply app_inv_head in Hpost; subst post;
    eexists; cbn; reflexivity.
Qed.


(** C3 (as amended).  On the buttonless path, after 0x01 has been written
    to the buttonless characteristic, [ble_enter_dfu] waits at most 10
    seconds for a notification of that characteristic and then
    disconnects.  The first notification ends the wait whatever its third
    byte is; a third byte other than 0x01 only adds an error line to the
    log.  (A value of fewer than three bytes ends the wait as well; the
    callback then compares what lies behind the value, and the most it
    adds is the same line.)  When no notification arrives in time the
    function disconnects and goes on all the same. *)
Theorem ble_enter_dfu_buttonless_wait (interface address : string) (atype : BLE_ATYPE)
        (s : state) (n : nat) (s1 : state) (dv : blz_dev) (srv : blz_serv)
        (bch : blz_char) :
  env_init env interface = true ->
  connect_loop env address atype 0 (initialised interface s) = (n, s1) ->
  (n < CONNECT_MAX_TRY)%nat ->
  dev s1 = Some dv ->
  dv !! DFU_SERVICE_UUID = Some srv ->
  srv !! DFU_BUTTONLESS_UUID = Some bch ->
  ch_subscribe_ok bch = true ->
  ch_write_ok bch = true ->
  buttonless_noti s1 = false ->
  let tr := trace (run (ble_enter_dfu env interface address atype) s).2 in
  let written :=
    trace s1 ++
    [ ev_get_serv DFU_SERVICE_UUID; ev_get_char DFU_BUTTONLESS_UUID;
      ev_indicate_start bch; LOG_NOTI "Enter DFU Bootloader";
      ev_char_write bch [1]; ev_loop_timeout 10000000 ] in
  (forall nt ns,
      env_notifications env (waits s1) = nt :: ns ->
      n_uuid nt = ch_uuid bch ->
      n_time nt < 10000000 ->
      exists logged post,
        tr = written ++ [ev_notification nt] ++ logged ++ [ev_disconnect] ++ post /\
        (logged = [] \/ logged = [LOG_ERR "Unexpected response"]) /\
        ((3 <= length (n_data nt))%nat -> logged = unexpected (n_data nt))) /\
  ((forall nt, head (env_notifications env (waits s1)) = Some nt -> 10000000 <= n_time nt) ->
   exists post, tr = written ++ [ev_disconnect] ++ post).
Proof.
  intros Hinit Hloop Hn Hdev Hsrv Hb Hsub Hwr Hflag tr written.
  destruct (ble_enter_dfu_buttonless_path _ _ _ _ _ _ _ _ _ Hinit Hloop Hn Hdev Hsrv Hb Hsub Hwr)
    as (post & Htr & _).
  fold tr in Htr.
  assert (Harmed : trace (armed bch (discovered s1)) = written).
  { rewrite armed_trace. unfold discovered, written. cbn. now rewrite <- !app_assoc. }
  split.
  - intros nt ns Hns Huuid Htime.
    rewrite (waited_notified bch (discovered s1) nt ns Hflag Hns Huuid Htime) in Htr.
    pose proof (buttonless_notify_handler_trace (n_data nt) (n_beyond nt)
                  (log (ev_notification nt) (armed bch (discovered s1)))) as Hthird.
    rewrite buttonless_notify_handler_logs in Htr, Hthird. cbn [trace log] in Htr, Hthird.
    rewrite Harmed in Htr.
    exists (if bool_decide (data_2 (n_data nt) (n_beyond nt) = 1) then []
            else [LOG_ERR "Unexpected response"]).
    eexists. split; [rewrite Htr, <- !app_assoc; cbn; reflexivity|].
    split; [destruct (bool_decide _); auto|].
    intros Hlen. exact (app_inv_head _ _ _ (Hthird Hlen)).
  - intros Hlate. rewrite (waited_timeout bch (discovered s1) Hlate), Harmed in Htr.
    eexists. rewrite Htr. cbn. reflexivity.
Qed.

(** C4 (as amended).  On the buttonless path [ble_enter_dfu] disconnects
    and then connects to the address whose byte array, as
    [blz_string_to_mac_s] gives it, has byte 0 incremented by one modulo
    256 and every other byte unchanged; when that connection and the
    service are there, it looks up the service, the data characteristic
    and the control characteristic, in this order. *)
Theorem ble_enter_dfu_dfutarg_hop (interface address : string) (atype : BLE_ATYPE)
        (s : state) (n : nat) (s1 : state) (dv : blz_dev) (srv : blz_serv)
        (bch : blz_char) :
  env_init env interface = true ->
  connect_loop env address atype 0 (initialised interface s) = (n, s1) ->
  (n < CONNECT_MAX_TRY)%nat ->
  dev s1 = Some dv ->
  dv !! DFU_SERVICE_UUID = Some srv ->
  srv !! DFU_BUTTONLESS_UUID = Some bch ->
  ch_subscribe_ok bch = true ->
  ch_write_ok bch = true ->
  let macs := blz_mac_to_string_s env (mac_hop (blz_string_to_mac_s env address)) in
  (exists mid post,
      trace (run (ble_enter_dfu env interface address atype) s).2 =
        trace s1 ++
        [ ev_get_serv DFU_SERVICE_UUID; ev_get_char DFU_BUTTONLESS_UUID;
          ev_indicate_start bch; LOG_NOTI "Enter DFU Bootloader";
          ev_char_write bch [1]; ev_loop_timeout 10000000 ] ++ mid ++
        [ ev_disconnect; LOG_NOTI "Connecting to DfuTarg"; ev_connect macs atype ] ++ post /\
      forall dv2 srv2,
        env_connect env (connects s1) macs = Some dv2 ->
        dv2 !! DFU_SERVICE_UUID = Some srv2 ->
        exists post',
          post = [ ev_get_serv DFU_SERVICE_UUID; ev_get_char DFU_DATA_UUID;
                   ev_get_char DFU_CONTROL_UUID ] ++ post') /\
  (forall b rest,
      blz_string_to_mac_s env address = b :: rest ->
      mac_hop (blz_string_to_mac_s env address) = (b + 1) mod 256 :: rest).
Proof.
  intros Hinit Hloop Hn Hdev Hsrv Hb Hsub Hwr macs.
  destruct (ble_enter_dfu_buttonless_path _ _ _ _ _ _ _ _ _ Hinit Hloop Hn Hdev Hsrv Hb Hsub Hwr)
    as (post & Htr & Hpost).
  split.
  - destruct (waited_appends bch (discovered s1)) as [mid Hmid].
    exists mid, post. split; [|exact Hpost].
    rewrite Htr, Hmid, armed_trace. unfold discovered. cbn. now rewrite <- !app_assoc.
  - intros b rest ->. reflexivity.
Qed.

(** With byte 0 as the low-order byte the hop adds one to the address, as
    long as that byte does not wrap. *)
Lemma mac_hop_value (b : Z) (rest : list Z) :
  0 <= b < 255 ->
  mac_value (mac_hop (b :: rest)) = mac_value (b :: rest) + 1.
Proof.
  intros Hb. unfold mac_hop, mac_value. cbn.
  rewrite Z.mod_small by lia. lia.
Qed.

(** *** ble_read *)

Lemma dispatch_other n s :
  handlers s !! n_uuid n <> Some control_notify ->
  control_noti (dispatch env n s) = control_noti s /\
  recv_buf (dispatch env n s) = recv_buf s /\
  handlers (dispatch env n s) = handlers s.
Proof.
  intros Hh. unfold dispatch. cbn [handlers log].
  destruct (handlers s !! n_uuid n) as [[|]|]; [|congruence|now cbn].
  unfold buttonless_notify_handler. now destruct (bool_decide _).
Qed.

Lemma loop_events_control timeout_us n post :
  forall pre s,
    control_noti s = false ->
    Forall (fun m => n_time m < timeout_us /\
                     handlers s !! n_uuid m <> Some control_notify) pre ->
    n_time n < timeout_us ->
    handlers s !! n_uuid n = Some control_notify ->
    control_noti (loop_events env control_noti timeout_us (pre ++ n :: post) s) = true /\
    recv_buf (loop_events env control_noti timeout_us (pre ++ n :: post) s)
    = memcpy (recv_buf s) (n_data n).
Proof.
  induction pre as [|m pre IH]; intros s Hflag Hpre Htime Hh; simpl; rewrite Hflag.
  - destruct (timeout_us <=? n_time n) eqn:E; [apply Z.leb_le in E; lia|].
    assert (Hd : control_noti (dispatch env n s) = true /\
                 recv_buf (dispatch env n s) = memcpy (recv_buf s) (n_data n)).
    { unfold dispatch. cbn [handlers log]. rewrite Hh.
      unfold control_notify_handler. now destruct (env_debug env). }
    rewrite loop_events_set by apply Hd. exact Hd.
  - inversion Hpre as [|? ? [Hm Hother] Hrest]; subst.
    destruct (timeout_us <=? n_time m) eqn:E; [apply Z.leb_le in E; lia|].
    destruct (dispatch_other m s Hother) as (Hc & Hr & Hhs).
    rewrite <- Hr. apply IH; try assumption.
    + now rewrite Hc.
    + rewrite Hhs. exact Hrest.
    + now rewrite Hhs.
Qed.

Lemma loop_events_no_control timeout_us :
  forall ns s,
    control_noti s = false ->
    Forall (fun m => timeout_us <= n_time m \/
                     handlers s !! n_uuid m <> Some control_notify) ns ->
    control_noti (loop_events env control_noti timeout_us ns s) = false.
Proof.
  induction ns as [|m ns IH]; intros s Hflag Hns; simpl; [exact Hflag|].
  rewrite Hflag. inversion Hns as [|? ? Hm Hrest]; subst.
  destruct (timeout_us <=? n_time m) eqn:E; [exact Hflag|].
  destruct Hm as [Hm|Hm]; [apply Z.leb_gt in E; lia|].
  destruct (dispatch_other m s Hm) as (Hc & _ & Hhs).
  apply IH; [now rewrite Hc|now rewrite Hhs].
Qed.

(** C7.  [ble_read] clears the flag and waits until the callback of the
    control point has run once or 10 seconds (10000000 microseconds) have
    passed.  When a notification of the control point arrives in time, it
    returns [recv_buf], which starts with the bytes of that notification;
    when none does, it returns NULL. *)
Theorem ble_read_notification (s : state) :
  (forall pre n post,
      env_notifications env (waits s) = pre ++ n :: post ->
      Forall (fun m => n_time m < 10000000 /\
                       handlers s !! n_uuid m <> Some control_notify) pre ->
      n_time n < 10000000 ->
      handlers s !! n_uuid n = Some control_notify ->
      (length (n_data n) <= length (recv_buf s))%nat ->
      exists buf s',
        ble_read env s = (Some buf, s') /\
        take (length (n_data n)) buf = n_data n /\
        length buf = length (recv_buf s)) /\
  (Forall (fun m => 10000000 <= n_time m \/
                    handlers s !! n_uuid m <> Some control_notify)
          (env_notifications env (waits s)) ->
   exists s', ble_read env s = (None, s')).
Proof.
  split.
  - intros pre n post Hns Hpre Htime Hh Hlen.
    unfold ble_read, blz_loop_timeout. cbn [waits set_control_noti]. rewrite Hns.
    set (s0 := next_wait (log (ev_loop_timeout 10000000) (set_control_noti false s))).
    destruct (loop_events_control 10000000 n post pre s0) as (Hc & Hr); try assumption;
      [reflexivity|].
    rewrite Hc. cbn [negb]. do 2 eexists. split; [reflexivity|].
    rewrite Hr. unfold memcpy. cbn [recv_buf s0 next_wait log set_control_noti].
    split.
    + now rewrite take_app_length.
    + rewrite length_app, length_drop. lia.
  - intros Hns.
    unfold ble_read, blz_loop_timeout. cbn [waits set_control_noti].
    set (s0 := next_wait (log (ev_loop_timeout 10000000) (set_control_noti false s))).
    rewrite (loop_events_no_control 10000000 _ s0); [|reflexivity|exact Hns].
    cbn [negb]. eexists. reflexivity.
Qed.

End Properties.

End BleFacts.

Module BleRuns.

Import Ble Peers BleFacts.

Lemma connect_loop_connected (env : ble_env) :
  connect_loop env "app" BAT_RANDOM 0 (initialised "hci0" initial)
  = ((connect_loop env "app" BAT_RANDOM 0 (initialised "hci0" initial)).1, connected env).
Proof. apply surjective_pairing. Qed.

(** C3, counterexample.  The device answers the write with a notification
    whose third byte is 0x02: the callback logs it as unexpected, the wait
    is over, [ble_enter_dfu] disconnects, connects to DfuTarg and returns
    true.  The notification with 0x01 that follows is never waited for. *)
Lemma ble_enter_dfu_accepts_refusal :
  let r := run (ble_enter_dfu (radio 0 application refusing) "hci0" "app" BAT_RANDOM) initial in
  r.1 = true /\
  trace r.2 =
    [ ev_init "hci0"; LOG_NOTI "Connecting to"; ev_connect "app" BAT_RANDOM;
      ev_get_serv DFU_SERVICE_UUID; ev_get_char DFU_BUTTONLESS_UUID;
      ev_indicate_start buttonless_char; LOG_NOTI "Enter DFU Bootloader";
      ev_char_write buttonless_char [1]; ev_loop_timeout 10000000;
      ev_notification refused; LOG_ERR "Unexpected response";
      ev_disconnect; LOG_NOTI "Connecting to DfuTarg"; ev_connect "dfutarg" BAT_RANDOM;
      ev_get_serv DFU_SERVICE_UUID; ev_get_char DFU_DATA_UUID; ev_get_char DFU_CONTROL_UUID;
      LOG_NOTI "DFU characteristics found"; ev_notify_start control_char ].
Proof. split; vm_compute; reflexivity. Qed.

Lemma ble_enter_dfu_buttonless_wait_witness :
  let env := radio 1 application refusing in
  let tr := trace (run (ble_enter_dfu env "hci0" "app" BAT_RANDOM) initial).2 in
  let written :=
    trace (connected env) ++
    [ ev_get_serv DFU_SERVICE_UUID; ev_get_char DFU_BUTTONLESS_UUID;
      ev_indicate_start buttonless_char; LOG_NOTI "Enter DFU Bootloader";
      ev_char_write buttonless_char [1]; ev_loop_timeout 10000000 ] in
  env_notifications env (waits (connected env)) = [refused; confirmed] /\
  (3 <= length (n_data refused))%nat /\
  exists logged post,
    tr = written ++ [ev_notification refused] ++ logged ++ [ev_disconnect] ++ post /\
    (logged = [] \/ logged = [LOG_ERR "Unexpected response"]) /\
    ((3 <= length (n_data refused))%nat -> logged = unexpected (n_data refused)).
Proof.
  intros env.
  split; [vm_compute; reflexivity|]. split; [vm_compute; lia|].
  refine (proj1 (ble_enter_dfu_buttonless_wait env "hci0" "app" BAT_RANDOM initial
                   1%nat (connected env) application application_service buttonless_char
                   _ _ _ _ _ _ _ _ _) refused [confirmed] _ _ _).
  - reflexivity.
  - apply connect_loop_connected.
  - vm_compute. lia.
  - vm_compute. reflexivity.
  - vm_compute. reflexivity.
  - vm_compute. reflexivity.
  - reflexivity.
  - reflexivity.
  - vm_compute. reflexivity.
  - vm_compute. reflexivity.
  - reflexivity.
  - vm_compute. reflexivity.
Defined.

(** C4, counterexample.  From the array 01 00 00 00 00 C0 the hop leads to
    02 00 00 00 00 C0: byte 0 goes up by one, the address read with byte 0
    as its low-order byte goes up by one, as the comment in the source has
    it, and byte 5, the high-order byte of that reading, stays.  The older
    copy of the function increments byte 5 instead; no position of the
    array is incremented by both. *)
Lemma mac_hop_low_order_byte :
  let mac := [1; 0; 0; 0; 0; 192] in
  mac_hop mac = [2; 0; 0; 0; 0; 192] /\
  mac_value (mac_hop mac) = mac_value mac + 1 /\
  mac_hop mac !! 5%nat = mac !! 5%nat /\
  legacy_mac_hop mac = [1; 0; 0; 0; 0; 193] /\
  ~ (exists i : nat,
        mac_hop mac = alter (fun b => (b + 1) mod 256) i mac /\
        legacy_mac_hop mac = alter (fun b => (b + 1) mod 256) i mac).
Proof.
  repeat split; try reflexivity.
  intros (i & H0 & H5).
  destruct i as [|[|[|[|[|[|i]]]]]]; vm_compute in H0, H5; congruence.
Qed.

Lemma ble_enter_dfu_dfutarg_hop_witness :
  let env := radio 1 application refusing in
  let macs := blz_mac_to_string_s env (mac_hop (blz_string_to_mac_s env "app")) in
  (exists mid post,
      trace (run (ble_enter_dfu env "hci0" "app" BAT_RANDOM) initial).2 =
        trace (connected env) ++
        [ ev_get_serv DFU_SERVICE_UUID; ev_get_char DFU_BUTTONLESS_UUID;
          ev_indicate_start buttonless_char; LOG_NOTI "Enter DFU Bootloader";
          ev_char_write buttonless_char [1]; ev_loop_timeout 10000000 ] ++ mid ++
        [ ev_disconnect; LOG_NOTI "Connecting to DfuTarg"; ev_connect macs BAT_RANDOM ] ++ post /\
      forall dv2 srv2,
        env_connect env (connects (connected env)) macs = Some dv2 ->
        dv2 !! DFU_SERVICE_UUID = Some srv2 ->
        exists post',
          post = [ ev_get_serv DFU_SERVICE_UUID; ev_get_char DFU_DATA_UUID;
                   ev_get_char DFU_CONTROL_UUID ] ++ post') /\
  (forall b rest,
      blz_string_to_mac_s env "app" = b :: rest ->
      mac_hop (blz_string_to_mac_s env "app") = (b + 1) mod 256 :: rest).
Proof.
  intros env.
  apply (ble_enter_dfu_dfutarg_hop env "hci0" "app" BAT_RANDOM initial
           1%nat (connected env) application application_service buttonless_char).
  - reflexivity.
  - apply connect_loop_connected.
  - vm_compute. lia.
  - vm_compute. reflexivity.
  - vm_compute. reflexivity.
  - vm_compute. reflexivity.
  - reflexivity.
  - reflexivity.
Defined.

Lemma ble_read_notification_witness :
  let env := radio 0 application (fun _ => [refused; response]) in
  exists buf s',
    ble_read env listening = (Some buf, s') /\
    take 3 buf = [96; 1; 1] /\
    length buf = 200%nat.
Proof.
  intros env.
  apply (proj1 (ble_read_notification env listening) [refused] response []).
  - reflexivity.
  - repeat constructor; vm_compute; congruence.
  - vm_compute. reflexivity.
  - vm_compute. reflexivity.
  - vm_compute. lia.
Defined.

(** Nothing arrives: [ble_read] returns NULL. *)
Lemma ble_read_timeout : (ble_read (radio 0 application quiet) listening).1 = None.
Proof. reflexivity. Qed.

(** C8, counterexample.  The device has no buttonless characteristic, its
    data and control characteristics are found, but the subscription to the
    control point fails: [ble_enter_dfu] returns false. *)
Lemma ble_enter_dfu_direct_subscription_fails :
  let env := radio 0 (dfutarg deaf_control_char) quiet in
  let r := run (ble_enter_dfu env "hci0" "app" BAT_RANDOM) initial in
  dfutarg_service deaf_control_char !! DFU_BUTTONLESS_UUID = None /\
  dfutarg_service deaf_control_char !! DFU_DATA_UUID = Some data_char /\
  dfutarg_service deaf_control_char !! DFU_CONTROL_UUID = Some deaf_control_char /\
  r.1 = false /\
  trace r.2 =
    [ ev_init "hci0"; LOG_NOTI "Connecting to"; ev_connect "app" BAT_RANDOM;
      ev_get_serv DFU_SERVICE_UUID; ev_get_char DFU_BUTTONLESS_UUID;
      LOG_ERR "Could not find buttonless DFU UUID";
      ev_get_char DFU_DATA_UUID; ev_get_char DFU_CONTROL_UUID;
      LOG_NOTI "DFU characteristics found"; ev_notify_start deaf_control_char;
      LOG_ERR "Could not start CP notification" ].
Proof. repeat split; vm_compute; reflexivity. Qed.

Lemma ble_enter_dfu_direct_witness :
  let env := radio 2 (dfutarg control_char) quiet in
  let '(ret, s') := run (ble_enter_dfu env "hci0" "app" BAT_RANDOM) initial in
  ret = ch_subscribe_ok control_char /\
  trace s' = trace (connected env) ++
    [ ev_get_serv DFU_SERVICE_UUID;
      ev_get_char DFU_BUTTONLESS_UUID;
      LOG_ERR "Could not find buttonless DFU UUID";
      ev_get_char DFU_DATA_UUID;
      ev_get_char DFU_CONTROL_UUID;
      LOG_NOTI "DFU characteristics found";
      ev_notify_start control_char ] ++
    (if ch_subscribe_ok control_char then []
     else [LOG_ERR "Could not start CP notification"]) /\
  dp s' = Some data_char /\ cp s' = Some control_char.
Proof.
  intros env.
  apply (ble_enter_dfu_direct env "hci0" "app" BAT_RANDOM initial
           2%nat (connected env) (dfutarg control_char) (dfutarg_service control_char)
           data_char control_char).
  - reflexivity.
  - apply connect_loop_connected.
  - vm_compute. lia.
  - vm_compute. reflexivity.
  - vm_compute. reflexivity.
  - vm_compute. reflexivity.
  - vm_compute. reflexivity.
  - vm_compute. reflexivity.
Defined.

(** Three attempts fail: the run in full. *)
Lemma ble_enter_dfu_gives_up :
  let r := run (ble_enter_dfu (radio 3 application quiet) "hci0" "app" BAT_RANDOM) initial in
  r.1 = false /\
  trace r.2 =
    [ ev_init "hci0";
      LOG_NOTI "Connecting to"; ev_connect "app" BAT_RANDOM;
      LOG_ERR "Could not connect to"; ev_sleep 5;
      LOG_NOTI "Connecting to"; ev_connect "app" BAT_RANDOM;
      LOG_ERR "Could not connect to"; ev_sleep 5;
      LOG_NOTI "Connecting to"; ev_connect "app" BAT_RANDOM;
      LOG_ERR "Could not connect to"; ev_sleep 5;
      LOG_ERR "Gave up connecting to" ].
Proof. split; vm_compute; reflexivity. Qed.

End BleRuns.

(** * Further properties of main.c *)

Section MainFurther.

Context `{JsonLib}.

Lemma read_manifest_log (zip : zip_t) (residue : text) (d b : option string) :
  forallb is_log (read_manifest zip residue d b).2 = true.
Proof.
  unfold read_manifest.
  destruct (zip_fopen zip "manifest.json") as [zf|]; [|reflexivity].
  destruct (zip_fread zf MANIFEST_BUF) as [buf len].
  destruct (len <=? 0); [reflexivity|].
  destruct (json_tokener_parse _); [|reflexivity].
  match goal with |- context [let '(_, _) := ?e in _] => destruct e as [dat' bin'] end.
  destruct (_ || _); reflexivity.
Qed.

Lemma zip_file_open_log (zip : zip_t) (name : string) :
  forallb is_log (zip_file_open zip name).2 = true.
Proof.
  unfold zip_file_open.
  destruct (zip !! name); [destruct (zip_fopen zip name)|]; reflexivity.
Qed.

Lemma log_no_dfu (tr : list event) :
  forallb is_log tr = true ->
  existsb is_dfu_op tr = false /\
  existsb is_serial_init tr = false /\
  forallb (fun e => negb (is_serial_fini e)) tr = true.
Proof.
  induction tr as [|e tr IH]; [now cbn|].
  cbn. intros Hl. apply andb_prop in Hl as [He Hl].
  destruct (IH Hl) as (H1 & H2 & H3). rewrite H1, H2, H3.
  destruct e; try discriminate; now cbn.
Qed.

(** The five ways through [main]. *)
Lemma main_cases (fuel : nat) (w : world) :
  (w_zip w = None /\
   main fuel w = Exit EXIT_FAILURE [LOG_ERR "Could not open ZIP file"; serial_fini (-1)]) \/
  (exists zip d b tr,
      w_zip w = Some zip /\
      read_manifest zip (w_residue w) None None = (-1, d, b, tr) /\
      main fuel w = Exit (-1) (tr ++ [serial_fini (-1)])) \/
  (exists zip dat bin tr,
      w_zip w = Some zip /\
      read_manifest zip (w_residue w) None None = (0, Some dat, Some bin, []) /\
      (zip_fopen zip dat = None \/ zip_fopen zip bin = None) /\
      forallb is_log tr = true /\
      main fuel w = Exit 0 (tr ++ [serial_fini (-1)])) \/
  (exists zip dat bin,
      w_zip w = Some zip /\
      read_manifest zip (w_residue w) None None = (0, Some dat, Some bin, []) /\
      is_Some (zip_fopen zip dat) /\ is_Some (zip_fopen zip bin) /\
      w_serial_fd w <= 0 /\
      main fuel w = Exit 0 [serial_init; serial_fini (w_serial_fd w)]) \/
  (exists zf1 zf2, ready w zf1 zf2).
Proof.
  unfold main.
  destruct (w_zip w) as [zip|] eqn:Hzip; [|left; split; reflexivity].
  right.
  destruct (read_manifest zip (w_residue w) None None) as [[[ret dat] bin] tr] eqn:Hman.
  destruct (read_manifest_ret _ _ _ _ _ _ _ _ Hman) as [(-> & -> & [d ->] & [b ->])|[-> Htr]].
  2:{ left. exists zip, dat, bin, tr. split; [reflexivity|]. split; [exact Hman|].
      cbn. now destruct dat, bin. }
  right. cbn.
  pose proof (zip_file_open_log zip d) as L1. pose proof (zip_file_open_log zip b) as L2.
  destruct (zip_file_open zip d) as [[zf1 zs1] tr1] eqn:H1.
  destruct (zip_file_open zip b) as [[zf2 zs2] tr2] eqn:H2.
  cbn in L1, L2.
  assert (Hopen : forall name o z t,
             zip_file_open zip name = (o, z, t) -> o = zip_fopen zip name).
  { intros name o z t. unfold zip_file_open.
    destruct (zip !! name) eqn:E.
    - destruct (zip_fopen zip name); now intros [= <- <- <-].
    - unfold zip_fopen. rewrite E. now intros [= <- <- <-]. }
  pose proof (Hopen _ _ _ _ H1) as O1. pose proof (Hopen _ _ _ _ H2) as O2.
  destruct zf1 as [zf1|], zf2 as [zf2|];
    try (left; exists zip, d, b, (tr1 ++ tr2);
         split; [reflexivity|]; split; [exact Hman|];
         split; [rewrite <- O1, <- O2; auto|];
         split; [rewrite forallb_app, L1, L2; reflexivity|];
         unfold main_exit; now rewrite <- app_assoc).
  right.
  apply zip_file_open_inv in H1 as (F1 & -> & ->), H2 as (F2 & -> & ->).
  destruct (w_serial_fd w <=? 0) eqn:Hfd.
  - left. exists zip, d, b. rewrite F1, F2. apply Z.leb_le in Hfd.
    repeat split; eauto.
  - right. exists zf1, zf2, zip, d, b. apply Z.leb_gt in Hfd. repeat split; assumption.
Qed.

Lemma ping_loop_left (ping : nat -> bool) :
  forall fuel n tr,
    ping_loop fuel ping n = (tr, false) ->
    tr = failed_pings fuel /\ forall i, (i < fuel)%nat -> ping (n + i)%nat = false.
Proof.
  induction fuel as [|fuel IH]; intros n tr; simpl.
  - intros [= <-]. split; [reflexivity|intros i Hi; lia].
  - destruct (ping n) eqn:Hn; [discriminate|].
    destruct (ping_loop fuel ping (S n)) as [t l] eqn:E. intros [= <- ->].
    destruct (IH _ _ E) as (-> & Hf). split; [reflexivity|].
    intros [|i] Hi; [now rewrite Nat.add_0_r|].
    replace (n + S i)%nat with (S n + i)%nat by lia. apply Hf. lia.
Qed.

(** X1.  A run of [main] that returns, returns 1 when the archive does not
    open, -1 when [read_manifest] fails and 0 in every other case: that of
    the completed upgrade, and those of a missing member and of a serial
    port that does not open. *)
Theorem main_exit_codes (fuel : nat) (w : world) (ret : Z) (tr : list event) :
  main fuel w = Exit ret tr ->
  (w_zip w = None /\ ret = EXIT_FAILURE) \/
  (exists zip,
      w_zip w = Some zip /\
      (read_manifest zip (w_residue w) None None).1.1.1 = -1 /\ ret = -1) \/
  (exists zip,
      w_zip w = Some zip /\
      (read_manifest zip (w_residue w) None None).1.1.1 = 0 /\ ret = 0).
Proof.
  intros Hmain.
  destruct (main_cases fuel w)
    as [(Hz & E)|[(zip & d & b & t & Hz & Hm & E)|[(zip & d & b & t & Hz & Hm & _ & _ & E)
       |[(zip & d & b & Hz & Hm & _ & _ & _ & E)|(zf1 & zf2 & Hr)]]]].
  - left. rewrite E in Hmain. inversion Hmain. auto.
  - right. left. exists zip. rewrite E in Hmain. inversion Hmain. now rewrite Hm.
  - right. right. exists zip. rewrite E in Hmain. inversion Hmain. now rewrite Hm.
  - right. right. exists zip. rewrite E in Hmain. inversion Hmain. now rewrite Hm.
  - right. right. rewrite (main_ready fuel w zf1 zf2 Hr) in Hmain.
    destruct Hr as (zip & d & b & Hz & Hm & _). exists zip. rewrite Hm.
    destruct (ping_loop fuel (w_ping w) 0) as [p [|]]; inversion Hmain. auto.
Qed.

(** X2.  Every run of [main] that returns ends with exactly one call of
    [serial_fini]: with the descriptor that [serial_init] returned when the
    port was asked for, and with the initial -1 of [ser_fd] when it was
    not. *)
Theorem main_serial_fini_last (fuel : nat) (w : world) (ret : Z) (tr : list event) :
  main fuel w = Exit ret tr ->
  exists tr',
    tr = tr' ++ [serial_fini (if existsb is_serial_init tr' then w_serial_fd w else -1)] /\
    forallb (fun e => negb (is_serial_fini e)) tr' = true.
Proof.
  intros Hmain.
  destruct (main_cases fuel w)
    as [(Hz & E)|[(zip & d & b & t & Hz & Hm & E)|[(zip & d & b & t & Hz & Hm & _ & L & E)
       |[(zip & d & b & Hz & Hm & _ & _ & _ & E)|(zf1 & zf2 & Hr)]]]].
  - rewrite E in Hmain. inversion Hmain. now exists [LOG_ERR "Could not open ZIP file"].
  - rewrite E in Hmain. inversion Hmain. exists t.
    pose proof (read_manifest_log zip (w_residue w) None None) as L. rewrite Hm in L.
    destruct (log_no_dfu t L) as (_ & -> & ->). auto.
  - rewrite E in Hmain. inversion Hmain. exists t.
    destruct (log_no_dfu t L) as (_ & -> & ->). auto.
  - rewrite E in Hmain. inversion Hmain. now exists [serial_init].
  - rewrite (main_ready fuel w zf1 zf2 Hr) in Hmain.
    destruct (ping_loop_shape (w_ping w) fuel 0) as [(k & Hk & E)|E];
      rewrite E in Hmain; [|discriminate].
    inversion Hmain.
    exists ([serial_init] ++ (failed_pings k ++ [dfu_ping true])
              ++ upgrade zf1 (payload_size zf1) zf2 (payload_size zf2)).
    split; [cbn; now rewrite <- !app_assoc|].
    cbn. rewrite !forallb_app. cbn. rewrite !andb_true_r.
    clear. induction k as [|k IH]; [reflexivity|exact IH].
Qed.

(** X3.  Whatever a run of [main] has done, returned or not, it has issued
    a DFU request only if the archive opened, the manifest named two
    members that both opened, and the serial port opened. *)
Theorem main_dfu_needs_package (fuel : nat) (w : world) :
  existsb is_dfu_op (outcome_trace (main fuel w)) = true ->
  exists zf1 zf2, ready w zf1 zf2.
Proof.
  intros Hdfu.
  destruct (main_cases fuel w)
    as [(Hz & E)|[(zip & d & b & t & Hz & Hm & E)|[(zip & d & b & t & Hz & Hm & _ & L & E)
       |[(zip & d & b & Hz & Hm & _ & _ & _ & E)|Hr]]]]; [..|exact Hr];
    rewrite E in Hdfu; cbn in Hdfu; try discriminate.
  - pose proof (read_manifest_log zip (w_residue w) None None) as L. rewrite Hm in L.
    rewrite existsb_app in Hdfu. destruct (log_no_dfu t L) as (N & _).
    rewrite N in Hdfu. discriminate.
  - rewrite existsb_app in Hdfu. destruct (log_no_dfu t L) as (N & _).
    rewrite N in Hdfu. discriminate.
Qed.

(** X4.  A run of [main] that has not returned after [fuel] rounds of the
    Ping loop has opened the package and the port and has done nothing
    since but send [fuel] Pings that were not answered, with a pause of one
    second after each: no other request goes out before a Ping is
    answered. *)
Theorem main_spinning (fuel : nat) (w : world) (tr : list event) :
  main fuel w = Spinning tr ->
  (exists zf1 zf2, ready w zf1 zf2) /\
  tr = [serial_init] ++ failed_pings fuel /\
  forall i, (i < fuel)%nat -> w_ping w i = false.
Proof.
  intros Hmain.
  destruct (main_cases fuel w)
    as [(Hz & E)|[(zip & d & b & t & Hz & Hm & E)|[(zip & d & b & t & Hz & Hm & _ & L & E)
       |[(zip & d & b & Hz & Hm & _ & _ & _ & E)|(zf1 & zf2 & Hr)]]]];
    try (rewrite E in Hmain; discriminate).
  split; [eauto|].
  rewrite (main_ready fuel w zf1 zf2 Hr) in Hmain.
  destruct (ping_loop fuel (w_ping w) 0) as [p [|]] eqn:E; [discriminate|].
  inversion Hmain. destruct (ping_loop_left _ _ _ _ E) as (-> & Hf). split; [reflexivity|].
  exact Hf.
Qed.

End MainFurther.

Lemma c_string_app (pre x : text) :
  Forall (fun c => c <> NUL) pre -> c_string (pre ++ x) = pre ++ c_string x.
Proof.
  induction 1 as [|c pre Hc _ IH]; [reflexivity|].
  cbn. destruct (Ascii.eqb c NUL) eqn:E; [apply Ascii.eqb_eq in E; contradiction|].
  now rewrite IH.
Qed.

Lemma c_string_no_nul (x : text) : Forall (fun c => c <> NUL) (c_string x).
Proof.
  induction x as [|c x IH]; cbn; [constructor|].
  destruct (Ascii.eqb c NUL) eqn:E; constructor; [|exact IH].
  now apply Ascii.eqb_neq.
Qed.

Lemma c_string_id (x : text) : Forall (fun c => c <> NUL) x -> c_string x = x.
Proof.
  intros Hx. rewrite <- (app_nil_r x) at 1. rewrite (c_string_app x [] Hx). cbn.
  apply app_nil_r.
Qed.

Section ManifestFurther.

Context `{JsonLib}.

Lemma read_manifest_open (zip : zip_t) (zf : zip_file) (residue : text)
      (dat bin : option string) :
  zip_fopen zip "manifest.json" = Some zf ->
  zf_data zf <> [] ->
  read_manifest zip residue dat bin
  = manifest_result (c_string (take MANIFEST_BUF (zf_data zf) ++ residue)) dat bin.
Proof.
  intros Hopen Hne. unfold read_manifest, zip_fread, manifest_result. rewrite Hopen.
  cbn beta iota zeta.
  destruct (_ <=? 0) eqn:L; [|reflexivity].
  apply Z.leb_le in L. destruct (zf_data zf); [congruence|]. cbn in L. lia.
Qed.

Lemma read_manifest_empty (zip : zip_t) (zf : zip_file) (residue : text)
      (dat bin : option string) :
  zip_fopen zip "manifest.json" = Some zf ->
  zf_data zf = [] ->
  read_manifest zip residue dat bin = (-1, dat, bin, [LOG_ERR "Could not read Manifest"]).
Proof.
  intros Hopen He. unfold read_manifest, zip_fread. rewrite Hopen, He. reflexivity.
Qed.


Ltac diagnose :=
  split; intros ?;
  repeat match goal with
    | H : exists _, _ |- _ => destruct H as [? H]
    | H : _ /\ _ |- _ => destruct H
    | H : Some _ = Some _ |- _ => injection H as H; subst
    | H : _ \/ _ |- _ => destruct H
    end;
  try reflexivity; try discriminate; try congruence.


(** X7.  A NUL among the first 200 bytes of the manifest ends the text that
    [read_manifest] hands to the parser: what follows the NUL in the
    manifest and what lies behind the buffer have no effect on the result. *)
Theorem read_manifest_stops_at_nul (zip zip' : zip_t) (openable : bool)
        (pre post post' residue residue' : text) (d b : option string) :
  zip !! "manifest.json" = Some (Member (pre ++ NUL :: post) openable) ->
  zip' !! "manifest.json" = Some (Member (pre ++ NUL :: post') openable) ->
  Forall (fun c => c <> NUL) pre ->
  (length pre < MANIFEST_BUF)%nat ->
  read_manifest zip residue d b = read_manifest zip' residue' d b /\
  read_manifest zip residue d b
  = if openable then manifest_result pre d b
    else (-1, d, b, [LOG_ERR "ZIP file does not contain manifest"]).
Proof.
  intros Hz Hz' Hpre Hlen.
  assert (HB : MANIFEST_BUF = 200%nat) by reflexivity.
  assert (Hone : forall z p r,
             z !! "manifest.json" = Some (Member (pre ++ NUL :: p) openable) ->
             read_manifest z r d b
             = if openable then manifest_result pre d b
               else (-1, d, b, [LOG_ERR "ZIP file does not contain manifest"])).
  { intros z p r Hm. destruct openable.
    - rewrite (read_manifest_open z (ZipFile "manifest.json" (pre ++ NUL :: p)) r d b).
      + cbn [zf_data]. f_equal.
        rewrite take_app_ge by lia.
        replace (take (MANIFEST_BUF - length pre) (NUL :: p))
          with (NUL :: take (MANIFEST_BUF - length pre - 1) p).
        * rewrite <- app_assoc, (c_string_app pre _ Hpre). cbn. apply app_nil_r.
        * destruct (MANIFEST_BUF - length pre)%nat as [|k] eqn:E; [lia|].
          cbn. now rewrite Nat.sub_0_r.
      + unfold zip_fopen. now rewrite Hm.
      + cbn. now destruct pre.
    - unfold read_manifest, zip_fopen. now rewrite Hm. }
  split; [now rewrite (Hone zip post residue Hz), (Hone zip' post' residue' Hz')|].
  exact (Hone zip post residue Hz).
Qed.


End ManifestFurther.

(** * Properties of main_options *)

Section OptionsFacts.

Variable atoi : string -> Z.

Lemma getopt_loop_app (pre post : list (Z * option string)) (conf : config) :
  Forall (fun g => 0 <= g.1) pre ->
  getopt_loop atoi (pre ++ post) conf =
    let '(conf1, out1) := getopt_loop atoi pre conf in
    let '(conf2, out2) := getopt_loop atoi post conf1 in
    (conf2, out1 ++ out2).
Proof.
  intros Hpre. revert conf. induction Hpre as [|[n a] pre Hn _ IH]; intros conf.
  - cbn. now destruct (getopt_loop atoi post conf).
  - cbn in *. destruct (n <? 0) eqn:E; [apply Z.ltb_lt in E; lia|].
    destruct (option_switch atoi conf n a) as [c1 o1].
    rewrite IH.
    destruct (getopt_loop atoi pre c1) as [c2 o2].
    destruct (getopt_loop atoi post c2) as [c3 o3].
    now rewrite app_assoc.
Qed.

Lemma getopt_loop_other (gets : list (Z * option string)) (conf : config) :
  Forall (fun g => g.1 <> opt_p) gets ->
  conf_serport (getopt_loop atoi gets conf).1 = conf_serport conf.
Proof.
  intros Hg. revert conf. induction Hg as [|[n a] gets Hn _ IH]; intros conf; [reflexivity|].
  cbn in *. destruct (n <? 0); [reflexivity|].
  destruct (option_switch atoi conf n a) as [c1 o1] eqn:E.
  specialize (IH c1). destruct (getopt_loop atoi gets c1) as [c2 o2]. cbn in *.
  rewrite IH. unfold option_switch in E.
  destruct (n =? opt_h); [now inversion E|].
  destruct (n =? opt_d); [destruct a; now inversion E|].
  destruct (n =? opt_p) eqn:P; [apply Z.eqb_eq in P; contradiction|now inversion E].
Qed.

Lemma main_options_serport (gets : list (Z * option string)) (rest : list string)
      (conf : config) :
  conf_serport (main_options atoi gets rest conf).1
  = conf_serport
      (getopt_loop atoi gets
         (Config (conf_debug conf) (Some "/dev/ttyUSB0"%string) (conf_zipfile conf))).1.
Proof.
  unfold main_options. destruct (getopt_loop atoi gets _) as [c o].
  destruct rest as [|z [|g rest]]; reflexivity.
Qed.

(** X9.  The serial port of the run is /dev/ttyUSB0 when no option -p is
    given, and the argument of the last -p otherwise. *)
Theorem main_options_port (gets : list (Z * option string)) (rest : list string)
        (conf : config) :
  (Forall (fun g => g.1 <> opt_p) gets ->
   conf_serport (main_options atoi gets rest conf).1 = Some "/dev/ttyUSB0"%string) /\
  (forall pre port post,
      gets = pre ++ (opt_p, port) :: post ->
      Forall (fun g => 0 <= g.1) pre ->
      Forall (fun g => g.1 <> opt_p) post ->
      conf_serport (main_options atoi gets rest conf).1 = port).
Proof.
  split.
  - intros Hg. now rewrite main_options_serport, getopt_loop_other.
  - intros pre port post -> Hpre Hpost.
    rewrite main_options_serport, getopt_loop_app by exact Hpre.
    destruct (getopt_loop atoi pre _) as [c1 o1].
    pose proof (getopt_loop_other post
                  (Config (conf_debug c1) port (conf_zipfile c1)) Hpost) as Hp.
    cbn. destruct (getopt_loop atoi post _) as [c2 o2]. exact Hp.
Qed.

(** The options that change the configuration. *)
Lemma option_switch_silent (conf : config) (n : Z) (a : option string) :
  n <> opt_d -> n <> opt_p ->
  (option_switch atoi conf n a).1 = conf.
Proof.
  intros Hd Hp. unfold option_switch.
  destruct (n =? opt_h); [reflexivity|].
  destruct (n =? opt_d) eqn:D; [apply Z.eqb_eq in D; contradiction|].
  destruct (n =? opt_p) eqn:P; [apply Z.eqb_eq in P; contradiction|reflexivity].
Qed.

Lemma getopt_loop_filter (gets : list (Z * option string)) (conf : config) :
  Forall (fun g => 0 <= g.1) gets ->
  (getopt_loop atoi gets conf).1
  = (getopt_loop atoi (filter (fun g => g.1 = opt_d \/ g.1 = opt_p) gets) conf).1.
Proof.
  intros Hg. revert conf. induction Hg as [|[n a] gets Hn _ IH]; intros conf; [reflexivity|].
  rewrite filter_cons. cbn [fst] in *. case_decide as Hdp.
  - cbn. destruct (n <? 0); [reflexivity|].
    destruct (option_switch atoi conf n a) as [c1 o1].
    specialize (IH c1).
    destruct (getopt_loop atoi gets c1) as [c2 o2].
    destruct (getopt_loop atoi (filter _ gets) c1) as [c3 o3]. exact IH.
  - cbn. destruct (n <? 0) eqn:E; [apply Z.ltb_lt in E; lia|].
    pose proof (option_switch_silent conf n a) as Hs.
    destruct (option_switch atoi conf n a) as [c1 o1]. cbn in Hs.
    rewrite Hs in * by tauto. specialize (IH conf).
    destruct (getopt_loop atoi gets conf) as [c2 o2]. exact IH.
Qed.

Context `{JsonLib}.

(** X10.  The option -h and an option that [getopt_long] does not know
    leave the configuration as it is and do not end the program: the run
    is the one without them, [usage] being written on the way. *)
Theorem main_options_help_goes_on (gets : list (Z * option string)) (rest : list string) :
  Forall (fun g => 0 <= g.1) gets ->
  let kept := filter (fun g => g.1 = opt_d \/ g.1 = opt_p) gets in
  (forall conf, (main_options atoi gets rest conf).1 = (main_options atoi kept rest conf).1) /\
  (forall sys fuel, (nrfdfu atoi gets rest sys fuel).2 = (nrfdfu atoi kept rest sys fuel).2).
Proof.
  intros Hg kept.
  assert (Hconf : forall conf,
             (main_options atoi gets rest conf).1 = (main_options atoi kept rest conf).1).
  { intros conf. unfold main_options.
    pose proof (getopt_loop_filter gets
                  (Config (conf_debug conf) (Some "/dev/ttyUSB0"%string) (conf_zipfile conf))
                  Hg) as Hf.
    fold kept in Hf.
    destruct (getopt_loop atoi gets _) as [c1 o1].
    destruct (getopt_loop atoi kept _) as [c2 o2]. cbn in Hf. subst c2.
    destruct rest as [|z [|g rest]]; reflexivity. }
  split; [exact Hconf|].
  intros sys fuel. unfold nrfdfu. specialize (Hconf conf_start).
  destruct (main_options atoi gets rest conf_start) as [c1 o1].
  destruct (main_options atoi kept rest conf_start) as [c2 o2].
  cbn in *. now subst c2.
Qed.

(** X11.  The archive is the first argument that is no option; what
    follows it does not change the run and is reported, by its first
    argument alone, as garbage.  Without such an argument the archive of
    the configuration stays what it was, NULL when the program starts. *)
Theorem main_options_zipfile (gets : list (Z * option string)) (conf : config) :
  conf_zipfile (main_options atoi gets [] conf).1 = conf_zipfile conf /\
  (forall zipfile more,
      conf_zipfile (main_options atoi gets (zipfile :: more) conf).1 = Some zipfile /\
      (main_options atoi gets (zipfile :: more) conf).1
      = (main_options atoi gets [zipfile] conf).1 /\
      (main_options atoi gets (zipfile :: more) conf).2
      = (main_options atoi gets [zipfile] conf).2
          ++ match more with
             | [] => []
             | arg :: _ => [garbage_arguments arg]
             end).
Proof.
  unfold main_options.
  assert (Hz : forall gs c, conf_zipfile (getopt_loop atoi gs c).1 = conf_zipfile c).
  { induction gs as [|[n a] gs IH]; intros c; [reflexivity|].
    cbn. destruct (n <? 0); [reflexivity|].
    destruct (option_switch atoi c n a) as [c1 o1] eqn:E.
    specialize (IH c1). destruct (getopt_loop atoi gs c1) as [c2 o2]. cbn in *.
    rewrite IH. unfold option_switch in E.
    destruct (n =? opt_h); [now inversion E|].
    destruct (n =? opt_d); [destruct a; now inversion E|].
    destruct (n =? opt_p); now inversion E. }
  specialize (Hz gets (Config (conf_debug conf) (Some "/dev/ttyUSB0"%string) (conf_zipfile conf))).
  destruct (getopt_loop atoi gets _) as [c o]. cbn in Hz. split; [exact Hz|].
  intros zipfile [|arg more]; cbn; repeat split; now rewrite ?app_nil_r.
Qed.

End OptionsFacts.

(** * Further properties of dfu_ble.c *)

Module TransportFacts.

Import Ble BleFacts Transport.

Section Further.

Variable env : ble_env.

Lemma run_bind {A} (m : M A) (f : A -> M bool) (s : state) :
  run (m ≫= f) s =
    match m s with
    | (Next a, s1) => run (f a) s1
    | (Return b, s1) => (b, s1)
    end.
Proof. unfold run, mbind, M_bind. now destruct (m s) as [[a|b] s1]. Qed.

(** The label [dfutarg_found:] ends in success exactly when the
    subscription to the control point succeeds. *)
Lemma dfutarg_found_run (c : blz_char) (s0 : state) :
  run (dfutarg_found c) s0 =
    if ch_subscribe_ok c
    then (true,
          set_handlers (<[ch_uuid c := control_notify]> (handlers s0))
            (log (ev_notify_start c) (log (LOG_NOTI "DFU characteristics found") s0)))
    else (false,
          log (LOG_ERR "Could not start CP notification")
            (log (ev_notify_start c) (log (LOG_NOTI "DFU characteristics found") s0))).
Proof.
  unfold dfutarg_found, fail, blz_char_notify_start, subscribe. monad_unfold.
  now destruct (ch_subscribe_ok c).
Qed.

Lemma lookup_success (d2 : option blz_dev) (X s' : state) :
  dev X = d2 ->
  run (dfutarg_lookup d2 ≫= dfutarg_found) X = (true, s') ->
  exists c d, usable s' c d.
Proof.
  intros HdX. rewrite run_bind. unfold dfutarg_lookup.
  destruct d2 as [dv2|]; [|unfold fail; monad_unfold; discriminate].
  unfold fail. monad_unfold. unfold blz_get_serv_from_uuid. rewrite HdX.
  cbn [mbind option_bind].
  destruct (dv2 !! DFU_SERVICE_UUID) as [srv2|] eqn:Hsrv; [|discriminate].
  unfold blz_get_char_from_uuid.
  destruct (srv2 !! DFU_DATA_UUID) as [d|] eqn:Hd,
           (srv2 !! DFU_CONTROL_UUID) as [c|] eqn:Hc; try discriminate.
  fold (run (dfutarg_found c)
          (set_cp (Some c) (log (ev_get_char DFU_CONTROL_UUID)
             (set_dp (Some d) (log (ev_get_char DFU_DATA_UUID)
                (log (ev_get_serv DFU_SERVICE_UUID) X)))))).
  rewrite dfutarg_found_run.
  destruct (ch_subscribe_ok c) eqn:Hsub; [|discriminate].
  intros [= <-]. exists c, d. unfold usable. cbn.
  split; [reflexivity|]. split; [reflexivity|]. split; [exact Hsub|].
  split; [apply lookup_insert_eq|]. split; [|apply last_snoc].
  exists dv2, srv2. auto.
Qed.

Lemma discover_success (srv : blz_serv) (address : string) (atype : BLE_ATYPE)
      (s2 s' : state) (dv : blz_dev) :
  dev s2 = Some dv ->
  dv !! DFU_SERVICE_UUID = Some srv ->
  run (discover env srv address atype) s2 = (true, s') ->
  exists c d, usable s' c d.
Proof.
  intros Hdev Hsrv.
  destruct (srv !! DFU_BUTTONLESS_UUID) as [bch|] eqn:Hb.
  - destruct (ch_subscribe_ok bch) eqn:Hsub, (ch_write_ok bch) eqn:Hwr.
    + unfold run. rewrite (discover_buttonless env _ _ _ _ _ Hb Hsub Hwr).
      match goal with
      | |- (let (f, s1) := (dfutarg_lookup ?d2 ≫= dfutarg_found) ?X in _) = _ -> _ =>
          change (run (dfutarg_lookup d2 ≫= dfutarg_found) X = (true, s') ->
                  exists c d, usable s' c d);
          apply (lookup_success d2 X s'); reflexivity
      end.
    + unfold discover, buttonless_entry, fail. monad_unfold.
      unfold blz_get_char_from_uuid, blz_char_indicate_start, blz_char_write.
      rewrite Hb, Hsub, Hwr. discriminate.
    + unfold discover, buttonless_entry, fail. monad_unfold.
      unfold blz_get_char_from_uuid, blz_char_indicate_start.
      rewrite Hb, Hsub. discriminate.
    + unfold discover, buttonless_entry, fail. monad_unfold.
      unfold blz_get_char_from_uuid, blz_char_indicate_start.
      rewrite Hb, Hsub. discriminate.
  - unfold discover. monad_unfold. unfold blz_get_char_from_uuid. rewrite Hb.
    destruct (srv !! DFU_DATA_UUID) as [d|] eqn:Hd,
             (srv !! DFU_CONTROL_UUID) as [c|] eqn:Hc; try discriminate.
    fold (run (dfutarg_found c)
            (set_cp (Some c) (log (ev_get_char DFU_CONTROL_UUID)
               (set_dp (Some d) (log (ev_get_char DFU_DATA_UUID)
                  (log (LOG_ERR "Could not find buttonless DFU UUID")
                     (log (ev_get_char DFU_BUTTONLESS_UUID) s2))))))).
    rewrite dfutarg_found_run.
    destruct (ch_subscribe_ok c) eqn:Hsub; [|discriminate].
    intros [= <-]. exists c, d. unfold usable. cbn.
    split; [reflexivity|]. split; [reflexivity|]. split; [exact Hsub|].
    split; [apply lookup_insert_eq|]. split; [|apply last_snoc].
    exists dv, srv. auto.
Qed.

(** When [ble_enter_dfu] returns true, the transport is ready: [cp]
    and [dp] hold the control and the data characteristic of the DFU
    service of the device that [dev] is connected to, the callback of the
    control point is subscribed, and that subscription was the last call. *)
Lemma ble_enter_dfu_success (interface address : string) (atype : BLE_ATYPE)
      (s s' : state) :
  run (ble_enter_dfu env interface address atype) s = (true, s') ->
  exists c d, usable s' c d.
Proof.
  unfold ble_enter_dfu. rewrite run_bind. unfold blz_init.
  destruct (env_init env interface); cbn [negb]; [|unfold fail; monad_unfold; discriminate].
  rewrite run_bind.
  destruct (connect_loop_attempts env address atype 3 0
              (set_ctx true (log (ev_init interface) s)))
    as (k & Hk & _ & Hres); [reflexivity|lia|].
  destruct (connect_loop env address atype 0 _) as [n s1].
  destruct Hres as (Hn & [(-> & Hd & _)|(Hlt & Hd & Hsome & _)]); cbn in Hn; subst n.
  - unfold fail. monad_unfold. cbn. discriminate.
  - assert (Hleb : (CONNECT_MAX_TRY <=? k)%nat = false) by (apply Nat.leb_gt; exact Hlt).
    rewrite Hleb, run_bind. unfold blz_get_serv_from_uuid.
    destruct Hsome as [dv Hdv]. rewrite Hdv. cbn [mbind option_bind].
    destruct (dv !! DFU_SERVICE_UUID) as [srv|] eqn:Hsrv;
      [|unfold fail; monad_unfold; discriminate].
    apply (discover_success srv address atype _ s' dv); [exact Hdv|exact Hsrv].
Qed.

(** X12.  When [ble_enter_dfu] returns true, the transport is ready: [cp]
    and [dp] hold the control and the data characteristic of the DFU
    service of the device that [dev] is connected to, the subscription to
    the control point has succeeded and its callback is registered, and
    that subscription was the last call. *)
Theorem ble_enter_dfu_ready (interface address : string) (atype : BLE_ATYPE)
        (s s' : state) :
  run (ble_enter_dfu env interface address atype) s = (true, s') ->
  exists c d,
    cp s' = Some c /\ dp s' = Some d /\
    ch_subscribe_ok c = true /\
    handlers s' !! ch_uuid c = Some control_notify /\
    (exists dv srv,
        dev s' = Some dv /\ dv !! DFU_SERVICE_UUID = Some srv /\
        srv !! DFU_CONTROL_UUID = Some c /\ srv !! DFU_DATA_UUID = Some d) /\
    last (trace s') = Some (ev_notify_start c).
Proof. exact (ble_enter_dfu_success interface address atype s s'). Qed.

(** *** Reading *)

Lemma dispatch_keeps (n : notification) (s : state) :
  cp (dispatch env n s) = cp s /\ dp (dispatch env n s) = dp s /\
  dev (dispatch env n s) = dev s /\ ctx (dispatch env n s) = ctx s.
Proof.
  unfold dispatch. cbn [handlers log].
  destruct (handlers s !! n_uuid n) as [[|]|]; [| |now cbn].
  - unfold buttonless_notify_handler. now destruct (bool_decide _).
  - unfold control_notify_handler. now destruct (env_debug env).
Qed.

Lemma loop_events_keeps (check : state -> bool) (timeout_us : Z) (ns : list notification) :
  forall s,
    cp (loop_events env check timeout_us ns s) = cp s /\
    dp (loop_events env check timeout_us ns s) = dp s /\
    dev (loop_events env check timeout_us ns s) = dev s /\
    ctx (loop_events env check timeout_us ns s) = ctx s.
Proof.
  induction ns as [|n ns IH]; intros s; simpl; [auto|].
  destruct (check s); [auto|]. destruct (timeout_us <=? n_time n); [auto|].
  destruct (IH (dispatch env n s)) as (H1 & H2 & H3 & H4).
  destruct (dispatch_keeps n s) as (K1 & K2 & K3 & K4).
  rewrite H1, H2, H3, H4. auto.
Qed.

(** X13.  A successful [ble_read] hands out [recv_buf] with the bytes of
    the notification at its start and, behind them, the bytes that the
    buffer held before: the callback copies [len] bytes and clears
    nothing.  The read leaves [cp], [dp], the connection and the
    subscriptions as they were. *)
Theorem ble_read_keeps_tail (s : state) (pre : list notification) (n : notification)
        (post : list notification) :
  env_notifications env (waits s) = pre ++ n :: post ->
  Forall (fun m => n_time m < 10000000 /\
                   handlers s !! n_uuid m <> Some control_notify) pre ->
  n_time n < 10000000 ->
  handlers s !! n_uuid n = Some control_notify ->
  (length (n_data n) <= length (recv_buf s))%nat ->
  exists s',
    ble_read env s
    = (Some (n_data n ++ drop (length (n_data n)) (recv_buf s)), s') /\
    recv_buf s' = n_data n ++ drop (length (n_data n)) (recv_buf s) /\
    cp s' = cp s /\ dp s' = dp s /\ dev s' = dev s /\ handlers s' = handlers s.
Proof.
  intros Hns Hpre Htime Hh Hlen.
  unfold ble_read, blz_loop_timeout. cbn [waits set_control_noti]. rewrite Hns.
  set (s0 := next_wait (log (ev_loop_timeout 10000000) (set_control_noti false s))).
  destruct (loop_events_control env 10000000 n post pre s0) as (Hc & Hr); try assumption;
    [reflexivity|].
  destruct (loop_events_keeps control_noti 10000000 (pre ++ n :: post) s0)
    as (K1 & K2 & K3 & _).
  destruct (loop_events_frame env control_noti 10000000 (pre ++ n :: post) s0)
    as (_ & _ & K4 & _).
  rewrite Hc. cbn [negb]. eexists. split; [rewrite Hr; reflexivity|].
  rewrite Hr, K1, K2, K3, K4. unfold memcpy. now cbn.
Qed.

(** X14.  A [ble_read] during which no notification of the control point
    arrives in time returns NULL, whether or not the flag was set when it
    was called: the flag is cleared first.  It logs an error and leaves
    [recv_buf] untouched. *)
Theorem ble_read_timeout_state (s : state) :
  Forall (fun m => 10000000 <= n_time m \/
                   handlers s !! n_uuid m <> Some control_notify)
         (env_notifications env (waits s)) ->
  exists s',
    ble_read env s = (None, s') /\
    control_noti s' = false /\
    recv_buf s' = recv_buf s /\
    waits s' = S (waits s) /\
    last (trace s') = Some (LOG_ERR "BLE waiting for notification failed").
Proof.
  intros Hns. unfold ble_read, blz_loop_timeout. cbn [waits set_control_noti].
  set (s0 := next_wait (log (ev_loop_timeout 10000000) (set_control_noti false s))).
  assert (Hrecv : forall ns st,
             control_noti st = false ->
             Forall (fun m => 10000000 <= n_time m \/
                              handlers st !! n_uuid m <> Some control_notify) ns ->
             recv_buf (loop_events env control_noti 10000000 ns st) = recv_buf st).
  { induction ns as [|m ns IH]; intros st Hf Hall; simpl; [reflexivity|].
    rewrite Hf. inversion Hall as [|? ? Hm Hrest]; subst.
    destruct (10000000 <=? n_time m) eqn:E; [reflexivity|].
    destruct Hm as [Hm|Hm]; [apply Z.leb_gt in E; lia|].
    destruct (dispatch_other env m st Hm) as (Hc & Hr & Hh).
    rewrite IH; [exact Hr|now rewrite Hc|now rewrite Hh]. }
  pose proof (loop_events_no_control env 10000000 _ s0 eq_refl Hns) as Hc.
  pose proof (Hrecv _ s0 eq_refl Hns) as Hr.
  destruct (loop_events_frame env control_noti 10000000
              (env_notifications env (waits s)) s0) as (_ & Hw & _).
  rewrite Hc. cbn [negb]. eexists. split; [reflexivity|]. cbn.
  rewrite Hc, Hr, Hw. repeat split. apply last_snoc.
Qed.

(** X15.  After a successful [ble_enter_dfu] the next [ble_read] returns
    the bytes of the notification of the control point [cp] that arrives
    first, within 10 seconds. *)
Theorem ble_read_after_enter (interface address : string) (atype : BLE_ATYPE)
        (s s1 : state) (c : blz_char) (n : notification) (post : list notification) :
  run (ble_enter_dfu env interface address atype) s = (true, s1) ->
  cp s1 = Some c ->
  env_notifications env (waits s1) = n :: post ->
  n_uuid n = ch_uuid c ->
  n_time n < 10000000 ->
  (length (n_data n) <= RECV_BUF)%nat ->
  exists buf s',
    ble_read env s1 = (Some buf, s') /\
    take (length (n_data n)) buf = n_data n.
Proof.
  intros Hrun Hcp Hns Huuid Htime _.
  destruct (ble_enter_dfu_success _ _ _ _ _ Hrun) as (c' & d & Hc' & _ & _ & Hh & _).
  rewrite Hcp in Hc'. injection Hc' as <-.
  unfold ble_read, blz_loop_timeout. cbn [waits set_control_noti]. rewrite Hns.
  set (s0 := next_wait (log (ev_loop_timeout 10000000) (set_control_noti false s1))).
  destruct (loop_events_control env 10000000 n post [] s0) as (Hc & Hr);
    [reflexivity|constructor|exact Htime|rewrite Huuid; exact Hh|].
  cbn [app] in *. rewrite Hc. cbn [negb]. do 2 eexists. split; [reflexivity|].
  rewrite Hr. unfold memcpy. now rewrite take_app_length.
Qed.

(** X16.  After a successful [ble_enter_dfu], [ble_write_ctrl] writes the
    request to the control characteristic of the DFU service and returns
    what blzlib returns for that write; at debug level the request is
    dumped first. *)
Theorem ble_write_ctrl_after_enter (interface address : string) (atype : BLE_ATYPE)
        (s s1 : state) (req : list Z) :
  run (ble_enter_dfu env interface address atype) s = (true, s1) ->
  exists c s2,
    cp s1 = Some c /\
    ble_write_ctrl env req s1 = Some (ch_write_ok c, s2) /\
    trace s2 = trace s1 ++ (if env_debug env then [dump_data "CP: " req] else [])
                 ++ [ev_char_write c req] /\
    cp s2 = Some c.
Proof.
  intros Hrun.
  destruct (ble_enter_dfu_success _ _ _ _ _ Hrun) as (c & d & Hc & _).
  exists c. unfold ble_write_ctrl.
  destruct (env_debug env); cbn [cp log]; rewrite Hc;
    unfold run, blz_char_write; eexists;
    (split; [reflexivity|]); (split; [reflexivity|]);
    (split; [cbn; now rewrite <- ?app_assoc|cbn; first [exact Hc|reflexivity]]).
Qed.

(** *** The buttonless wait *)

Lemma loop_events_strangers (timeout_us : Z) (nt : notification) (ns : list notification) :
  forall pre s,
    buttonless_noti s = false ->
    Forall (fun m => n_time m < timeout_us /\ handlers s !! n_uuid m = None) pre ->
    n_time nt < timeout_us ->
    handlers s !! n_uuid nt = Some buttonless_notify ->
    trace (loop_events env buttonless_noti timeout_us (pre ++ nt :: ns) s)
    = trace s ++ map ev_notification pre ++ [ev_notification nt]
        ++ (if bool_decide (data_2 (n_data nt) (n_beyond nt) = 1) then []
            else [LOG_ERR "Unexpected response"]).
Proof.
  induction pre as [|m pre IH]; intros s Hflag Hpre Htime Hh.
  - cbn [app map]. rewrite (loop_events_buttonless env _ _ _ _ Hflag Htime Hh).
    rewrite buttonless_notify_handler_logs. cbn. now rewrite <- app_assoc.
  - inversion Hpre as [|? ? [Hm Hnone] Hrest]; subst.
    cbn [app loop_events]. rewrite Hflag.
    destruct (timeout_us <=? n_time m) eqn:E; [apply Z.leb_le in E; lia|].
    assert (Hd : dispatch env m s = log (ev_notification m) s).
    { unfold dispatch. cbn [handlers log]. now rewrite Hnone. }
    rewrite Hd, IH; [cbn; now rewrite <- app_assoc|exact Hflag|exact Hrest|exact Htime|exact Hh].
Qed.

(** X17.  The buttonless wait is ended by a notification of the
    buttonless characteristic only: notifications of characteristics to
    which nothing is subscribed are taken from the queue and change
    nothing, and the wait goes on to the first one of the buttonless
    characteristic that arrives within the 10 seconds.  The callback adds
    at most its error line to the log, by the third byte of the value
    when the value has one. *)
Theorem ble_enter_dfu_wait_skips_strangers (interface address : string)
        (atype : BLE_ATYPE) (s : state) (n : nat) (s1 : state) (dv : blz_dev)
        (srv : blz_serv) (bch : blz_char)
        (pre : list notification) (nt : notification) (ns : list notification) :
  env_init env interface = true ->
  connect_loop env address atype 0 (initialised interface s) = (n, s1) ->
  (n < CONNECT_MAX_TRY)%nat ->
  dev s1 = Some dv ->
  dv !! DFU_SERVICE_UUID = Some srv ->
  srv !! DFU_BUTTONLESS_UUID = Some bch ->
  ch_subscribe_ok bch = true ->
  ch_write_ok bch = true ->
  buttonless_noti s1 = false ->
  env_notifications env (waits s1) = pre ++ nt :: ns ->
  Forall (fun m => n_time m < 10000000 /\ n_uuid m <> ch_uuid bch /\
                   handlers s1 !! n_uuid m = None) pre ->
  n_uuid nt = ch_uuid bch ->
  n_time nt < 10000000 ->
  exists logged post,
    trace (run (ble_enter_dfu env interface address atype) s).2 =
      trace s1 ++
      [ ev_get_serv DFU_SERVICE_UUID; ev_get_char DFU_BUTTONLESS_UUID;
        ev_indicate_start bch; LOG_NOTI "Enter DFU Bootloader";
        ev_char_write bch [1]; ev_loop_timeout 10000000 ] ++
      map ev_notification pre ++ [ev_notification nt] ++ logged ++
      [ev_disconnect] ++ post /\
    (logged = [] \/ logged = [LOG_ERR "Unexpected response"]) /\
    ((3 <= length (n_data nt))%nat -> logged = unexpected (n_data nt)).
Proof.
  intros Hinit Hloop Hn Hdev Hsrv Hb Hsub Hwr Hflag Hns Hpre Huuid Htime.
  destruct (ble_enter_dfu_buttonless_path env _ _ _ _ _ _ _ _ _
              Hinit Hloop Hn Hdev Hsrv Hb Hsub Hwr) as (post & Htr & _).
  rewrite Htr. unfold waited. cbn [waits discovered log]. rewrite Hns.
  rewrite (loop_events_strangers 10000000 nt ns pre (armed bch (discovered s1))).
  - rewrite armed_trace. unfold discovered. cbn. rewrite <- ?app_assoc. cbn.
    exists (if bool_decide (data_2 (n_data nt) (n_beyond nt) = 1) then []
            else [LOG_ERR "Unexpected response"]).
    eexists. split; [rewrite <- ?app_assoc; cbn; reflexivity|].
    split; [destruct (bool_decide _); auto|].
    intros Hlen.
    pose proof (buttonless_notify_handler_trace (n_data nt) (n_beyond nt) s1 Hlen) as Hthird.
    rewrite buttonless_notify_handler_logs in Hthird.
    exact (app_inv_head _ _ _ Hthird).
  - exact Hflag.
  - eapply Forall_impl; [exact Hpre|]. intros m (Hm & Hne & Hnone). split; [exact Hm|].
    unfold armed. cbn [handlers log next_wait set_handlers discovered].
    rewrite lookup_insert_ne by congruence. exact Hnone.
  - exact Htime.
  - unfold armed. cbn [handlers log next_wait set_handlers discovered]. rewrite Huuid.
    apply lookup_insert_eq.
Qed.

(** *** Failures on the way *)

(** X18.  When the device that the connection loop has reached has no DFU
    service, [ble_enter_dfu] logs that and returns false; it has looked up
    no characteristic and leaves the connection as it is. *)
Theorem ble_enter_dfu_no_service (interface address : string) (atype : BLE_ATYPE)
        (s : state) (n : nat) (s1 : state) (dv : blz_dev) :
  env_init env interface = true ->
  connect_loop env address atype 0 (initialised interface s) = (n, s1) ->
  (n < CONNECT_MAX_TRY)%nat ->
  dev s1 = Some dv ->
  dv !! DFU_SERVICE_UUID = None ->
  run (ble_enter_dfu env interface address atype) s
  = (false, log (LOG_ERR "DFU Service not found") (log (ev_get_serv DFU_SERVICE_UUID) s1)).
Proof.
  intros Hinit Hloop Hn Hdev Hsrv.
  unfold run, ble_enter_dfu, mbind, M_bind, blz_init. rewrite Hinit. cbn [negb].
  fold (initialised interface s). rewrite Hloop.
  apply Nat.leb_gt in Hn. rewrite Hn.
  unfold blz_get_serv_from_uuid. rewrite Hdev. cbn [mbind option_bind]. rewrite Hsrv.
  unfold fail. monad_unfold. reflexivity.
Qed.

(** X19.  Without a buttonless characteristic and with only one of the
    data and control characteristics, [ble_enter_dfu] returns false without
    a further log line and without subscribing to anything; [dp] and [cp]
    keep what the two lookups returned. *)
Theorem ble_enter_dfu_direct_incomplete (interface address : string) (atype : BLE_ATYPE)
        (s : state) (n : nat) (s1 : state) (dv : blz_dev) (srv : blz_serv) :
  env_init env interface = true ->
  connect_loop env address atype 0 (initialised interface s) = (n, s1) ->
  (n < CONNECT_MAX_TRY)%nat ->
  dev s1 = Some dv ->
  dv !! DFU_SERVICE_UUID = Some srv ->
  srv !! DFU_BUTTONLESS_UUID = None ->
  srv !! DFU_DATA_UUID = None \/ srv !! DFU_CONTROL_UUID = None ->
  let '(ret, s') := run (ble_enter_dfu env interface address atype) s in
  ret = false /\
  trace s' = trace s1 ++
    [ ev_get_serv DFU_SERVICE_UUID; ev_get_char DFU_BUTTONLESS_UUID;
      LOG_ERR "Could not find buttonless DFU UUID";
      ev_get_char DFU_DATA_UUID; ev_get_char DFU_CONTROL_UUID ] /\
  dp s' = srv !! DFU_DATA_UUID /\ cp s' = srv !! DFU_CONTROL_UUID /\
  handlers s' = handlers s1.
Proof.
  intros Hinit Hloop Hn Hdev Hsrv Hb Hmiss.
  unfold run.
  rewrite (ble_enter_dfu_discover env _ _ _ _ _ _ _ _ Hinit Hloop Hn Hdev Hsrv).
  unfold discover. monad_unfold. unfold blz_get_char_from_uuid. rewrite Hb.
  destruct (srv !! DFU_DATA_UUID) as [d|], (srv !! DFU_CONTROL_UUID) as [c|];
    try (destruct Hmiss; discriminate);
    cbn; rewrite <- !app_assoc; repeat split; reflexivity.
Qed.

(** X20.  On the buttonless path, a subscription to the buttonless
    characteristic that fails makes [ble_enter_dfu] return false before
    anything is written, and a write that fails makes it return false
    without waiting and without disconnecting. *)
Theorem ble_enter_dfu_buttonless_refused (interface address : string) (atype : BLE_ATYPE)
        (s : state) (n : nat) (s1 : state) (dv : blz_dev) (srv : blz_serv)
        (bch : blz_char) :
  env_init env interface = true ->
  connect_loop env address atype 0 (initialised interface s) = (n, s1) ->
  (n < CONNECT_MAX_TRY)%nat ->
  dev s1 = Some dv ->
  dv !! DFU_SERVICE_UUID = Some srv ->
  srv !! DFU_BUTTONLESS_UUID = Some bch ->
  ch_subscribe_ok bch = false \/ ch_write_ok bch = false ->
  let '(ret, s') := run (ble_enter_dfu env interface address atype) s in
  ret = false /\
  trace s' = trace s1 ++
    [ ev_get_serv DFU_SERVICE_UUID; ev_get_char DFU_BUTTONLESS_UUID;
      ev_indicate_start bch ] ++
    (if ch_subscribe_ok bch
     then [ LOG_NOTI "Enter DFU Bootloader"; ev_char_write bch [1];
            LOG_ERR "Could not write buttonless" ]
     else [ LOG_ERR "Could not start buttonless notification" ]) /\
  dev s' = Some dv /\ waits s' = waits s1.
Proof.
  intros Hinit Hloop Hn Hdev Hsrv Hb Hbad.
  unfold run.
  rewrite (ble_enter_dfu_discover env _ _ _ _ _ _ _ _ Hinit Hloop Hn Hdev Hsrv).
  unfold discover, buttonless_entry, fail. monad_unfold.
  unfold blz_get_char_from_uuid, blz_char_indicate_start, blz_char_write, subscribe.
  rewrite Hb.
  destruct (ch_subscribe_ok bch); cbn [negb].
  - destruct Hbad as [Hbad|Hbad]; [discriminate|]. rewrite Hbad.
    cbn. rewrite <- !app_assoc. repeat split; assumption || reflexivity.
  - cbn. rewrite <- !app_assoc. repeat split; assumption || reflexivity.
Qed.

(** X21.  When DfuTarg answers but lacks the data or the control
    characteristic, [ble_enter_dfu] logs that, sets both [dp] and [cp] back
    to NULL and returns false. *)
Theorem ble_enter_dfu_dfutarg_incomplete (interface address : string) (atype : BLE_ATYPE)
        (s : state) (n : nat) (s1 : state) (dv : blz_dev) (srv : blz_serv)
        (bch : blz_char) (dv2 : blz_dev) (srv2 : blz_serv) :
  env_init env interface = true ->
  connect_loop env address atype 0 (initialised interface s) = (n, s1) ->
  (n < CONNECT_MAX_TRY)%nat ->
  dev s1 = Some dv ->
  dv !! DFU_SERVICE_UUID = Some srv ->
  srv !! DFU_BUTTONLESS_UUID = Some bch ->
  ch_subscribe_ok bch = true ->
  ch_write_ok bch = true ->
  env_connect env (connects s1) (dfutarg_address env address) = Some dv2 ->
  dv2 !! DFU_SERVICE_UUID = Some srv2 ->
  srv2 !! DFU_DATA_UUID = None \/ srv2 !! DFU_CONTROL_UUID = None ->
  let '(ret, s') := run (ble_enter_dfu env interface address atype) s in
  ret = false /\ dp s' = None /\ cp s' = None /\
  last (trace s') = Some (LOG_ERR "Could not find DFU UUIDs").
Proof.
  intros Hinit Hloop Hn Hdev Hsrv Hb Hsub Hwr Hd2 Hsrv2 Hmiss.
  unfold run.
  rewrite (ble_enter_dfu_discover env _ _ _ _ _ _ _ _ Hinit Hloop Hn Hdev Hsrv).
  rewrite (discover_buttonless env _ _ _ _ _ Hb Hsub Hwr).
  cbn [connects log]. rewrite Hd2.
  unfold dfutarg_lookup, fail. monad_unfold.
  unfold blz_get_serv_from_uuid. cbn [dev set_dev]. cbn [mbind option_bind].
  rewrite Hsrv2. unfold blz_get_char_from_uuid.
  destruct (srv2 !! DFU_DATA_UUID) as [d|], (srv2 !! DFU_CONTROL_UUID) as [c|];
    try (destruct Hmiss; discriminate);
    cbn; repeat split; apply last_snoc.
Qed.

(** *** What a call of ble_enter_dfu can cost *)

Lemma cost_app (w : ble_event -> nat) (t u : list ble_event) :
  cost w (t ++ u) = (cost w t + cost w u)%nat.
Proof. unfold cost. induction t as [|e t IH]; cbn; [reflexivity|]. rewrite IH. lia. Qed.

Section Budget.

Variable w : ble_event -> nat.
Hypothesis quiet : forall e, incoming e = true -> w e = 0%nat.

Lemma within_weaken {A} (m : M A) (n k : nat) :
  within w n m -> (n <= k)%nat -> within w k m.
Proof. intros H L s. destruct (H s) as (t & Ht & Hc). exists t. split; [exact Ht|lia]. Qed.

Lemma within_step {A} (m : M A) (e : ble_event) (n : nat) :
  (forall s, trace (m s).2 = trace s ++ [e]) -> w e = n -> within w n m.
Proof. intros H E s. exists [e]. split; [apply H|]. cbn. lia. Qed.

Lemma within_still {A} (m : M A) :
  (forall s, trace (m s).2 = trace s) -> within w 0 m.
Proof. intros H s. exists []. rewrite app_nil_r. split; [apply H|]. cbn. lia. Qed.

Lemma within_bind {A B} (m : M A) (f : A -> M B) (n k : nat) :
  within w n m -> (forall a, within w k (f a)) -> within w (n + k) (m ≫= f).
Proof.
  intros Hm Hf s. unfold mbind, M_bind.
  destruct (Hm s) as (t & Ht & Hc). destruct (m s) as [[a|b] s']; cbn in Ht.
  - destruct (Hf a s') as (u & Hu & Hcu). exists (t ++ u).
    rewrite Hu, Ht, app_assoc, cost_app. split; [reflexivity|lia].
  - exists t. cbn. split; [exact Ht|lia].
Qed.

Lemma within_if {A} (b : bool) (m1 m2 : M A) (n k : nat) :
  within w n m1 -> within w k m2 -> within w (Nat.max n k) (if b then m1 else m2).
Proof. intros H1 H2. destruct b; eapply within_weaken; eauto; lia. Qed.

Lemma within_option {A B} (o : option A) (f : A -> M B) (g : M B) (n k : nat) :
  (forall a, within w n (f a)) -> within w k g ->
  within w (Nat.max n k) (match o with Some a => f a | None => g end).
Proof. intros H1 H2. destruct o; eapply within_weaken; eauto; lia. Qed.

Lemma within_option2 {A B C} (o : option A) (c : option B) (f : A -> B -> M C)
      (g : M C) (n k : nat) :
  (forall a b, within w n (f a b)) -> within w k g ->
  within w (Nat.max n k) (match o, c with Some a, Some b => f a b | _, _ => g end).
Proof. intros H1 H2. destruct o, c; eapply within_weaken; eauto; lia. Qed.

Lemma within_option2_applied {A B C} (o : option A) (c : option B) (f : A -> B -> M C)
      (g : M C) (n k : nat) :
  (forall a b, within w n (f a b)) -> within w k g ->
  within w (Nat.max n k)
    (match o with
     | Some a => fun c' : option B => match c' with Some b => f a b | None => g end
     | None => fun _ : option B => g
     end c).
Proof. intros H1 H2. destruct o, c; eapply within_weaken; eauto; lia. Qed.

Lemma within_mret {A} (a : A) : within w 0 (mret a).
Proof. apply within_still. reflexivity. Qed.

Lemma within_return {A} (b : bool) : within w 0 (return_ b : M A).
Proof. apply within_still. reflexivity. Qed.

Lemma within_emit (e : ble_event) (n : nat) : w e = n -> within w n (emit e).
Proof. apply within_step. reflexivity. Qed.

Lemma within_modify (f : state -> state) :
  (forall s, trace (f s) = trace s) -> within w 0 (modify f).
Proof. intros H. apply within_still. exact H. Qed.

Lemma within_blz_init (interface : string) (n : nat) :
  w (ev_init interface) = n -> within w n (blz_init env interface).
Proof. apply within_step. reflexivity. Qed.

Lemma within_blz_connect (address : string) (atype : BLE_ATYPE) (n : nat) :
  w (ev_connect address atype) = n -> within w n (blz_connect env address atype).
Proof. apply within_step. reflexivity. Qed.

Lemma within_blz_disconnect (n : nat) :
  w ev_disconnect = n -> within w n blz_disconnect.
Proof. apply within_step. reflexivity. Qed.

Lemma within_blz_get_serv (uuid : string) (n : nat) :
  w (ev_get_serv uuid) = n -> within w n (blz_get_serv_from_uuid uuid).
Proof. apply within_step. reflexivity. Qed.

Lemma within_blz_get_char (srv : blz_serv) (uuid : string) (n : nat) :
  w (ev_get_char uuid) = n -> within w n (blz_get_char_from_uuid srv uuid).
Proof. apply within_step. reflexivity. Qed.

Lemma within_blz_indicate (ch : blz_char) (h : handler) (n : nat) :
  w (ev_indicate_start ch) = n -> within w n (blz_char_indicate_start ch h).
Proof.
  apply within_step. intros s. unfold blz_char_indicate_start, subscribe.
  now destruct (ch_subscribe_ok ch).
Qed.

Lemma within_blz_notify (ch : blz_char) (h : handler) (n : nat) :
  w (ev_notify_start ch) = n -> within w n (blz_char_notify_start ch h).
Proof.
  apply within_step. intros s. unfold blz_char_notify_start, subscribe.
  now destruct (ch_subscribe_ok ch).
Qed.

Lemma within_blz_write (ch : blz_char) (data : list Z) (n : nat) :
  w (ev_char_write ch data) = n -> within w n (blz_char_write ch data).
Proof. apply within_step. reflexivity. Qed.

Lemma dispatch_quiet (nt : notification) (s : state) :
  exists t, trace (dispatch env nt s) = trace s ++ t /\ cost w t = 0%nat.
Proof.
  assert (Hn : w (ev_notification nt) = 0%nat) by now apply quiet.
  unfold dispatch. cbn [handlers log].
  destruct (handlers s !! n_uuid nt) as [[]|].
  - unfold buttonless_notify_handler. case_bool_decide.
    + exists [ev_notification nt]. cbn. split; [reflexivity|lia].
    + exists [ev_notification nt; LOG_ERR "Unexpected response"]. cbn.
      rewrite <- app_assoc. split; [reflexivity|].
      rewrite Hn, (quiet (LOG_ERR _)) by reflexivity. reflexivity.
  - unfold control_notify_handler. destruct (env_debug env).
    + exists [ev_notification nt; dump_data "RX: " (n_data nt)]. cbn.
      rewrite <- app_assoc. split; [reflexivity|].
      rewrite Hn, (quiet (dump_data _ _)) by reflexivity. reflexivity.
    + exists [ev_notification nt]. cbn. split; [reflexivity|lia].
  - exists [ev_notification nt]. cbn. split; [reflexivity|lia].
Qed.

Lemma loop_events_quiet (check : state -> bool) (timeout_us : Z) (ns : list notification) :
  forall s, exists t,
    trace (loop_events env check timeout_us ns s) = trace s ++ t /\ cost w t = 0%nat.
Proof.
  induction ns as [|nt ns IH]; intros s; cbn [loop_events].
  - exists []. now rewrite app_nil_r.
  - destruct (check s); [exists []; now rewrite app_nil_r|].
    destruct (timeout_us <=? n_time nt); [exists []; now rewrite app_nil_r|].
    destruct (dispatch_quiet nt s) as (t & Ht & Hc).
    destruct (IH (dispatch env nt s)) as (u & Hu & Hcu).
    exists (t ++ u). rewrite Hu, Ht, app_assoc, cost_app. split; [reflexivity|lia].
Qed.

Lemma within_blz_loop_timeout (check : state -> bool) (timeout_us : Z) (n : nat) :
  w (ev_loop_timeout timeout_us) = n -> within w n (blz_loop_timeout env check timeout_us).
Proof.
  intros E s. unfold blz_loop_timeout. cbn [snd].
  destruct (loop_events_quiet check timeout_us (env_notifications env (waits s))
              (next_wait (log (ev_loop_timeout timeout_us) s))) as (t & Ht & Hc).
  exists (ev_loop_timeout timeout_us :: t). rewrite Ht. cbn.
  rewrite <- app_assoc. split; [reflexivity|].
  unfold cost in Hc. rewrite Hc. lia.
Qed.

Lemma within_connect_loop (address : string) (atype : BLE_ATYPE) (n : nat) :
  cost w (failed_attempts address atype CONNECT_MAX_TRY) = n ->
  within w n (fun s => let '(k, s') := connect_loop env address atype 0 s in (Next k, s')).
Proof.
  intros E s.
  destruct (connect_loop_attempts env address atype CONNECT_MAX_TRY 0 s)
    as (k & Hk & _ & Hres); [reflexivity|unfold CONNECT_MAX_TRY; lia|].
  destruct (connect_loop env address atype 0 s) as [k' s']. cbn [snd].
  destruct Hres as (_ & [(-> & _ & Ht)|(Hlt & _ & _ & Ht)]).
  - eexists. split; [exact Ht|lia].
  - eexists. split; [exact Ht|]. rewrite <- E, cost_app.
    assert (HL : w (LOG_ERR "Could not connect to") = 0%nat) by now apply quiet.
    unfold CONNECT_MAX_TRY in *.
    destruct k as [|[|[|k]]]; cbn; lia.
Qed.

End Budget.

Ltac quiet_solve := intros []; first [discriminate | reflexivity].

Ltac within_solve :=
  repeat first
    [ apply within_mret
    | apply within_return
    | eapply within_emit; cbn; reflexivity
    | apply within_modify; intros ?; reflexivity
    | eapply within_blz_init; cbn; reflexivity
    | eapply within_blz_connect; cbn; reflexivity
    | eapply within_blz_disconnect; cbn; reflexivity
    | eapply within_blz_get_serv; cbn; reflexivity
    | eapply within_blz_get_char; cbn; reflexivity
    | eapply within_blz_indicate; cbn; reflexivity
    | eapply within_blz_notify; cbn; reflexivity
    | eapply within_blz_write; cbn; reflexivity
    | eapply within_blz_loop_timeout; [quiet_solve|cbn; reflexivity]
    | eapply within_connect_loop; [quiet_solve|reflexivity]
    | eapply within_if
    | eapply within_option2; [intros ? ?|]
    | eapply within_option2_applied; [intros ? ?|]
    | eapply within_option; [intros ?|]
    | eapply within_bind; [|intros ?] ].

Ltac budget :=
  eapply within_weaken;
  [ unfold ble_enter_dfu, discover, buttonless_entry, dfutarg_connect, dfutarg_lookup,
      dfutarg_found, fail; cbn zeta; within_solve
  | vm_compute; lia ].

Lemma ble_enter_dfu_connections (interface address : string) (atype : BLE_ATYPE) :
  within connect_cost 4 (ble_enter_dfu env interface address atype).
Proof. budget. Qed.

Lemma ble_enter_dfu_pauses (interface address : string) (atype : BLE_ATYPE) :
  within sleep_cost 15 (ble_enter_dfu env interface address atype).
Proof. budget. Qed.

Lemma ble_enter_dfu_writes (interface address : string) (atype : BLE_ATYPE) :
  within write_cost 1 (ble_enter_dfu env interface address atype).
Proof. budget. Qed.

Lemma ble_enter_dfu_waits (interface address : string) (atype : BLE_ATYPE) :
  within wait_cost 1 (ble_enter_dfu env interface address atype).
Proof. budget. Qed.

Lemma ble_enter_dfu_disconnections (interface address : string) (atype : BLE_ATYPE) :
  within disconnect_cost 1 (ble_enter_dfu env interface address atype).
Proof. budget. Qed.

(** X22.  Whatever the radio and the peer do, one call of [ble_enter_dfu]
    asks for at most four connections (three attempts at the device and
    one at DfuTarg), sleeps for at most 15 seconds, writes to a
    characteristic at most once, waits for a notification at most once and
    disconnects at most once. *)
Theorem ble_enter_dfu_budget (interface address : string) (atype : BLE_ATYPE) (s : state) :
  exists t,
    trace (run (ble_enter_dfu env interface address atype) s).2 = trace s ++ t /\
    (cost connect_cost t <= 4)%nat /\
    (cost sleep_cost t <= 15)%nat /\
    (cost write_cost t <= 1)%nat /\
    (cost wait_cost t <= 1)%nat /\
    (cost disconnect_cost t <= 1)%nat.
Proof.
  rewrite run_snd.
  destruct (ble_enter_dfu_connections interface address atype s) as (t & Ht & Hc).
  destruct (ble_enter_dfu_pauses interface address atype s) as (t1 & Ht1 & Hc1).
  destruct (ble_enter_dfu_writes interface address atype s) as (t2 & Ht2 & Hc2).
  destruct (ble_enter_dfu_waits interface address atype s) as (t3 & Ht3 & Hc3).
  destruct (ble_enter_dfu_disconnections interface address atype s) as (t4 & Ht4 & Hc4).
  rewrite Ht in Ht1, Ht2, Ht3, Ht4.
  apply app_inv_head in Ht1, Ht2, Ht3, Ht4. subst t1 t2 t3 t4.
  exists t. repeat split; assumption.
Qed.

End Further.

(** *** The address of DfuTarg *)

(** X23.  [mac[0]++] is an increment of one byte: on an address whose byte
    0 is 0xFF it gives 0x00 there and carries nothing into byte 1, so the
    address that the array stands for goes down by 255 instead of up by
    one; the other bytes are never touched. *)
Theorem mac_hop_wraps (rest : list Z) :
  mac_hop (255 :: rest) = 0 :: rest /\
  mac_value (mac_hop (255 :: rest)) = mac_value (255 :: rest) - 255.
Proof.
  split; [reflexivity|].
  change (mac_hop (255 :: rest)) with (0 :: rest).
  unfold mac_value. cbn [foldr]. lia.
Qed.

(** X24.  The hop keeps an address an address: the array has the same
    length, its bytes stay within 0..255, all bytes but byte 0 are the
    same, and byte 0 is always another one than before. *)
Theorem mac_hop_bytes (mac : list Z) :
  Forall (fun b => 0 <= b < 256) mac ->
  length (mac_hop mac) = length mac /\
  Forall (fun b => 0 <= b < 256) (mac_hop mac) /\
  (forall i : nat, i <> 0%nat -> mac_hop mac !! i = mac !! i) /\
  (mac <> [] -> mac_hop mac !! 0%nat <> mac !! 0%nat).
Proof.
  intros Hb. unfold mac_hop. destruct mac as [|b rest]; cbn.
  - repeat split; [constructor|congruence].
  - inversion Hb as [|? ? Hb0 Hrest]; subst. split; [reflexivity|]. split.
    + constructor; [apply Z.mod_pos_bound; lia|exact Hrest].
    + split; [intros [|i] Hi; [congruence|reflexivity]|].
      intros _ E. injection E as E.
      destruct (Z.eq_dec b 255) as [->|Hne]; [discriminate|].
      rewrite Z.mod_small in E by lia. lia.
Qed.

End TransportFacts.

(** * Runs of the further properties *)

Module FurtherRuns.

Import RefJson Packages Examples.

Lemma ready_run (k : nat) :
  ready (world_of (package manifest init_packet firmware) k) (dat_file init_packet) bin_file.
Proof.
  exists (package manifest init_packet firmware), "app.dat"%string, "app.bin"%string.
  repeat split; vm_compute; reflexivity.
Qed.

(** A manifest that is no JSON: [main] returns -1. *)
Lemma main_exit_codes_witness :
  let w := world_of (package (qq "{ 'manifest'") init_packet firmware) 0 in
  (w_zip w = None /\ -1 = EXIT_FAILURE) \/
  (exists zip,
      w_zip w = Some zip /\
      (read_manifest zip (w_residue w) None None).1.1.1 = -1 /\ -1 = -1) \/
  (exists zip,
      w_zip w = Some zip /\
      (read_manifest zip (w_residue w) None None).1.1.1 = 0 /\ -1 = 0).
Proof.
  intros w.
  apply (main_exit_codes 1 w (-1) [LOG_ERR "Manifest not valid JSON"; serial_fini (-1)]).
  vm_compute. reflexivity.
Defined.

Lemma main_serial_fini_last_witness :
  exists tr',
    [ serial_init; dfu_ping true; dfu_set_packet_receive_notification 0;
      dfu_get_serial_mtu;
      dfu_object_write_procedure 1 (dat_file init_packet) 4;
      dfu_object_write_procedure 2 bin_file 8;
      serial_fini 3 ]
    = tr' ++ [serial_fini (if existsb is_serial_init tr' then 3 else -1)] /\
    forallb (fun e => negb (is_serial_fini e)) tr' = true.
Proof.
  apply (main_serial_fini_last 1 (world_of (package manifest init_packet firmware) 0)
           EXIT_SUCCESS).
  vm_compute. reflexivity.
Defined.

Lemma main_dfu_needs_package_witness :
  exists zf1 zf2, ready (world_of (package manifest init_packet firmware) 2) zf1 zf2.
Proof.
  apply (main_dfu_needs_package 1 (world_of (package manifest init_packet firmware) 2)).
  vm_compute. reflexivity.
Defined.

Lemma main_spinning_witness :
  let w := world_of (package manifest init_packet firmware) 5 in
  (exists zf1 zf2, ready w zf1 zf2) /\
  [serial_init; dfu_ping false; sleep 1; dfu_ping false; sleep 1]
  = [serial_init] ++ failed_pings 2 /\
  forall i, (i < 2)%nat -> w_ping w i = false.
Proof.
  intros w.
  apply (main_spinning 2 w [serial_init; dfu_ping false; sleep 1; dfu_ping false; sleep 1]).
  vm_compute. reflexivity.
Defined.

Lemma manifest_no_nul : Forall (fun c => c <> NUL) manifest.
Proof. vm_compute. repeat (constructor; [discriminate|]). constructor. Qed.

Lemma open_manifest_no_nul : Forall (fun c => c <> NUL) open_manifest.
Proof. vm_compute. repeat (constructor; [discriminate|]). constructor. Qed.

Lemma read_manifest_stops_at_nul_witness :
  let zip := package (cut_manifest (qq "} } }")) init_packet firmware in
  let zip' := package (cut_manifest []) init_packet firmware in
  read_manifest zip (qq "x") None None = read_manifest zip' [] None None /\
  read_manifest zip (qq "x") None None = manifest_result manifest None None.
Proof.
  intros zip zip'.
  apply (read_manifest_stops_at_nul zip zip' true manifest (qq "} } }") [] (qq "x") []
           None None).
  - vm_compute. reflexivity.
  - vm_compute. reflexivity.
  - exact manifest_no_nul.
  - vm_compute. lia.
Defined.


Lemma main_options_port_witness :
  conf_serport (main_options atoi command_line ["app.zip"%string] conf_start).1
  = Some "/dev/ttyACM0"%string.
Proof.
  apply (proj2 (main_options_port atoi command_line ["app.zip"%string] conf_start)
           [(opt_d, None)] (Some "/dev/ttyACM0"%string) [(opt_h, None)]).
  - reflexivity.
  - repeat constructor. vm_compute. discriminate.
  - repeat constructor. vm_compute. discriminate.
Defined.

Lemma main_options_help_goes_on_witness :
  let kept := filter (fun g => g.1 = opt_d \/ g.1 = opt_p) command_line in
  (forall conf,
      (main_options atoi command_line ["app.zip"%string] conf).1
      = (main_options atoi kept ["app.zip"%string] conf).1) /\
  (forall sys fuel,
      (nrfdfu atoi command_line ["app.zip"%string] sys fuel).2
      = (nrfdfu atoi kept ["app.zip"%string] sys fuel).2).
Proof.
  apply (main_options_help_goes_on atoi command_line ["app.zip"%string]).
  repeat constructor; vm_compute; discriminate.
Defined.

End FurtherRuns.

Module TransportRuns.

Import Ble Peers Transport Examples BleFacts TransportFacts.

Lemma connected_run (env : ble_env) :
  connect_loop env "app" BAT_RANDOM 0 (initialised "hci0" initial)
  = ((connect_loop env "app" BAT_RANDOM 0 (initialised "hci0" initial)).1, connected env).
Proof. apply surjective_pairing. Qed.

Lemma entered_run (env : ble_env) :
  (run (ble_enter_dfu env "hci0" "app" BAT_RANDOM) initial).1 = true ->
  run (ble_enter_dfu env "hci0" "app" BAT_RANDOM) initial = (true, entered env).
Proof.
  unfold entered. destruct (run _ initial) as [b s']. cbn. now intros ->.
Qed.

Lemma ble_enter_dfu_ready_witness :
  let s' := entered (radio 1 application refusing) in
  exists c d,
    cp s' = Some c /\ dp s' = Some d /\
    ch_subscribe_ok c = true /\
    handlers s' !! ch_uuid c = Some control_notify /\
    (exists dv srv,
        dev s' = Some dv /\ dv !! DFU_SERVICE_UUID = Some srv /\
        srv !! DFU_CONTROL_UUID = Some c /\ srv !! DFU_DATA_UUID = Some d) /\
    last (trace s') = Some (ev_notify_start c).
Proof.
  intros s'.
  apply (ble_enter_dfu_ready (radio 1 application refusing) "hci0" "app" BAT_RANDOM
           initial s').
  apply entered_run. vm_compute. reflexivity.
Defined.

Lemma ble_read_keeps_tail_witness :
  let env := radio 0 application (fun _ => [refused; response]) in
  exists s',
    ble_read env listening
    = (Some (n_data response ++ drop (length (n_data response)) (recv_buf listening)), s') /\
    recv_buf s' = n_data response ++ drop (length (n_data response)) (recv_buf listening) /\
    cp s' = cp listening /\ dp s' = dp listening /\ dev s' = dev listening /\
    handlers s' = handlers listening.
Proof.
  intros env.
  apply (ble_read_keeps_tail env listening [refused] response []).
  - reflexivity.
  - repeat constructor; vm_compute; congruence.
  - vm_compute. reflexivity.
  - vm_compute. reflexivity.
  - vm_compute. lia.
Defined.

Lemma ble_read_timeout_state_witness :
  let env := radio 0 application (fun _ => [refused]) in
  exists s',
    ble_read env listening = (None, s') /\
    control_noti s' = false /\
    recv_buf s' = recv_buf listening /\
    waits s' = S (waits listening) /\
    last (trace s') = Some (LOG_ERR "BLE waiting for notification failed").
Proof.
  intros env.
  apply (ble_read_timeout_state env listening).
  constructor; [right; vm_compute; congruence|constructor].
Defined.

Lemma ble_read_after_enter_witness :
  let env := radio 0 (dfutarg control_char) answering in
  exists buf s',
    ble_read env (entered env) = (Some buf, s') /\
    take (length (n_data response)) buf = n_data response.
Proof.
  intros env.
  apply (ble_read_after_enter env "hci0" "app" BAT_RANDOM initial (entered env)
           control_char response []).
  - apply entered_run. vm_compute. reflexivity.
  - vm_compute. reflexivity.
  - vm_compute. reflexivity.
  - reflexivity.
  - vm_compute. reflexivity.
  - vm_compute. lia.
Defined.

Lemma ble_write_ctrl_after_enter_witness :
  let env := radio 0 (dfutarg control_char) answering in
  exists c s2,
    cp (entered env) = Some c /\
    ble_write_ctrl env [9; 1] (entered env) = Some (ch_write_ok c, s2) /\
    trace s2 = trace (entered env)
                 ++ (if env_debug env then [dump_data "CP: " [9; 1]] else [])
                 ++ [ev_char_write c [9; 1]] /\
    cp s2 = Some c.
Proof.
  intros env.
  apply (ble_write_ctrl_after_enter env "hci0" "app" BAT_RANDOM initial (entered env) [9; 1]).
  apply entered_run. vm_compute. reflexivity.
Defined.

Lemma ble_enter_dfu_wait_skips_strangers_witness :
  let env := radio 0 application crossing in
  exists logged post,
    trace (run (ble_enter_dfu env "hci0" "app" BAT_RANDOM) initial).2 =
      trace (connected env) ++
      [ ev_get_serv DFU_SERVICE_UUID; ev_get_char DFU_BUTTONLESS_UUID;
        ev_indicate_start buttonless_char; LOG_NOTI "Enter DFU Bootloader";
        ev_char_write buttonless_char [1]; ev_loop_timeout 10000000 ] ++
      map ev_notification [early] ++ [ev_notification confirmed]
      ++ logged ++ [ev_disconnect] ++ post /\
    (logged = [] \/ logged = [LOG_ERR "Unexpected response"]) /\
    ((3 <= length (n_data confirmed))%nat -> logged = unexpected (n_data confirmed)).
Proof.
  intros env.
  apply (ble_enter_dfu_wait_skips_strangers env "hci0" "app" BAT_RANDOM initial
           0%nat (connected env) application application_service buttonless_char
           [early] confirmed []).
  - reflexivity.
  - apply connected_run.
  - vm_compute. lia.
  - vm_compute. reflexivity.
  - vm_compute. reflexivity.
  - vm_compute. reflexivity.
  - reflexivity.
  - reflexivity.
  - vm_compute. reflexivity.
  - vm_compute. reflexivity.
  - repeat constructor; vm_compute; congruence.
  - reflexivity.
  - vm_compute. reflexivity.
Defined.

(** An answer of two bytes ends the wait like any other; the callback
    finds 0x01 behind the value and logs nothing. *)
Lemma ble_enter_dfu_clipped_answer :
  let r := run (ble_enter_dfu (radio 0 application clipping) "hci0" "app" BAT_RANDOM) initial in
  r.1 = true /\
  trace r.2 =
    [ ev_init "hci0"; LOG_NOTI "Connecting to"; ev_connect "app" BAT_RANDOM;
      ev_get_serv DFU_SERVICE_UUID; ev_get_char DFU_BUTTONLESS_UUID;
      ev_indicate_start buttonless_char; LOG_NOTI "Enter DFU Bootloader";
      ev_char_write buttonless_char [1]; ev_loop_timeout 10000000;
      ev_notification clipped;
      ev_disconnect; LOG_NOTI "Connecting to DfuTarg"; ev_connect "dfutarg" BAT_RANDOM;
      ev_get_serv DFU_SERVICE_UUID; ev_get_char DFU_DATA_UUID; ev_get_char DFU_CONTROL_UUID;
      LOG_NOTI "DFU characteristics found"; ev_notify_start control_char ].
Proof. split; vm_compute; reflexivity. Qed.

Lemma ble_enter_dfu_no_service_witness :
  let env := radio 1 plain_device quiet in
  run (ble_enter_dfu env "hci0" "app" BAT_RANDOM) initial
  = (false, log (LOG_ERR "DFU Service not found")
              (log (ev_get_serv DFU_SERVICE_UUID) (connected env))).
Proof.
  intros env.
  apply (ble_enter_dfu_no_service env "hci0" "app" BAT_RANDOM initial
           1%nat (connected env) plain_device).
  - reflexivity.
  - apply connected_run.
  - vm_compute. lia.
  - vm_compute. reflexivity.
  - vm_compute. reflexivity.
Defined.

Lemma ble_enter_dfu_direct_incomplete_witness :
  let env := radio 0 data_only_device quiet in
  let '(ret, s') := run (ble_enter_dfu env "hci0" "app" BAT_RANDOM) initial in
  ret = false /\
  trace s' = trace (connected env) ++
    [ ev_get_serv DFU_SERVICE_UUID; ev_get_char DFU_BUTTONLESS_UUID;
      LOG_ERR "Could not find buttonless DFU UUID";
      ev_get_char DFU_DATA_UUID; ev_get_char DFU_CONTROL_UUID ] /\
  dp s' = data_only_service !! DFU_DATA_UUID /\
  cp s' = data_only_service !! DFU_CONTROL_UUID /\
  handlers s' = handlers (connected env).
Proof.
  intros env.
  apply (ble_enter_dfu_direct_incomplete env "hci0" "app" BAT_RANDOM initial
           0%nat (connected env) data_only_device data_only_service).
  - reflexivity.
  - apply connected_run.
  - vm_compute. lia.
  - vm_compute. reflexivity.
  - vm_compute. reflexivity.
  - vm_compute. reflexivity.
  - right. vm_compute. reflexivity.
Defined.

Lemma ble_enter_dfu_buttonless_refused_witness :
  let env := radio 0 locked_device quiet in
  let '(ret, s') := run (ble_enter_dfu env "hci0" "app" BAT_RANDOM) initial in
  ret = false /\
  trace s' = trace (connected env) ++
    [ ev_get_serv DFU_SERVICE_UUID; ev_get_char DFU_BUTTONLESS_UUID;
      ev_indicate_start locked_char ] ++
    (if ch_subscribe_ok locked_char
     then [ LOG_NOTI "Enter DFU Bootloader"; ev_char_write locked_char [1];
            LOG_ERR "Could not write buttonless" ]
     else [ LOG_ERR "Could not start buttonless notification" ]) /\
  dev s' = Some locked_device /\ waits s' = waits (connected env).
Proof.
  intros env.
  apply (ble_enter_dfu_buttonless_refused env "hci0" "app" BAT_RANDOM initial
           0%nat (connected env) locked_device locked_service locked_char).
  - reflexivity.
  - apply connected_run.
  - vm_compute. lia.
  - vm_compute. reflexivity.
  - vm_compute. reflexivity.
  - vm_compute. reflexivity.
  - right. reflexivity.
Defined.

Lemma ble_enter_dfu_dfutarg_incomplete_witness :
  let '(ret, s') := run (ble_enter_dfu broken_radio "hci0" "app" BAT_RANDOM) initial in
  ret = false /\ dp s' = None /\ cp s' = None /\
  last (trace s') = Some (LOG_ERR "Could not find DFU UUIDs").
Proof.
  apply (ble_enter_dfu_dfutarg_incomplete broken_radio "hci0" "app" BAT_RANDOM initial
           0%nat (connected broken_radio) application application_service buttonless_char
           data_only_device data_only_service).
  - reflexivity.
  - apply connected_run.
  - vm_compute. lia.
  - vm_compute. reflexivity.
  - vm_compute. reflexivity.
  - vm_compute. reflexivity.
  - reflexivity.
  - reflexivity.
  - vm_compute. reflexivity.
  - vm_compute. reflexivity.
  - right. vm_compute. reflexivity.
Defined.

Lemma mac_hop_bytes_witness :
  let mac := [255; 17; 0; 0; 0; 192] in
  length (mac_hop mac) = length mac /\
  Forall (fun b => 0 <= b < 256) (mac_hop mac) /\
  (forall i : nat, i <> 0%nat -> mac_hop mac !! i = mac !! i) /\
  (mac <> [] -> mac_hop mac !! 0%nat <> mac !! 0%nat).
Proof.
  intros mac. apply (mac_hop_bytes mac). repeat constructor; lia.
Defined.

End TransportRuns.
